(** * Event processor of the e-commerce streaming pipeline

    Shallow embedding of [src/app/processor.py], [src/app/bq_client.py] and
    the outcome mapping of [src/app/main.py].

    - Python values coming from [json.loads] are the inductive [json].
    - [datetime] objects are a wall-clock reading (microseconds since
      0001-01-01T00:00:00, always inside [datetime.min .. datetime.max]) and
      an optional UTC offset.
    - Exceptions are values with their [__context__]; code that may raise
      returns a [result]; code that calls the BigQuery client threads the log
      of [insert_rows_json] calls ([py]); such a call returns the error list
      of the service or raises.
    - Functions of the Python libraries (pydantic coercions, [json.dumps],
      [datetime.fromisoformat], ...) are the fields of [PyLib]. *)

From Stdlib Require Import ZArith List String Ascii Bool Lia Floats Eqdep_dec.
Import ListNotations.
Local Open Scope string_scope.
Local Open Scope Z_scope.

(** ** Python strings *)

(** [str.isspace] on one character (code points below 256). *)
Definition isspace (c : ascii) : bool :=
  let n := Z.of_nat (nat_of_ascii c) in
  ((9 <=? n) && (n <=? 13)) || ((28 <=? n) && (n <=? 32))
  || (n =? 133) || (n =? 160).

Fixpoint lstrip (s : string) : string :=
  match s with
  | EmptyString => EmptyString
  | String c s' => if isspace c then lstrip s' else s
  end.

Fixpoint rstrip (s : string) : string :=
  match s with
  | EmptyString => EmptyString
  | String c s' =>
      match rstrip s' with
      | EmptyString => if isspace c then EmptyString else String c EmptyString
      | r => String c r
      end
  end.

(** [s.strip()] *)
Definition strip (s : string) : string := rstrip (lstrip s).

(** [s.replace(old, new)] for a non-empty [old]: occurrences are replaced
    from left to right without overlap; [skip] counts the characters of an
    occurrence still to be dropped. *)
Fixpoint replace_from (skip : nat) (old new s : string) : string :=
  match s with
  | EmptyString => EmptyString
  | String c s' =>
      match skip with
      | S k => replace_from k old new s'
      | O =>
          if prefix old s
          then new ++ replace_from (Nat.pred (String.length old)) old new s'
          else String c (replace_from O old new s')
      end
  end.

Definition replace (old new s : string) : string := replace_from 0 old new s.

(** [s.endswith(suffix)] *)
Fixpoint endswith (s suffix : string) : bool :=
  (s =? suffix)%string
  || match s with
     | EmptyString => false
     | String _ s' => endswith s' suffix
     end.

(** Truthiness of a [str | None] value. *)
Definition truthy (v : option string) : bool :=
  match v with
  | Some (String _ _) => true
  | _ => false
  end.

(** [a or b] on [str | None] values. *)
Definition py_or (a b : option string) : option string :=
  if truthy a then a else b.

(** ** Exceptions and effects *)

(** The exception classes: the two the processor's own code raises, and
    any other class, by name, for what a library call raises. *)
Inductive exc_type : Type :=
| RuntimeError
| OverflowError
| OtherException (class_name : string).

#[warnings="-register-all"]
Inductive exn : Type :=
  Exn (ty : exc_type) (msg : string) (context : option exn).

Definition exc_kind (e : exn) : exc_type := let 'Exn ty _ _ := e in ty.
(** [str(exc)] *)
Definition exc_str (e : exn) : string := let 'Exn _ msg _ := e in msg.
(** [exc.__context__] *)
Definition exc_context (e : exn) : option exn := let 'Exn _ _ c := e in c.

(** Raising [e] while [handled] is being handled sets [e.__context__]. *)
Definition set_context (handled e : exn) : exn :=
  let 'Exn ty msg _ := e in Exn ty msg (Some handled).

Inductive result (A : Type) : Type :=
| Ok (a : A)
| Raise (e : exn).
Arguments Ok {A} a.
Arguments Raise {A} e.

Definition rbind {A B} (m : result A) (k : A -> result B) : result B :=
  match m with
  | Ok a => k a
  | Raise e => Raise e
  end.

(** ** [datetime] *)

Definition US_PER_SECOND : Z := 1000000.
Definition US_PER_DAY : Z := 86400 * US_PER_SECOND.
(** [datetime.max.toordinal()] *)
Definition _MAXORDINAL : Z := 3652059.

(** A wall-clock reading lies between [datetime.min] and [datetime.max]. *)
Definition in_range (t : Z) : bool :=
  (0 <=? t) && (t <? _MAXORDINAL * US_PER_DAY).

Record wallclock : Type := {
  ticks : Z;   (* microseconds since 0001-01-01T00:00:00 *)
  ticks_ok : in_range ticks = true
}.

Record datetime : Type := {
  wall : wallclock;
  tzinfo : option Z   (* [utcoffset()] in microseconds; [None] when naive *)
}.

Definition mk_wall (t : Z) : option wallclock :=
  (if in_range t as b return in_range t = b -> option wallclock
   then fun H => Some {| ticks := t; ticks_ok := H |}
   else fun _ => None) eq_refl.

(** The instant an aware [datetime] denotes, in microseconds of UTC. *)
Definition instant (off : Z) (w : wallclock) : Z := ticks w - off.

(** [dt.replace(tzinfo=UTC)] *)
Definition replace_tzinfo_UTC (dt : datetime) : datetime :=
  {| wall := wall dt; tzinfo := Some 0 |}.

(** [dt.astimezone(UTC)]: [(dt - offset).replace(tzinfo=UTC)], where the
    subtraction raises [OverflowError] outside [datetime.min .. datetime.max].
    A naive [dt] is read in the system's local zone, whose offset is
    [local_offset]. *)
Definition astimezone_UTC (local_offset : Z) (dt : datetime) : result datetime :=
  let off := match tzinfo dt with Some o => o | None => local_offset end in
  match mk_wall (instant off (wall dt)) with
  | Some w => Ok {| wall := w; tzinfo := Some 0 |}
  | None => Raise (Exn OverflowError "date value out of range" None)
  end.

(** *** The proleptic Gregorian calendar of [datetime] *)

Definition _DAYS_IN_MONTH : list Z :=
  [-1; 31; 28; 31; 30; 31; 30; 31; 31; 30; 31; 30; 31].
Definition _DAYS_BEFORE_MONTH : list Z :=
  [-1; 0; 31; 59; 90; 120; 151; 181; 212; 243; 273; 304; 334].

Definition tbl (t : list Z) (i : Z) : Z := nth (Z.to_nat i) t 0.

Definition _is_leap (year : Z) : bool :=
  (year mod 4 =? 0) && (negb (year mod 100 =? 0) || (year mod 400 =? 0)).

Definition _days_before_year (year : Z) : Z :=
  let y := year - 1 in y * 365 + y / 4 - y / 100 + y / 400.

Definition _days_in_month (year month : Z) : Z :=
  if (month =? 2) && _is_leap year then 29 else tbl _DAYS_IN_MONTH month.

Definition _days_before_month (year month : Z) : Z :=
  tbl _DAYS_BEFORE_MONTH month
  + (if (2 <? month) && _is_leap year then 1 else 0).

Definition _ymd2ord (year month day : Z) : Z :=
  _days_before_year year + _days_before_month year month + day.

Definition _ord2ymd (n : Z) : Z * Z * Z :=
  let n := n - 1 in
  let n400 := n / 146097 in
  let n := n mod 146097 in
  let year := n400 * 400 + 1 in
  let n100 := n / 36524 in
  let n := n mod 36524 in
  let n4 := n / 1461 in
  let n := n mod 1461 in
  let n1 := n / 365 in
  let n := n mod 365 in
  let year := year + n100 * 100 + n4 * 4 + n1 in
  if (n1 =? 4) || (n100 =? 4) then (year - 1, 12, 31)
  else
    let leapyear := (n1 =? 3) && (negb (n4 =? 24) || (n100 =? 3)) in
    let month := Z.shiftr (n + 50) 5 in
    let preceding :=
      tbl _DAYS_BEFORE_MONTH month
      + (if (2 <? month) && leapyear then 1 else 0) in
    if preceding >? n
    then
      let month := month - 1 in
      let preceding :=
        preceding
        - (tbl _DAYS_IN_MONTH month
           + (if (month =? 2) && leapyear then 1 else 0)) in
      (year, month, n - preceding + 1)
    else (year, month, n - preceding + 1).

(** The month and the day of the [r]-th day (from 0) of a year. *)
Definition month_day (leap : bool) (r : Z) : Z * Z :=
  let month := Z.shiftr (r + 50) 5 in
  let preceding :=
    tbl _DAYS_BEFORE_MONTH month + (if (2 <? month) && leap then 1 else 0) in
  if preceding >? r
  then (month - 1,
        r - (preceding
             - (tbl _DAYS_IN_MONTH (month - 1)
                + (if (month - 1 =? 2) && leap then 1 else 0))) + 1)
  else (month, r - preceding + 1).

(** *** [isoformat] *)

Definition digit_char (d : Z) : ascii := ascii_of_nat (Z.to_nat (48 + d)).

(** The [width] lowest digits of [n] in [base], most significant first. *)
Fixpoint padnum (base : Z) (digit : Z -> ascii) (width : nat) (n : Z)
  : string :=
  match width with
  | O => EmptyString
  | S w =>
      padnum base digit w (n / base)
      ++ String (digit (n mod base)) EmptyString
  end.

(** ["%0<width>d" % n] for [0 <= n < 10 ^ width]. *)
Definition zpad : nat -> Z -> string := padnum 10 digit_char.

(** [_format_offset] *)
Definition _format_offset (off : option Z) : string :=
  match off with
  | None => ""
  | Some off =>
      let sign := if off <? 0 then "-" else "+" in
      let a := Z.abs off in
      let hh := a / (3600 * US_PER_SECOND) in
      let mm := (a / (60 * US_PER_SECOND)) mod 60 in
      let ss := (a / US_PER_SECOND) mod 60 in
      let us := a mod US_PER_SECOND in
      sign ++ zpad 2 hh ++ ":" ++ zpad 2 mm
      ++ (if (ss =? 0) && (us =? 0) then ""
          else ":" ++ zpad 2 ss ++ (if us =? 0 then "" else "." ++ zpad 6 us))
  end.

(** The date and time part of [dt.isoformat()]. *)
Definition isoformat_wall (t : Z) : string :=
  let '(y, m, d) := _ord2ymd (t / US_PER_DAY + 1) in
  let r := t mod US_PER_DAY in
  let secs := r / US_PER_SECOND in
  let us := r mod US_PER_SECOND in
  zpad 4 y ++ "-" ++ zpad 2 m ++ "-" ++ zpad 2 d
  ++ "T" ++ zpad 2 (secs / 3600) ++ ":" ++ zpad 2 ((secs / 60) mod 60)
  ++ ":" ++ zpad 2 (secs mod 60)
  ++ (if us =? 0 then "" else "." ++ zpad 6 us).

(** [dt.isoformat()] *)
Definition isoformat (dt : datetime) : string :=
  isoformat_wall (ticks (wall dt)) ++ _format_offset (tzinfo dt).


(** ** JSON values and library functions *)

#[warnings="-register-all"]
Inductive json : Type :=
| JNull
| JBool (b : bool)
| JInt (n : Z)
| JFloat (f : float)
| JStr (s : string)
| JList (l : list json)
| JDict (kv : list (string * json)).

(** A Python [dict] with string keys, in insertion order. *)
Definition dict : Type := list (string * json).

Fixpoint lookup (d : dict) (k : string) : option json :=
  match d with
  | [] => None
  | (k', v) :: d' => if (k' =? k)%string then Some v else lookup d' k
  end.

(** [d.get(k)] *)
Definition dict_get (d : dict) (k : string) : json :=
  match lookup d k with
  | Some v => v
  | None => JNull
  end.


(** [uuid.UUID]: a 128-bit integer. *)
Definition uuid_range (n : Z) : bool := (0 <=? n) && (n <? 2 ^ 128).

Record UUID : Type := {
  uuid_int : Z;
  uuid_ok : uuid_range uuid_int = true
}.

Definition hex_char (d : Z) : ascii :=
  if d <? 10 then digit_char d else ascii_of_nat (Z.to_nat (87 + d)).

(** ["%0<width>x" % n] for [0 <= n < 16 ^ width]. *)
Definition hexpad : nat -> Z -> string := padnum 16 hex_char.

(** [str(u)] for a [UUID]: 8-4-4-4-12 lower-case hexadecimal digits. *)
Definition uuid_str (u : UUID) : string :=
  let h := hexpad 32 (uuid_int u) in
  substring 0 8 h ++ "-" ++ substring 8 4 h ++ "-" ++ substring 12 4 h
  ++ "-" ++ substring 16 4 h ++ "-" ++ substring 20 12 h.

(** One entry of pydantic's [ValidationError.errors()] before it is tied to
    a field. *)
Record errinfo : Type := {
  e_type : string;
  e_msg : string;
  e_ctx : option json
}.

(** Functions of the Python libraries the processor calls. *)
Record PyLib : Type := {
  (** [datetime.fromisoformat]; [None] stands for [ValueError]. *)
  fromisoformat : string -> option datetime;
  (** UTC offset of the system's local zone, used by [astimezone] on a naive
      [datetime]. *)
  local_offset : Z;
  (** [json.dumps] *)
  json_dumps : json -> string;
  (** [repr] of a JSON-like value *)
  py_repr : json -> string;
  (** pydantic's coercion of one input value to [UUID], [float], [datetime] *)
  uuid_validate : json -> errinfo + UUID;
  float_validate : json -> errinfo + float;
  datetime_validate : json -> errinfo + datetime
}.

(** [str(v)]: a string is its own [str]; other values print as their [repr]. *)
Definition py_str (L : PyLib) (v : json) : string :=
  match v with
  | JStr s => s
  | _ => py_repr L v
  end.

(** ** The BigQuery writer ([bq_client.py]) *)

Record BigQueryTarget : Type := {
  dataset_id : string;
  table_id : string
}.

Record RawRow : Type := {
  raw_message_id : option string;
  raw_event_id : option string;
  raw_publish_time : option string;
  raw_ingestion_time : option string;
  raw_raw_payload : string;
  raw_source : string;
  raw_attributes : string;
  raw_is_valid : bool;
  raw_validation_errors : option string
}.

Record ProcessedRow : Type := {
  proc_event_id : option string;
  proc_user_id : string;
  proc_event_type : string;
  proc_product_id : string;
  proc_category : string;
  proc_price : float;
  proc_device : string;
  proc_city : string;
  proc_event_time : option string;
  proc_ingestion_time : option string
}.

Record ErrorRow : Type := {
  err_message_id : option string;
  err_event_id : option string;
  err_publish_time : option string;
  err_ingestion_time : option string;
  err_stage : string;
  err_error_message : string;
  err_error_details : option string;
  err_raw_payload : string;
  err_attributes : string;
  err_source : string
}.

(** The three row shapes [process_event] builds. *)
Inductive row : Type :=
| Raw (r : RawRow)
| Processed (r : ProcessedRow)
| Error (r : ErrorRow).

(** One call [insert_rows_json(table_ref, [dict(row)], row_ids=row_ids)]. *)
Record insert_call : Type := {
  call_table : string;
  call_row : row;
  call_row_ids : option (list string)
}.

(** The writer: its client's project and what the client's
    [insert_rows_json] does on a call, given the calls made before: it
    returns the list of per-row errors of the BigQuery service, or raises
    (a transport or API failure).  An exception of the client is taken to be
    raised by the call itself, so that its [__context__] is set like that of
    any exception raised at the place of the call. *)
Record BigQueryWriter : Type := {
  project : string;
  insert_rows_json : list insert_call -> insert_call -> result (list json)
}.

(** Code that calls the service: the log of calls is threaded through. *)
Definition py (A : Type) : Type :=
  list insert_call -> list insert_call * result A.

Definition ret {A} (a : A) : py A := fun log => (log, Ok a).
Definition raise {A} (e : exn) : py A := fun log => (log, Raise e).
Definition lift {A} (r : result A) : py A := fun log => (log, r).

Definition bind {A B} (m : py A) (k : A -> py B) : py B :=
  fun log =>
    match m log with
    | (log', Ok a) => k a log'
    | (log', Raise e) => (log', Raise e)
    end.

Notation "x <- m ;; k" := (bind m (fun x => k))
  (at level 61, m at next level, right associativity).
Notation "m ;;; k" := (bind m (fun _ => k))
  (at level 61, right associativity).

(** [try: body / except Exception as exc: handler exc] *)
Definition try_except {A} (body : py A) (handler : exn -> py A) : py A :=
  fun log =>
    match body log with
    | (log', Ok a) => (log', Ok a)
    | (log', Raise exc) => handler exc log'
    end.

(** Code run while [exc] is being handled: an exception it raises gets
    [exc] as its [__context__]. *)
Definition handling {A} (exc : exn) (m : py A) : py A :=
  fun log =>
    match m log with
    | (log', Ok a) => (log', Ok a)
    | (log', Raise e) => (log', Raise (set_context exc e))
    end.

(** [try: body / finally: fin] inside the handler of [enclosing].  [fin] is
    given the exception being handled while it runs: the one that ended
    [body] if there is one, else [enclosing].  When [fin] completes, an
    exception that ended [body] propagates. *)
Definition try_finally {A} (enclosing : exn) (body : py A)
    (fin : exn -> py unit) : py A :=
  fun log =>
    match body log with
    | (log', Ok a) =>
        match fin enclosing log' with
        | (log'', Ok _) => (log'', Ok a)
        | (log'', Raise e) => (log'', Raise e)
        end
    | (log', Raise e) =>
        match fin e log' with
        | (log'', Ok _) => (log'', Raise e)
        | (log'', Raise e') => (log'', Raise e')
        end
    end.

(** A bare [raise]: re-raises the exception being handled. *)
Definition bare_raise {A} (handled : exn) : py A := raise handled.

(** ** The event schema ([EcommerceEvent]) *)

Inductive EventType : Type :=
| view | add_to_cart | remove_from_cart | checkout | purchase | search.

Inductive DeviceType : Type :=
| mobile | desktop | tablet.

(** [member.value] *)
Definition EventType_value (t : EventType) : string :=
  match t with
  | view => "view"
  | add_to_cart => "add_to_cart"
  | remove_from_cart => "remove_from_cart"
  | checkout => "checkout"
  | purchase => "purchase"
  | search => "search"
  end.

Definition DeviceType_value (t : DeviceType) : string :=
  match t with
  | mobile => "mobile"
  | desktop => "desktop"
  | tablet => "tablet"
  end.

Definition EventType_members : list EventType :=
  [view; add_to_cart; remove_from_cart; checkout; purchase; search].
Definition DeviceType_members : list DeviceType := [mobile; desktop; tablet].

Record EcommerceEvent : Type := {
  event_id : UUID;
  user_id : string;
  event_type : EventType;
  product_id : string;
  category : string;
  price : float;
  device : DeviceType;
  city : string;
  event_time : datetime
}.

(** A field-level defect: one entry of [exc.errors(include_url=False)]. *)
Record defect : Type := {
  d_type : string;
  d_loc : string;
  d_msg : string;
  d_input : json;
  d_ctx : option json
}.

Definition defect_json (d : defect) : json :=
  JDict ([("type", JStr (d_type d)); ("loc", JList [JStr (d_loc d)]);
          ("msg", JStr (d_msg d)); ("input", d_input d)]
         ++ match d_ctx d with
            | Some c => [("ctx", c)]
            | None => []
            end)%list.

(** [Field(min_length=.., max_length=..)] on a [str] field; the messages are
    those of the schema's bounds, 1 and 128. *)
Definition constrained_str (min_length max_length : nat) (v : json)
  : errinfo + string :=
  match v with
  | JStr s =>
      if (String.length s <? min_length)%nat
      then inl {| e_type := "string_too_short";
                  e_msg := "String should have at least 1 character";
                  e_ctx := Some (JDict [("min_length", JInt (Z.of_nat min_length))]) |}
      else if (max_length <? String.length s)%nat
      then inl {| e_type := "string_too_long";
                  e_msg := "String should have at most 128 characters";
                  e_ctx := Some (JDict [("max_length", JInt (Z.of_nat max_length))]) |}
      else inr s
  | _ => inl {| e_type := "string_type";
                e_msg := "Input should be a valid string";
                e_ctx := None |}
  end.

(** A [str]-valued enum field: the input must equal the value of a member. *)
Definition enum_validate {E} (members : list E) (value : E -> string)
    (expected : string) (v : json) : errinfo + E :=
  let err := {| e_type := "enum";
                e_msg := "Input should be " ++ expected;
                e_ctx := Some (JDict [("expected", JStr expected)]) |} in
  match v with
  | JStr s =>
      match find (fun m => (value m =? s)%string) members with
      | Some m => inr m
      | None => inl err
      end
  | _ => inl err
  end.

(** [Field(ge=0)] on a [float] field: pydantic refuses a value that is
    less than the bound.  NaN, which is not less than anything, passes
    ([allow_inf_nan] is left at its default). *)
Definition float_ge (L : PyLib) (bound : float) (v : json) : errinfo + float :=
  match float_validate L v with
  | inl e => inl e
  | inr f =>
      if PrimFloat.ltb f bound
      then inl {| e_type := "greater_than_equal";
                  e_msg := "Input should be greater than or equal to 0";
                  e_ctx := Some (JDict [("ge", JFloat bound)]) |}
      else inr f
  end.

(** Validation collects the defects of all fields. *)
Definition validation (A : Type) : Type := (list defect + A)%type.

(** One declared field: absent from the input, rejected by its validator,
    or accepted. *)
Definition field {T} (event : dict) (loc : string)
    (validator : json -> errinfo + T) : validation T :=
  match lookup event loc with
  | None =>
      inl [{| d_type := "missing"; d_loc := loc; d_msg := "Field required";
              d_input := JDict event; d_ctx := None |}]
  | Some v =>
      match validator v with
      | inl e =>
          inl [{| d_type := e_type e; d_loc := loc; d_msg := e_msg e;
                  d_input := v; d_ctx := e_ctx e |}]
      | inr t => inr t
      end
  end.

Definition vap {A B} (f : validation (A -> B)) (x : validation A)
  : validation B :=
  match f, x with
  | inr g, inr a => inr (g a)
  | inl e1, inr _ => inl e1
  | inr _, inl e2 => inl e2
  | inl e1, inl e2 => inl (e1 ++ e2)%list
  end.

Notation "f <*> x" := (vap f x) (at level 50, left associativity).

Definition EventType_expected : string :=
  "'view', 'add_to_cart', 'remove_from_cart', 'checkout', 'purchase' or 'search'".
Definition DeviceType_expected : string := "'mobile', 'desktop' or 'tablet'".

Record PipelineConfig : Type := {
  cfg_dataset_id : string;
  raw_table_id : string;
  processed_table_id : string;
  error_table_id : string;
  source : string
}.

(** The response of the push endpoint. *)
Inductive http_response : Type :=
| Http (status_code : Z) (detail : string).

Section Processor.

Context (L : PyLib).

(** [EcommerceEvent.model_validate(event)]: [inl] stands for
    [ValidationError] with its [errors()]; extra keys are allowed. *)
Definition model_validate (event : dict) : validation EcommerceEvent :=
  inr Build_EcommerceEvent
  <*> field event "event_id" (uuid_validate L)
  <*> field event "user_id" (constrained_str 1 128)
  <*> field event "event_type"
        (enum_validate EventType_members EventType_value EventType_expected)
  <*> field event "product_id" (constrained_str 1 128)
  <*> field event "category" (constrained_str 1 128)
  <*> field event "price" (float_ge L 0%float)
  <*> field event "device"
        (enum_validate DeviceType_members DeviceType_value DeviceType_expected)
  <*> field event "city" (constrained_str 1 128)
  <*> field event "event_time" (datetime_validate L).

(** [_utc_now()], given the reading of the clock. *)
Definition _utc_now (clock : wallclock) : datetime :=
  {| wall := clock; tzinfo := Some 0 |}.

Definition _to_rfc3339 (dt : option datetime) : result (option string) :=
  match dt with
  | None => Ok None
  | Some dt =>
      let normalized := dt in
      let normalized :=
        match tzinfo normalized with
        | None => replace_tzinfo_UTC normalized
        | Some _ => normalized
        end in
      rbind (astimezone_UTC (local_offset L) normalized) (fun normalized =>
      Ok (Some (replace "+00:00" "Z" (isoformat normalized))))
  end.

Definition _parse_rfc3339_timestamp (value : option string)
  : result (option datetime) :=
  match value with
  | None | Some EmptyString => Ok None
  | Some value =>
      let normalized := replace "Z" "+00:00" (strip value) in
      match fromisoformat L normalized with
      | None => Ok None
      | Some parsed =>
          match tzinfo parsed with
          | None => Ok (Some (replace_tzinfo_UTC parsed))
          | Some _ =>
              rbind (astimezone_UTC (local_offset L) parsed)
                    (fun d => Ok (Some d))
          end
      end
  end.

(** [BigQueryWriter.insert_row] *)
Definition insert_row (writer : BigQueryWriter) (target : BigQueryTarget)
    (r : row) (insert_id : option string) : py unit :=
  fun log =>
    let table_ref :=
      project writer ++ "." ++ dataset_id target ++ "." ++ table_id target in
    let row_ids :=
      match insert_id with
      | Some (String c s) => Some [String c s]
      | _ => None
      end in
    let call :=
      {| call_table := table_ref; call_row := r; call_row_ids := row_ids |} in
    ((log ++ [call])%list,
     match insert_rows_json writer log call with
     | Raise exc => Raise exc
     | Ok [] => Ok tt
     | Ok errors =>
         Raise (Exn RuntimeError
                  ("BigQuery insert failed for " ++ table_ref ++ ": "
                   ++ py_repr L (JList errors)) None)
     end).

Definition or_empty (attributes : option dict) : dict :=
  match attributes with
  | Some d => d
  | None => []
  end.

Definition _insert_error_event (writer : BigQueryWriter)
    (config : PipelineConfig) (message_id : option string)
    (publish_time : option datetime) (ingestion_time : datetime)
    (event_id : option string) (stage error_message : string)
    (error_details : option json) (raw_event : dict)
    (attributes : option dict) : py unit :=
  let target :=
    {| dataset_id := cfg_dataset_id config;
       table_id := error_table_id config |} in
  p <- lift (_to_rfc3339 publish_time) ;;
  i <- lift (_to_rfc3339 (Some ingestion_time)) ;;
  let row :=
    {| err_message_id := message_id;
       err_event_id := event_id;
       err_publish_time := p;
       err_ingestion_time := i;
       err_stage := stage;
       err_error_message := error_message;
       err_error_details := option_map (json_dumps L) error_details;
       err_raw_payload := json_dumps L (JDict raw_event);
       err_attributes := json_dumps L (JDict (or_empty attributes));
       err_source := source config |} in
  insert_row writer target (Error row) (py_or event_id message_id).

Definition process_event (clock : wallclock) (event : dict)
    (message_id publish_time : option string) (attributes : option dict)
    (writer : BigQueryWriter) (config : PipelineConfig) : py unit :=
  let ingestion_time := _utc_now clock in
  publish_dt <- lift (_parse_rfc3339_timestamp publish_time) ;;
  (* try: validated = EcommerceEvent.model_validate(event)
     except ValidationError as exc: ... *)
  let outcome := model_validate event in
  let validation_errors :=
    match outcome with inl errs => Some errs | inr _ => None end in
  let is_valid := match outcome with inl _ => false | inr _ => true end in
  let validated :=
    match outcome with inl _ => None | inr v => Some v end in
  let event_id_str := option_map (fun v => uuid_str (event_id v)) validated in
  event_time_dt <-
    lift (match validated with
          | Some v =>
              match tzinfo (event_time v) with
              | Some _ =>
                  rbind (astimezone_UTC (local_offset L) (event_time v))
                        (fun d => Ok (Some d))
              | None => Ok (Some (replace_tzinfo_UTC (event_time v)))
              end
          | None =>
              _parse_rfc3339_timestamp
                match dict_get event "event_time" with
                | JNull => None
                | v => Some (py_str L v)
                end
          end) ;;
  let raw_target :=
    {| dataset_id := cfg_dataset_id config; table_id := raw_table_id config |} in
  let processed_target :=
    {| dataset_id := cfg_dataset_id config;
       table_id := processed_table_id config |} in
  raw_publish <- lift (_to_rfc3339 publish_dt) ;;
  raw_ingestion <- lift (_to_rfc3339 (Some ingestion_time)) ;;
  let raw_row :=
    {| raw_message_id := message_id;
       raw_event_id := event_id_str;
       raw_publish_time := raw_publish;
       raw_ingestion_time := raw_ingestion;
       raw_raw_payload := json_dumps L (JDict event);
       raw_source := source config;
       raw_attributes := json_dumps L (JDict (or_empty attributes));
       raw_is_valid := is_valid;
       raw_validation_errors :=
         match validation_errors with
         | Some (d :: ds) =>
             Some (json_dumps L (JList (map defect_json (d :: ds))))
         | _ => None
         end |} in
  let insert_id := py_or event_id_str message_id in
  insert_row writer raw_target (Raw raw_row) insert_id ;;;
  match is_valid, validated with
  | true, Some validated =>
      processed_time <- lift (_to_rfc3339 event_time_dt) ;;
      processed_ingestion <- lift (_to_rfc3339 (Some ingestion_time)) ;;
      let processed_row :=
        {| proc_event_id := event_id_str;
           proc_user_id := user_id validated;
           proc_event_type := EventType_value (event_type validated);
           proc_product_id := product_id validated;
           proc_category := category validated;
           proc_price := price validated;
           proc_device := DeviceType_value (device validated);
           proc_city := city validated;
           proc_event_time := processed_time;
           proc_ingestion_time := processed_ingestion |} in
      try_except
        (insert_row writer processed_target (Processed processed_row) insert_id)
        (fun exc =>
           try_finally exc
             (handling exc
                (_insert_error_event writer config message_id publish_dt
                   ingestion_time event_id_str "processed_insert"
                   (exc_str exc) None event attributes))
             (fun handled => bare_raise handled))
  | _, _ =>
      _insert_error_event writer config message_id publish_dt ingestion_time
        event_id_str "validation" "Schema validation failed"
        (option_map (fun errs => JList (map defect_json errs)) validation_errors)
        event attributes
  end.

(** The end of [pubsub_push] ([main.py]): a failure of [process_event]
    becomes a 500 with [str(exc)], which makes Pub/Sub deliver again; a normal
    return acknowledges the message. *)
Definition pubsub_push_response (outcome : result unit) : http_response :=
  match outcome with
  | Ok _ => Http 200 "accepted"
  | Raise exc => Http 500 (exc_str exc)
  end.

End Processor.

(** ** A concrete library

    [Demo.lib] instantiates [PyLib] with parsers and printers for the usual
    textual forms: ISO 8601 date-times [YYYY-MM-DDTHH:MM:SS[.ffffff]] followed
    by nothing, [Z] or [+HH:MM]; hyphenated UUIDs; JSON numbers as floats.
    On these forms it agrees with the Python libraries; it rejects the other
    forms they accept. *)
Module Demo.

Definition char_digit (c : ascii) : option Z :=
  let n := Z.of_nat (nat_of_ascii c) in
  if (48 <=? n) && (n <=? 57) then Some (n - 48) else None.

Definition char_hex (c : ascii) : option Z :=
  let n := Z.of_nat (nat_of_ascii c) in
  if (48 <=? n) && (n <=? 57) then Some (n - 48)
  else if (97 <=? n) && (n <=? 102) then Some (n - 87)
  else if (65 <=? n) && (n <=? 70) then Some (n - 55)
  else None.

(** Reads [width] digits from the front of [s]. *)
Fixpoint take_num (base : Z) (digit_of : ascii -> option Z) (width : nat)
    (acc : Z) (s : string) : option (Z * string) :=
  match width with
  | O => Some (acc, s)
  | S w =>
      match s with
      | EmptyString => None
      | String c s' =>
          match digit_of c with
          | Some d => take_num base digit_of w (acc * base + d) s'
          | None => None
          end
      end
  end.

Definition take_dec (width : nat) (s : string) : option (Z * string) :=
  take_num 10 char_digit width 0 s.

Definition take_char (c : ascii) (s : string) : option string :=
  match s with
  | String c' s' => if Ascii.eqb c c' then Some s' else None
  | EmptyString => None
  end.

Definition obind {A B} (m : option A) (k : A -> option B) : option B :=
  match m with
  | Some a => k a
  | None => None
  end.

Notation "'do' x <- m ; k" := (obind m (fun x => k))
  (at level 60, x name, m at next level, right associativity).
Notation "'do' ' p <- m ; k" := (obind m (fun x => match x with p => k end))
  (at level 60, p pattern, m at next level, right associativity).

(** The offset at the end of a date-time: nothing (naive), [Z] or [+HH:MM]. *)
Definition parse_offset (s : string) : option (option Z) :=
  match s with
  | EmptyString => Some None
  | String "Z" EmptyString => Some (Some 0)
  | String sg s1 =>
      do sign <- (if Ascii.eqb sg "+" then Some 1
                  else if Ascii.eqb sg "-" then Some (-1) else None);
      do '(hh, s2) <- take_dec 2 s1;
      do s3 <- take_char ":" s2;
      do '(mm, s4) <- take_dec 2 s3;
      match s4 with
      | EmptyString =>
          if (hh <? 24) && (mm <? 60)
          then Some (Some (sign * ((hh * 3600 + mm * 60) * US_PER_SECOND)))
          else None
      | _ => None
      end
  end.

Definition iso_datetime (s : string) : option datetime :=
  do '(y, s) <- take_dec 4 s;
  do s <- take_char "-" s;
  do '(m, s) <- take_dec 2 s;
  do s <- take_char "-" s;
  do '(d, s) <- take_dec 2 s;
  do s <- take_char "T" s;
  do '(hh, s) <- take_dec 2 s;
  do s <- take_char ":" s;
  do '(mm, s) <- take_dec 2 s;
  do s <- take_char ":" s;
  do '(ss, s) <- take_dec 2 s;
  do '(us, s) <- match s with
                 | String "." s' => take_dec 6 s'
                 | _ => Some (0, s)
                 end;
  do tz <- parse_offset s;
  if (1 <=? y) && (1 <=? m) && (m <=? 12) && (1 <=? d)
     && (d <=? _days_in_month y m) && (hh <? 24) && (mm <? 60) && (ss <? 60)
  then
    do w <- mk_wall ((((_ymd2ord y m d - 1) * 86400 + hh * 3600 + mm * 60 + ss)
                      * US_PER_SECOND) + us);
    Some {| wall := w; tzinfo := tz |}
  else None.

Definition mk_uuid (n : Z) : option UUID :=
  (if uuid_range n as b return uuid_range n = b -> option UUID
   then fun H => Some {| uuid_int := n; uuid_ok := H |}
   else fun _ => None) eq_refl.

Definition nth_char (n : nat) (s : string) : ascii :=
  match get n s with
  | Some c => c
  | None => Ascii.zero
  end.

(** The 32 digits of a hyphenated UUID. *)
Definition unhyphen (s : string) : option string :=
  if (String.length s =? 36)%nat
     && Ascii.eqb (nth_char 8 s) "-" && Ascii.eqb (nth_char 13 s) "-"
     && Ascii.eqb (nth_char 18 s) "-" && Ascii.eqb (nth_char 23 s) "-"
  then Some (substring 0 8 s ++ substring 9 4 s ++ substring 14 4 s
             ++ substring 19 4 s ++ substring 24 12 s)
  else None.

Definition parse_uuid (s : string) : option UUID :=
  do h <- unhyphen s;
  do '(n, rest) <- take_num 16 char_hex 32 0 h;
  mk_uuid n.

Definition uuid_of_json (v : json) : errinfo + UUID :=
  match v with
  | JStr s =>
      match parse_uuid s with
      | Some u => inr u
      | None => inl {| e_type := "uuid_parsing";
                       e_msg := "Input should be a valid UUID";
                       e_ctx := None |}
      end
  | _ => inl {| e_type := "uuid_type";
                e_msg := "UUID input should be a string, bytes or UUID object";
                e_ctx := None |}
  end.

Definition float_of_json (v : json) : errinfo + float :=
  match v with
  | JFloat f => inr f
  | JInt n =>
      if (Z.abs n <? 2 ^ 53)
      then inr (if n <? 0
                then PrimFloat.opp (PrimFloat.of_uint63 (Uint63.of_Z (- n)))
                else PrimFloat.of_uint63 (Uint63.of_Z n))
      else inl {| e_type := "float_parsing";
                  e_msg := "Input should be a valid number";
                  e_ctx := None |}
  | _ => inl {| e_type := "float_type";
                e_msg := "Input should be a valid number";
                e_ctx := None |}
  end.

Definition datetime_of_json (v : json) : errinfo + datetime :=
  match v with
  | JStr s =>
      match iso_datetime s with
      | Some d => inr d
      | None => inl {| e_type := "datetime_from_date_parsing";
                       e_msg := "Input should be a valid datetime or date";
                       e_ctx := None |}
      end
  | _ => inl {| e_type := "datetime_type";
                e_msg := "Input should be a valid datetime";
                e_ctx := None |}
  end.

(** Decimal digits of [n >= 0] without leading zeros. *)
Fixpoint drop_zeros (s : string) : string :=
  match s with
  | String c s' =>
      match s' with
      | EmptyString => s
      | _ => if Ascii.eqb c "0" then drop_zeros s' else s
      end
  | EmptyString => s
  end.

Definition digits_of (n : Z) : string :=
  drop_zeros (zpad (Z.to_nat (Z.log2 n / 3 + 1)) n).

Definition int_text (n : Z) : string :=
  if n <? 0 then "-" ++ digits_of (- n) else digits_of n.

Fixpoint drop_last_zeros (s : string) : string :=
  match s with
  | EmptyString => EmptyString
  | String c s' =>
      match drop_last_zeros s' with
      | EmptyString =>
          if Ascii.eqb c "0" then EmptyString else String c EmptyString
      | r => String c r
      end
  end.

(** The exact decimal expansion of a float. *)
Definition float_text (f : float) : string :=
  match Prim2SF f with
  | S754_zero s => if s then "-0.0" else "0.0"
  | S754_infinity s => if s then "-Infinity" else "Infinity"
  | S754_nan => "NaN"
  | S754_finite s m e =>
      (if s then "-" else "")
      ++ (if 0 <=? e then digits_of (Z.pos m * 2 ^ e) ++ ".0"
          else
            let n := Z.pos m * 5 ^ (- e) in
            digits_of (n / 10 ^ (- e)) ++ "."
            ++ match drop_last_zeros (zpad (Z.to_nat (- e)) (n mod 10 ^ (- e))) with
               | EmptyString => "0"
               | r => r
               end)
  end.

Fixpoint escape (q : ascii) (s : string) : string :=
  match s with
  | EmptyString => EmptyString
  | String c s' =>
      if Ascii.eqb c q || Ascii.eqb c "\"
      then String "\" (String c (escape q s'))
      else String c (escape q s')
  end.

Definition quoted (q : ascii) (s : string) : string :=
  String q (escape q s ++ String q EmptyString).

(** A printer of JSON-like values, in the style of [json.dumps] or of
    [repr]. *)
Fixpoint text (python : bool) (v : json) : string :=
  let q := if python then "'"%char else ascii_of_nat 34 in
  match v with
  | JNull => if python then "None" else "null"
  | JBool true => if python then "True" else "true"
  | JBool false => if python then "False" else "false"
  | JInt n => int_text n
  | JFloat f => float_text f
  | JStr s => quoted q s
  | JList l =>
      "["
      ++ (fix items (l : list json) : string :=
            match l with
            | [] => ""
            | [x] => text python x
            | x :: l' => text python x ++ ", " ++ items l'
            end) l
      ++ "]"
  | JDict kv =>
      "{"
      ++ (fix items (kv : list (string * json)) : string :=
            match kv with
            | [] => ""
            | [(k, x)] => quoted q k ++ ": " ++ text python x
            | (k, x) :: kv' =>
                quoted q k ++ ": " ++ text python x ++ ", " ++ items kv'
            end) kv
      ++ "}"
  end.

Definition lib : PyLib :=
  {| fromisoformat := iso_datetime;
     local_offset := 0;
     json_dumps := text false;
     py_repr := text true;
     uuid_validate := uuid_of_json;
     float_validate := float_of_json;
     datetime_validate := datetime_of_json |}.

Definition config : PipelineConfig :=
  {| cfg_dataset_id := "ecommerce_streaming";
     raw_table_id := "ecommerce_raw_events";
     processed_table_id := "ecommerce_processed_events";
     error_table_id := "ecommerce_error_events";
     source := "pubsub" |}.

(** A service that accepts every insert. *)
Definition accepting : BigQueryWriter :=
  {| project := "shop"; insert_rows_json := fun _ _ => Ok [] |}.

(** A service that rejects the inserts into the tables [refs]. *)
Definition rejecting (refs : list string) : BigQueryWriter :=
  {| project := "shop";
     insert_rows_json := fun _ call =>
       if existsb (String.eqb (call_table call)) refs
       then Ok [JDict [("index", JInt 0);
                       ("errors",
                        JList [JDict [("reason", JStr "backendError")]])]]
       else Ok [] |}.

(** A client that raises on the inserts into the tables [refs]. *)
Definition unavailable : exn :=
  Exn (OtherException "ServiceUnavailable") "503 backend unavailable" None.

Definition failing (refs : list string) : BigQueryWriter :=
  {| project := "shop";
     insert_rows_json := fun _ call =>
       if existsb (String.eqb (call_table call)) refs
       then Raise unavailable
       else Ok [] |}.

Definition raw_ref : string := "shop.ecommerce_streaming.ecommerce_raw_events".
Definition processed_ref : string :=
  "shop.ecommerce_streaming.ecommerce_processed_events".
Definition error_ref : string :=
  "shop.ecommerce_streaming.ecommerce_error_events".

(** 2024-01-01T12:00:00 *)
Definition clock : wallclock :=
  {| ticks := (738885 * 86400 + 43200) * 1000000; ticks_ok := eq_refl |}.

(** The valid event of the scenario. *)
Definition purchase_event : dict :=
  [("event_id", JStr "123e4567-e89b-12d3-a456-426614174000");
   ("user_id", JStr "U1");
   ("event_type", JStr "purchase");
   ("product_id", JStr "P1");
   ("category", JStr "electronics");
   ("price", JFloat 12.5);
   ("device", JStr "mobile");
   ("city", JStr "Lagos");
   ("event_time", JStr "2024-01-01T00:00:00Z")].

(** An invalid event that carries a well-formed [event_id]. *)
Definition invalid_event : dict :=
  [("event_id", JStr "123e4567-e89b-12d3-a456-426614174000");
   ("price", JInt (-5))].

(** An invalid event whose [event_time] is a well-formed RFC3339 timestamp
    before [datetime.min] once converted to UTC. *)
Definition early_event : dict :=
  [("event_time", JStr "0001-01-01T00:00:00+05:00")].


(** An event all of whose fields are present and all but [city] malformed:
    not a UUID, an empty string, a type in the wrong case, a number for a
    string, 129 characters, a negative price, an unknown device and a text
    that is no timestamp; [session_id] is outside the schema. *)
Definition malformed_event : dict :=
  [("event_id", JStr "not-a-uuid");
   ("user_id", JStr "");
   ("event_type", JStr "Purchase");
   ("product_id", JInt 7);
   ("category", JStr (string_of_list_ascii (repeat "x"%char 129)));
   ("price", JFloat (-0.5)%float);
   ("device", JStr "phone");
   ("city", JStr "Lagos");
   ("event_time", JStr "yesterday");
   ("session_id", JStr "s")].

(** The valid event with an [event_time] before [datetime.min] once
    converted to UTC. *)
Definition early_purchase_event : dict :=
  [("event_id", JStr "123e4567-e89b-12d3-a456-426614174000");
   ("user_id", JStr "U1");
   ("event_type", JStr "purchase");
   ("product_id", JStr "P1");
   ("category", JStr "electronics");
   ("price", JFloat 12.5);
   ("device", JStr "mobile");
   ("city", JStr "Lagos");
   ("event_time", JStr "0001-01-01T00:00:00+05:00")].

Definition rejected_message (table_ref : string) : string :=
  "BigQuery insert failed for " ++ table_ref
  ++ ": [{'index': 0, 'errors': [{'reason': 'backendError'}]}]".

End Demo.


(** ** The runs of [process_event]

    The calls [process_event] makes and its outcome, written out branch by
    branch; [process_event_routed] below proves that this is what
    [process_event] does. *)

(** A [datetime] whose offset is zero. *)
Definition is_utc (d : datetime) : Prop := tzinfo d = Some 0.

(** The text [_to_rfc3339] produces for the UTC reading [w]. *)
Definition rfc3339_Z (w : wallclock) : string :=
  replace "+00:00" "Z" (isoformat {| wall := w; tzinfo := Some 0 |}).

Definition render (d : option datetime) : option string :=
  option_map (fun d => rfc3339_Z (wall d)) d.

Section Router.

Context (L : PyLib) (clock : wallclock) (event : dict)
  (message_id publish_time : option string) (attributes : option dict)
  (writer : BigQueryWriter) (config : PipelineConfig).

(** The call [insert_row] makes. *)
Definition mk_call (target : BigQueryTarget) (r : row)
    (insert_id : option string) : insert_call :=
  {| call_table :=
       project writer ++ "." ++ dataset_id target ++ "." ++ table_id target;
     call_row := r;
     call_row_ids :=
       match insert_id with
       | Some (String c s) => Some [String c s]
       | _ => None
       end |}.

(** The outcome of [insert_row] for the call [c] after the calls [log]. *)
Definition answer (log : list insert_call) (c : insert_call) : result unit :=
  match insert_rows_json writer log c with
  | Raise exc => Raise exc
  | Ok [] => Ok tt
  | Ok errors =>
      Raise (Exn RuntimeError
               ("BigQuery insert failed for " ++ call_table c ++ ": "
                ++ py_repr L (JList errors)) None)
  end.

Definition event_id_str : option string :=
  match model_validate L event with
  | inl _ => None
  | inr v => Some (uuid_str (event_id v))
  end.

Definition insert_id : option string := py_or event_id_str message_id.

(** Lines 210-216: the event time in UTC. *)
Definition normalise_event_time : result (option datetime) :=
  match model_validate L event with
  | inr v =>
      match tzinfo (event_time v) with
      | Some _ =>
          rbind (astimezone_UTC (local_offset L) (event_time v))
                (fun d => Ok (Some d))
      | None => Ok (Some (replace_tzinfo_UTC (event_time v)))
      end
  | inl _ =>
      _parse_rfc3339_timestamp L
        match dict_get event "event_time" with
        | JNull => None
        | v => Some (py_str L v)
        end
  end.

Definition raw_call (publish_dt : option datetime) : insert_call :=
  mk_call
    {| dataset_id := cfg_dataset_id config; table_id := raw_table_id config |}
    (Raw {| raw_message_id := message_id;
            raw_event_id := event_id_str;
            raw_publish_time := render publish_dt;
            raw_ingestion_time := Some (rfc3339_Z clock);
            raw_raw_payload := json_dumps L (JDict event);
            raw_source := source config;
            raw_attributes := json_dumps L (JDict (or_empty attributes));
            raw_is_valid :=
              match model_validate L event with
              | inl _ => false
              | inr _ => true
              end;
            raw_validation_errors :=
              match model_validate L event with
              | inl (d :: ds) =>
                  Some (json_dumps L (JList (map defect_json (d :: ds))))
              | _ => None
              end |})
    insert_id.

Definition error_call (publish_dt : option datetime)
    (stage error_message : string) (error_details : option json)
  : insert_call :=
  mk_call
    {| dataset_id := cfg_dataset_id config;
       table_id := error_table_id config |}
    (Error {| err_message_id := message_id;
              err_event_id := event_id_str;
              err_publish_time := render publish_dt;
              err_ingestion_time := Some (rfc3339_Z clock);
              err_stage := stage;
              err_error_message := error_message;
              err_error_details := option_map (json_dumps L) error_details;
              err_raw_payload := json_dumps L (JDict event);
              err_attributes := json_dumps L (JDict (or_empty attributes));
              err_source := source config |})
    (py_or event_id_str message_id).

Definition processed_call (v : EcommerceEvent)
    (event_time_dt : option datetime) : insert_call :=
  mk_call
    {| dataset_id := cfg_dataset_id config;
       table_id := processed_table_id config |}
    (Processed {| proc_event_id := event_id_str;
                  proc_user_id := user_id v;
                  proc_event_type := EventType_value (event_type v);
                  proc_product_id := product_id v;
                  proc_category := category v;
                  proc_price := price v;
                  proc_device := DeviceType_value (device v);
                  proc_city := city v;
                  proc_event_time := render event_time_dt;
                  proc_ingestion_time := Some (rfc3339_Z clock) |})
    insert_id.

Definition routed : list insert_call * result unit :=
  match _parse_rfc3339_timestamp L publish_time with
  | Raise e => ([], Raise e)
  | Ok publish_dt =>
      match normalise_event_time with
      | Raise e => ([], Raise e)
      | Ok event_time_dt =>
          let c1 := raw_call publish_dt in
          match answer [] c1 with
          | Raise e => ([c1], Raise e)
          | Ok _ =>
              match model_validate L event with
              | inl errs =>
                  let c2 :=
                    error_call publish_dt "validation"
                      "Schema validation failed"
                      (Some (JList (map defect_json errs))) in
                  ([c1; c2], answer [c1] c2)
              | inr v =>
                  let c2 := processed_call v event_time_dt in
                  match answer [c1] c2 with
                  | Ok _ => ([c1; c2], Ok tt)
                  | Raise exc =>
                      let c3 :=
                        error_call publish_dt "processed_insert"
                          (exc_str exc) None in
                      ([c1; c2; c3],
                       match answer [c1; c2] c3 with
                       | Ok _ => Raise exc
                       | Raise e3 => Raise (set_context exc e3)
                       end)
                  end
              end
          end
      end
  end.

End Router.

(** *** The rules of the schema, field by field *)

(** The declared fields, in declaration order. *)
Definition schema_fields : list string :=
  ["event_id"; "user_id"; "event_type"; "product_id"; "category"; "price";
   "device"; "city"; "event_time"].

Definition accepts {T} (validator : json -> errinfo + T) (v : json) : bool :=
  match validator v with
  | inl _ => false
  | inr _ => true
  end.

(** The rule of the field [name] on the value [v], on its own. *)
Definition field_rule (L : PyLib) (name : string) (v : json) : bool :=
  if (name =? "event_id")%string then accepts (uuid_validate L) v
  else if (name =? "event_type")%string
  then accepts (enum_validate EventType_members EventType_value
                  EventType_expected) v
  else if (name =? "price")%string then accepts (float_ge L 0%float) v
  else if (name =? "device")%string
  then accepts (enum_validate DeviceType_members DeviceType_value
                  DeviceType_expected) v
  else if (name =? "event_time")%string then accepts (datetime_validate L) v
  else accepts (constrained_str 1 128) v.

(** The field [name] of [event] is present and obeys its rule. *)
Definition field_ok (L : PyLib) (event : dict) (name : string) : bool :=
  match lookup event name with
  | Some v => field_rule L name v
  | None => false
  end.

(** *** The rules of the schema, as the specification words them *)









(** The defects of a validation outcome. *)
Definition defects_of {A} (r : validation A) : list defect :=
  match r with
  | inl l => l
  | inr _ => []
  end.

(** A failed validation names at least one defect. *)
Definition well_formed {A} (r : validation A) : Prop :=
  match r with
  | inl [] => False
  | _ => True
  end.

(** The [error_message] of an Error Row. *)
Definition row_error_message (r : row) : option string :=
  match r with
  | Error r => Some (err_error_message r)
  | _ => None
  end.



(** A timestamp text the normaliser cannot use: absent, empty, or refused by
    [fromisoformat]. *)
Definition absent_or_unparsable (L : PyLib) (value : option string) : Prop :=
  match value with
  | None => True
  | Some s => s = "" \/ fromisoformat L (replace "Z" "+00:00" (strip s)) = None
  end.

(** The timestamp fields of a row that are not null. *)
Definition present (v : option string) : list string :=
  match v with
  | Some s => [s]
  | None => []
  end.

Definition row_timestamps (r : row) : list string :=
  match r with
  | Raw r => present (raw_publish_time r) ++ present (raw_ingestion_time r)
  | Processed r =>
      present (proc_event_time r) ++ present (proc_ingestion_time r)
  | Error r => present (err_publish_time r) ++ present (err_ingestion_time r)
  end%list.

(** The characters of the date and time part of an ISO text. *)
Definition iso_char (c : ascii) : bool :=
  let n := Z.of_nat (nat_of_ascii c) in
  ((48 <=? n) && (n <=? 58)) || (n =? 45) || (n =? 46) || (n =? 84).

Fixpoint only_chars (p : ascii -> bool) (s : string) : bool :=
  match s with
  | EmptyString => true
  | String c s' => p c && only_chars p s'
  end.

(** *** Reading a Processed Row back *)


(** The UTC instant of a [datetime], in microseconds; a naive one is read as
    UTC, as [process_event] does. *)
Definition utc_instant (d : datetime) : Z :=
  ticks (wall d) - match tzinfo d with Some o => o | None => 0 end.


(** What reading a row back relies on: the validators of the library accept
    the texts the processor prints and the floats it passes on. *)
Record PyLibLaws (L : PyLib) : Prop := {
  uuid_validate_str :
    forall u, uuid_validate L (JStr (uuid_str u)) = inr u;
  float_validate_float :
    forall f, float_validate L (JFloat f) = inr f;
  datetime_validate_rfc3339 :
    forall w, datetime_validate L (JStr (isoformat_wall (ticks w) ++ "Z"))
              = inr {| wall := w; tzinfo := Some 0 |}
}.

(** The shape of a row and the stage of an Error Row. *)
Inductive row_kind : Type :=
| RawWrite
| ProcessedWrite
| ErrorWrite (stage : string).

Definition kind_of (c : insert_call) : row_kind :=
  match call_row c with
  | Raw _ => RawWrite
  | Processed _ => ProcessedWrite
  | Error r => ErrorWrite (err_stage r)
  end.

(** The [publish_time] field of a row; a Processed Row has none. *)
Definition row_publish_time (r : row) : option string :=
  match r with
  | Raw r => raw_publish_time r
  | Processed _ => None
  | Error r => err_publish_time r
  end.

(** * Rows, the push endpoint and the publisher *)

(** The table a row of each shape is meant for. *)
Definition table_for (config : PipelineConfig) (r : row) : string :=
  match r with
  | Raw _ => raw_table_id config
  | Processed _ => processed_table_id config
  | Error _ => error_table_id config
  end.

(** The [ingestion_time] field of a row. *)
Definition row_ingestion_time (r : row) : option string :=
  match r with
  | Raw r => raw_ingestion_time r
  | Processed r => proc_ingestion_time r
  | Error r => err_ingestion_time r
  end.

(** The delivery fields a Raw Row and an Error Row have in common:
    [message_id], [event_id], [publish_time], [raw_payload], [attributes]
    and [source]. *)
Definition row_delivery (r : row)
  : option (option string * option string * option string
            * string * string * string) :=
  match r with
  | Raw r =>
      Some (raw_message_id r, raw_event_id r, raw_publish_time r,
            raw_raw_payload r, raw_attributes r, raw_source r)
  | Error r =>
      Some (err_message_id r, err_event_id r, err_publish_time r,
            err_raw_payload r, err_attributes r, err_source r)
  | Processed _ => None
  end.

(** ** Configuration and the push endpoint ([load_config], [main.py]) *)

(** The environment of the process: [os.environ]. *)
Definition environ : Type := list (string * string).

(** [os.getenv(name)] *)
Fixpoint getenv (env : environ) (name : string) : option string :=
  match env with
  | [] => None
  | (k, v) :: env' => if (k =? name)%string then Some v else getenv env' name
  end.

(** [os.getenv(name, default)] *)
Definition getenv_default (env : environ) (name default : string) : string :=
  match getenv env name with
  | Some v => v
  | None => default
  end.

Definition load_config (env : environ) : PipelineConfig :=
  {| cfg_dataset_id := getenv_default env "BQ_DATASET" "ecommerce_streaming";
     raw_table_id := getenv_default env "BQ_RAW_TABLE" "ecommerce_raw_events";
     processed_table_id :=
       getenv_default env "BQ_PROCESSED_TABLE" "ecommerce_processed_events";
     error_table_id :=
       getenv_default env "BQ_ERROR_TABLE" "ecommerce_error_events";
     source := getenv_default env "EVENT_SOURCE" "pubsub" |}.

(** What the endpoint takes from its libraries and from the outside. *)
Record WebLib : Type := {
  (** [json.loads(base64.b64decode(data).decode("utf-8"))]; [inl] is the
      [str] of the exception one of the three steps raised. *)
  decode_payload : string -> string + json;
  (** [bigquery.Client(project=p).project]; creating the client is taken to
      succeed. *)
  client_project : option string -> string;
  (** What the client's [insert_rows_json] does: the per-row errors of the
      BigQuery service, or an exception. *)
  service : list insert_call -> insert_call -> result (list json)
}.

(** [type(v).__name__] *)
Definition type_name (v : json) : string :=
  match v with
  | JNull => "NoneType"
  | JBool _ => "bool"
  | JInt _ => "int"
  | JFloat _ => "float"
  | JStr _ => "str"
  | JList _ => "list"
  | JDict _ => "dict"
  end.

(** [v if isinstance(v, str) else None] *)
Definition if_str (v : json) : option string :=
  match v with
  | JStr s => Some s
  | _ => None
  end.

(** [v if isinstance(v, dict) else None] *)
Definition if_dict (v : json) : option dict :=
  match v with
  | JDict d => Some d
  | _ => None
  end.

(** [process_event] called with the decoded payload, which need not be an
    object, and what the [except Exception] of the endpoint sees: [inl] is
    [str(exc)].  For a payload that is not an object, [model_validate]
    raises [ValidationError], which is caught, and [event.get] raises
    [AttributeError] before any insert. *)
Definition process_event_any (L : PyLib) (clock : wallclock) (event : json)
    (message_id publish_time : option string) (attributes : option dict)
    (writer : BigQueryWriter) (config : PipelineConfig)
  : list insert_call * (string + unit) :=
  match event with
  | JDict d =>
      match process_event L clock d message_id publish_time attributes
              writer config [] with
      | (log, Ok _) => (log, inr tt)
      | (log, Raise exc) => (log, inl (exc_str exc))
      end
  | _ =>
      match _parse_rfc3339_timestamp L publish_time with
      | Raise exc => ([], inl (exc_str exc))
      | Ok _ =>
          ([], inl ("'" ++ type_name event
                    ++ "' object has no attribute 'get'"))
      end
  end.

(** [pubsub_push] for a request body that parses to the JSON object
    [envelope]: the inserts it causes and its response ([HTTPException]
    becomes the response with its status and detail). *)
Definition pubsub_push (W : WebLib) (L : PyLib) (env : environ)
    (clock : wallclock) (envelope : dict)
  : list insert_call * http_response :=
  match dict_get envelope "message" with
  | JDict message =>
      match dict_get message "data" with
      | JStr data_b64 =>
          match decode_payload W data_b64 with
          | inl exc => ([], Http 400 ("Invalid payload: " ++ exc))
          | inr event =>
              let message_id := dict_get message "messageId" in
              let publish_time := dict_get message "publishTime" in
              let attributes := dict_get message "attributes" in
              let project_id :=
                py_or (getenv env "GCP_PROJECT")
                      (getenv env "GOOGLE_CLOUD_PROJECT") in
              let writer :=
                {| project := client_project W project_id;
                   insert_rows_json := service W |} in
              let config := load_config env in
              match process_event_any L clock event (if_str message_id)
                      (if_str publish_time) (if_dict attributes) writer
                      config with
              | (log, inl detail) => (log, Http 500 detail)
              | (log, inr _) => (log, Http 200 "accepted")
              end
          end
      | _ => ([], Http 400 "Invalid Pub/Sub envelope: missing data")
      end
  | _ => ([], Http 400 "Invalid Pub/Sub envelope: missing message")
  end.

Definition status_of (r : http_response) : Z :=
  let 'Http status _ := r in status.

(** An envelope the endpoint refuses: no [message] object, no [data]
    string in it, or a payload that does not decode. *)
Definition malformed (W : WebLib) (envelope : dict) : Prop :=
  match dict_get envelope "message" with
  | JDict message =>
      match dict_get message "data" with
      | JStr data_b64 => exists exc, decode_payload W data_b64 = inl exc
      | _ => True
      end
  | _ => True
  end.

(** The payload of a well-formed envelope. *)
Definition payload_of (W : WebLib) (envelope : dict) : option json :=
  match dict_get envelope "message" with
  | JDict message =>
      match dict_get message "data" with
      | JStr data_b64 =>
          match decode_payload W data_b64 with
          | inr event => Some event
          | inl _ => None
          end
      | _ => None
      end
  | _ => None
  end.

(** The delivery metadata the endpoint hands to [process_event]. *)
Definition metadata_of (envelope : dict) (key : string) : json :=
  match dict_get envelope "message" with
  | JDict message => dict_get message key
  | _ => JNull
  end.

(** ** The publisher ([publisher/main.py]) *)

Definition EVENT_TYPES : list string :=
  ["view"; "add_to_cart"; "remove_from_cart"; "checkout"; "purchase";
   "search"].

Definition DEVICES : list string := ["mobile"; "desktop"; "tablet"].

Definition CATEGORIES : list string :=
  ["electronics"; "fashion"; "home"; "beauty"; "sports"; "books"].

(** [utc_now_iso()], given the reading of the clock. *)
Definition utc_now_iso (clock : wallclock) : string :=
  replace "+00:00" "Z" (isoformat (_utc_now clock)).

(** [random.choice(xs)]: the element at the index drawn. *)
Definition choice (xs : list string) (drawn : nat) : string :=
  nth (drawn mod List.length xs) xs "".

(** What the random sources return during one call of [generate_event]:
    the indices of the three [choice]s, [fake.pyfloat], the two
    [fake.random_int], [fake.city], the two [uuid.uuid4] and
    [fake.ipv4_public]. *)
Record draws : Type := {
  drawn_event_type : nat;
  drawn_base_price : float;
  drawn_user : Z;
  drawn_product : Z;
  drawn_category : nat;
  drawn_device : nat;
  drawn_city : string;
  drawn_event_id : UUID;
  drawn_session_id : UUID;
  drawn_ip : string
}.

(** The price before rounding: purchases and checkouts keep the base
    price, cart events take 0.7 of it, the others 0.4 (the two factors are
    written as the doubles Python reads them as). *)
Definition scaled_price (event_type : string) (base_price : float) : float :=
  if existsb (String.eqb event_type) ["purchase"; "checkout"]
  then base_price
  else if existsb (String.eqb event_type) ["add_to_cart"; "remove_from_cart"]
  then PrimFloat.mul base_price 0x1.6666666666666p-1%float
  else PrimFloat.mul base_price 0x1.999999999999ap-2%float.

(** [generate_event(fake)]; [round2] is [round(x, 2)]. *)
Definition generate_event (round2 : float -> float) (clock : wallclock)
    (d : draws) : dict :=
  let event_type := choice EVENT_TYPES (drawn_event_type d) in
  let price := scaled_price event_type (drawn_base_price d) in
  [("event_id", JStr (uuid_str (drawn_event_id d)));
   ("user_id", JStr ("U" ++ Demo.int_text (drawn_user d)));
   ("event_type", JStr event_type);
   ("product_id", JStr ("P" ++ Demo.int_text (drawn_product d)));
   ("category", JStr (choice CATEGORIES (drawn_category d)));
   ("price", JFloat (round2 price));
   ("device", JStr (choice DEVICES (drawn_device d)));
   ("city", JStr (drawn_city d));
   ("event_time", JStr (utc_now_iso clock));
   ("session_id", JStr (uuid_str (drawn_session_id d)));
   ("ip", JStr (drawn_ip d))].

(** The enum member a value of [EVENT_TYPES] or [DEVICES] stands for. *)
Definition EventType_of (s : string) : option EventType :=
  find (fun m => (EventType_value m =? s)%string) EventType_members.

Definition DeviceType_of (s : string) : option DeviceType :=
  find (fun m => (DeviceType_value m =? s)%string) DeviceType_members.

(** ** A scenario for the endpoint and the publisher *)

Module DemoPush.

(** The payloads of [Demo.purchase_event], of [Demo.invalid_event] and of
    the JSON text [[1]], in base64 as Pub/Sub pushes them. *)
Definition purchase_data : string :=
  "eyJldmVudF9pZCI6ICIxMjNlNDU2Ny1lODliLTEyZDMtYTQ1Ni00MjY2MTQxNzQwMDAiLCAidXNlcl9pZCI6ICJVMSIsICJldmVudF90eXBlIjogInB1cmNoYXNlIiwgInByb2R1Y3RfaWQiOiAiUDEiLCAiY2F0ZWdvcnkiOiAiZWxlY3Ryb25pY3MiLCAicHJpY2UiOiAxMi41LCAiZGV2aWNlIjogIm1vYmlsZSIsICJjaXR5IjogIkxhZ29zIiwgImV2ZW50X3RpbWUiOiAiMjAyNC0wMS0wMVQwMDowMDowMFoifQ==".

Definition invalid_data : string :=
  "eyJldmVudF9pZCI6ICIxMjNlNDU2Ny1lODliLTEyZDMtYTQ1Ni00MjY2MTQxNzQwMDAiLCAicHJpY2UiOiAtNX0=".

Definition list_data : string := "WzFd".

(** A decoder that knows the three payloads and refuses every other string
    the way [json.loads] refuses a text that holds no JSON value; a client
    whose default project is [shop]; a service that accepts every insert. *)
Definition web : WebLib :=
  {| decode_payload := fun data =>
       if (data =? purchase_data)%string then inr (JDict Demo.purchase_event)
       else if (data =? invalid_data)%string
       then inr (JDict Demo.invalid_event)
       else if (data =? list_data)%string then inr (JList [JInt 1])
       else inl "Expecting value: line 1 column 1 (char 0)";
     client_project := fun p =>
       match p with
       | Some p => p
       | None => "shop"
       end;
     service := fun _ _ => Ok [] |}.

Definition envelope (data : string) : dict :=
  [("message",
    JDict [("data", JStr data);
           ("messageId", JStr "m1");
           ("publishTime", JStr "2024-01-01T00:00:01Z");
           ("attributes", JDict [("producer", JStr "faker")])]);
   ("subscription", JStr "projects/shop/subscriptions/events-push")].

(** An environment with an empty [GCP_PROJECT] and one table renamed. *)
Definition env : environ :=
  [("GCP_PROJECT", "");
   ("GOOGLE_CLOUD_PROJECT", "shop-eu");
   ("BQ_RAW_TABLE", "raw")].

(** One call of [generate_event]: a purchase at the base price 12.5. *)
Definition sample : draws :=
  {| drawn_event_type := 4;
     drawn_base_price := 12.5%float;
     drawn_user := 4711;
     drawn_product := 999999;
     drawn_category := 7;
     drawn_device := 2;
     drawn_city := "Lagos";
     drawn_event_id := {| uuid_int := 2 ^ 100 + 5; uuid_ok := eq_refl |};
     drawn_session_id := {| uuid_int := 7; uuid_ok := eq_refl |};
     drawn_ip := "192.0.2.1" |}.

End DemoPush.

(** * Properties *)

(** ** Wall-clock readings and UTC *)

Lemma in_range_irrelevant (t : Z) (p q : in_range t = true) : p = q.
Proof. apply UIP_dec, bool_dec. Qed.

Lemma wallclock_eq (a b : wallclock) : ticks a = ticks b -> a = b.
Proof.
  destruct a as [t p], b as [u q]; simpl; intros ->.
  f_equal; apply in_range_irrelevant.
Qed.

Lemma mk_wall_Some (t : Z) (w : wallclock) : mk_wall t = Some w -> ticks w = t.
Proof.
  unfold mk_wall.
  generalize (eq_refl (in_range t)).
  generalize (in_range t) at 2 3.
  intros [] e; [intros [= <-]; reflexivity | discriminate].
Qed.

Lemma mk_wall_None (t : Z) : mk_wall t = None -> in_range t = false.
Proof.
  unfold mk_wall.
  generalize (eq_refl (in_range t)).
  generalize (in_range t) at 2 3.
  intros [] e; [discriminate | intros _; exact e].
Qed.

Lemma mk_wall_in_range (t : Z) :
  in_range t = true -> exists w, mk_wall t = Some w /\ ticks w = t.
Proof.
  intros H. destruct (mk_wall t) as [w|] eqn:E.
  - exists w; split; [reflexivity | eapply mk_wall_Some; eauto].
  - apply mk_wall_None in E; congruence.
Qed.

Lemma mk_wall_ticks (w : wallclock) : mk_wall (ticks w) = Some w.
Proof.
  destruct (mk_wall_in_range (ticks w) (ticks_ok w)) as [w' [E T]].
  rewrite E; f_equal; apply wallclock_eq; exact T.
Qed.

Lemma astimezone_UTC_utc (lo : Z) (d : datetime) :
  is_utc d -> astimezone_UTC lo d = Ok d.
Proof.
  destruct d as [w tz]; unfold is_utc, astimezone_UTC, instant; simpl.
  intros ->. rewrite Z.sub_0_r, mk_wall_ticks. reflexivity.
Qed.

Lemma astimezone_UTC_cases (lo : Z) (d : datetime) :
  (exists d', astimezone_UTC lo d = Ok d' /\ is_utc d')
  \/ astimezone_UTC lo d = Raise (Exn OverflowError "date value out of range" None).
Proof.
  unfold astimezone_UTC. destruct (mk_wall _); [left | right; reflexivity].
  eexists; split; reflexivity.
Qed.

Section Normalisation.

Context (L : PyLib).

Lemma _to_rfc3339_utc (d : datetime) :
  is_utc d -> _to_rfc3339 L (Some d) = Ok (Some (rfc3339_Z (wall d))).
Proof.
  intros H. unfold _to_rfc3339. rewrite H.
  rewrite (astimezone_UTC_utc _ d H). simpl.
  destruct d as [w tz]; unfold is_utc in H; simpl in *; subst; reflexivity.
Qed.

Lemma _to_rfc3339_naive (d : datetime) :
  tzinfo d = None -> _to_rfc3339 L (Some d) = Ok (Some (rfc3339_Z (wall d))).
Proof.
  intros H. unfold _to_rfc3339. rewrite H.
  rewrite astimezone_UTC_utc by reflexivity. reflexivity.
Qed.

(** [_parse_rfc3339_timestamp] returns nothing, a UTC [datetime], or raises
    [OverflowError]. *)
Lemma _parse_rfc3339_timestamp_cases (value : option string) :
  _parse_rfc3339_timestamp L value = Ok None
  \/ (exists d, _parse_rfc3339_timestamp L value = Ok (Some d) /\ is_utc d)
  \/ _parse_rfc3339_timestamp L value
     = Raise (Exn OverflowError "date value out of range" None).
Proof.
  unfold _parse_rfc3339_timestamp.
  destruct value as [[|c s]|]; auto.
  destruct (fromisoformat L _) as [parsed|]; auto.
  destruct (tzinfo parsed) eqn:T.
  - destruct (astimezone_UTC_cases (local_offset L) parsed) as [[d' [E U]]|E];
      rewrite E; simpl; eauto.
  - right; left; eexists; split; reflexivity.
Qed.

End Normalisation.

(** ** [process_event], branch by branch *)

Section RouterFacts.

Context (L : PyLib) (clock : wallclock) (event : dict)
  (message_id publish_time : option string) (attributes : option dict)
  (writer : BigQueryWriter) (config : PipelineConfig).

Lemma insert_row_run (target : BigQueryTarget) (r : row)
    (id : option string) (log : list insert_call) :
  insert_row L writer target r id log
  = ((log ++ [mk_call writer target r id])%list,
     answer L writer log (mk_call writer target r id)).
Proof.
  unfold insert_row, answer, mk_call; simpl.
  destruct (insert_rows_json writer log _); reflexivity.
Qed.

Lemma normalise_event_time_cases :
  normalise_event_time L event = Ok None
  \/ (exists d, normalise_event_time L event = Ok (Some d) /\ is_utc d)
  \/ normalise_event_time L event
     = Raise (Exn OverflowError "date value out of range" None).
Proof.
  unfold normalise_event_time.
  destruct (model_validate L event) as [errs|v].
  - apply _parse_rfc3339_timestamp_cases.
  - destruct (tzinfo (event_time v)) eqn:T.
    + destruct (astimezone_UTC_cases (local_offset L) (event_time v))
        as [[d' [E U]]|E]; rewrite E; simpl; eauto.
    + right; left; eexists; split; reflexivity.
Qed.

Lemma _to_rfc3339_render (d : option datetime) :
  (forall d', d = Some d' -> is_utc d') ->
  _to_rfc3339 L d = Ok (render d).
Proof.
  destruct d as [d|]; intros H; [|reflexivity].
  simpl. apply _to_rfc3339_utc. auto.
Qed.

Lemma process_event_routed :
  process_event L clock event message_id publish_time attributes writer
    config []
  = routed L clock event message_id publish_time attributes writer config.
Proof.
  pose proof normalise_event_time_cases as NC.
  assert (I : _to_rfc3339 L (Some (_utc_now clock)) = Ok (Some (rfc3339_Z clock)))
    by (apply _to_rfc3339_utc; reflexivity).
  unfold process_event, routed, raw_call, error_call, processed_call,
    insert_id, event_id_str, _insert_error_event, bind, lift in *.
  unfold normalise_event_time in *.
  assert (P : forall pd, _parse_rfc3339_timestamp L publish_time = Ok pd ->
                         _to_rfc3339 L pd = Ok (render pd)).
  { intros pd E. apply _to_rfc3339_render. intros d' ->.
    destruct (_parse_rfc3339_timestamp_cases L publish_time)
      as [E'|[[d [E' U]]|E']]; congruence. }
  destruct (_parse_rfc3339_timestamp L publish_time) as [pd|e];
    [specialize (P pd eq_refl)|reflexivity].
  destruct (model_validate L event) as [errs|v]; cbv beta iota.
  - destruct (_parse_rfc3339_timestamp L _) as [et|e]; [|reflexivity].
    rewrite ?P, ?I, insert_row_run; cbv beta iota.
    destruct (answer L writer [] _); [|reflexivity].
    rewrite insert_row_run. reflexivity.
  - assert (T : forall et,
               match tzinfo (event_time v) with
               | Some _ =>
                   rbind (astimezone_UTC (local_offset L) (event_time v))
                         (fun d => Ok (Some d))
               | None => Ok (Some (replace_tzinfo_UTC (event_time v)))
               end = Ok et -> _to_rfc3339 L et = Ok (render et)).
    { intros et E. apply _to_rfc3339_render. intros d' ->.
      destruct NC as [E'|[[d [E' U]]|E']]; congruence. }
    destruct (match tzinfo (event_time v) with Some _ => _ | None => _ end)
      as [et|e]; [specialize (T et eq_refl)|reflexivity].
    rewrite ?P, ?I, ?T, insert_row_run; cbv beta iota.
    destruct (answer L writer [] _); [|reflexivity].
    unfold try_except, try_finally, handling, bare_raise, raise, bind, lift.
    rewrite insert_row_run; cbv beta iota.
    destruct (answer L writer _ _) as [[]|exc]; [reflexivity|].
    rewrite ?P, ?I, insert_row_run; cbv beta iota.
    destruct (answer L writer _ _) as [[]|e3]; reflexivity.
Qed.

(** The first call of a run is the Raw Row write, and when it is not
    accepted (the service rejects it or the client raises) nothing else is
    written and the failure propagates. *)
Lemma routed_raw_rejected (c : insert_call) (rest : list insert_call)
    (outcome : result unit) :
  routed L clock event message_id publish_time attributes writer config
  = (c :: rest, outcome) ->
  kind_of c = RawWrite
  /\ (insert_rows_json writer [] c <> Ok [] ->
      rest = [] /\ outcome = answer L writer [] c).
Proof.
  unfold routed.
  destruct (_parse_rfc3339_timestamp L publish_time) as [pd|e];
    [|discriminate].
  destruct (normalise_event_time L event) as [et|e]; [|discriminate].
  cbv zeta.
  destruct (answer L writer [] (raw_call _ _ _ _ _ _ _ pd)) as [[]|e] eqn:A.
  - assert (N : forall c', c' = raw_call L clock event message_id attributes
                                  writer config pd ->
                           insert_rows_json writer [] c' <> Ok [] -> False).
    { intros c' -> H. unfold answer in A.
      destruct (insert_rows_json writer [] _) as [[|x xs]|exc];
        [congruence|discriminate|discriminate]. }
    destruct (model_validate L event) as [errs|v].
    + intros [= <- <- <-]. split; [reflexivity|]. intros H.
      exfalso; eapply N; eauto.
    + destruct (answer L writer [_] _) as [[]|exc];
        intros [= <- <- <-]; (split; [reflexivity|]); intros H;
        exfalso; eapply N; eauto.
  - intros [= <- <- <-]. split; [reflexivity|]. intros _.
    split; [reflexivity | symmetry; exact A].
Qed.

End RouterFacts.

(** ** Failure of the Raw Row write *)

(** C5: when the first insert of a run is not accepted (the BigQuery
    service rejects it, or the client raises), that insert is the Raw Row
    write, no other write is attempted, and [process_event] raises: the
    [RuntimeError] of [insert_row] for a rejection, the client's exception
    otherwise.  The push endpoint turns either into a 500 (a retry by
    Pub/Sub). *)
Theorem raw_write_failure_propagates (L : PyLib) (clock : wallclock)
    (event : dict) (message_id publish_time : option string)
    (attributes : option dict) (writer : BigQueryWriter)
    (config : PipelineConfig) (c : insert_call) (rest : list insert_call)
    (outcome : result unit) :
  process_event L clock event message_id publish_time attributes writer
    config [] = (c :: rest, outcome) ->
  insert_rows_json writer [] c <> Ok [] ->
  kind_of c = RawWrite
  /\ rest = []
  /\ outcome
     = Raise match insert_rows_json writer [] c with
             | Raise exc => exc
             | Ok errors =>
                 Exn RuntimeError
                   ("BigQuery insert failed for " ++ call_table c ++ ": "
                    ++ py_repr L (JList errors)) None
             end
  /\ pubsub_push_response outcome
     = Http 500 match insert_rows_json writer [] c with
                | Raise exc => exc_str exc
                | Ok errors =>
                    "BigQuery insert failed for " ++ call_table c ++ ": "
                    ++ py_repr L (JList errors)
                end.
Proof.
  rewrite process_event_routed. intros R H.
  destruct (routed_raw_rejected _ _ _ _ _ _ _ _ _ _ _ R) as [K T].
  destruct (T H) as [-> ->]. unfold answer.
  destruct (insert_rows_json writer [] c) as [[|x xs]|exc] eqn:E;
    [congruence| |]; repeat split; auto.
Qed.

Lemma raw_write_failure_propagates_witness :
  (exists c rest outcome,
     process_event Demo.lib Demo.clock Demo.purchase_event (Some "m1") None
       None (Demo.rejecting [Demo.raw_ref]) Demo.config []
     = (c :: rest, outcome)
     /\ insert_rows_json (Demo.rejecting [Demo.raw_ref]) [] c <> Ok []
     /\ kind_of c = RawWrite
     /\ rest = []
     /\ pubsub_push_response outcome
        = Http 500
            "BigQuery insert failed for shop.ecommerce_streaming.ecommerce_raw_events: [{'index': 0, 'errors': [{'reason': 'backendError'}]}]")
  /\ (exists c rest outcome,
        process_event Demo.lib Demo.clock Demo.purchase_event (Some "m1")
          None None (Demo.failing [Demo.raw_ref]) Demo.config []
        = (c :: rest, outcome)
        /\ insert_rows_json (Demo.failing [Demo.raw_ref]) [] c
           = Raise Demo.unavailable
        /\ kind_of c = RawWrite
        /\ rest = []
        /\ pubsub_push_response outcome
           = Http 500 "503 backend unavailable").
Proof.
  split.
  - do 3 eexists.
    split; [vm_compute; reflexivity|].
    split; [vm_compute; discriminate|].
    edestruct (raw_write_failure_propagates Demo.lib Demo.clock
                 Demo.purchase_event (Some "m1") None None
                 (Demo.rejecting [Demo.raw_ref]) Demo.config)
      as [K [T [O P]]];
      [vm_compute; reflexivity | vm_compute; discriminate |].
    split; [exact K|]. split; [exact T|]. exact P.
  - do 3 eexists.
    split; [vm_compute; reflexivity|].
    split; [vm_compute; reflexivity|].
    edestruct (raw_write_failure_propagates Demo.lib Demo.clock
                 Demo.purchase_event (Some "m1") None None
                 (Demo.failing [Demo.raw_ref]) Demo.config)
      as [K [T [O P]]];
      [vm_compute; reflexivity | vm_compute; discriminate |].
    split; [exact K|]. split; [exact T|]. exact P.
Defined.

(** ** The writes of a run *)

Section Writes.

Context (L : PyLib) (clock : wallclock) (event : dict)
  (message_id publish_time : option string) (attributes : option dict)
  (writer : BigQueryWriter) (config : PipelineConfig).

Let run : list insert_call * result unit :=
  process_event L clock event message_id publish_time attributes writer
    config [].

Let valid : bool :=
  match model_validate L event with
  | inl _ => false
  | inr _ => true
  end.

(** The five shapes of a run.  Without a write, the conversion of a
    timestamp to UTC overflowed; otherwise the Raw Row comes first, then the
    Processed Row of a valid event or the validation Error Row of an invalid
    one, and a processed_insert Error Row follows a failed Processed Row
    write. *)
Lemma process_event_writes :
  match map kind_of (fst run) with
  | [] => exists e, snd run = Raise e /\ exc_kind e = OverflowError
  | [RawWrite] => exists e, snd run = Raise e
  | [RawWrite; ErrorWrite stage] => stage = "validation" /\ valid = false
  | [RawWrite; ProcessedWrite] => valid = true /\ snd run = Ok tt
  | [RawWrite; ProcessedWrite; ErrorWrite stage] =>
      stage = "processed_insert" /\ valid = true
      /\ exists e, snd run = Raise e
  | _ => False
  end.
Proof.
  subst run valid. rewrite process_event_routed. unfold routed.
  destruct (_parse_rfc3339_timestamp_cases L publish_time)
    as [E|[[pd [E U]]|E]]; rewrite E; [| |simpl; eauto].
  all: destruct (normalise_event_time_cases L event)
    as [N|[[et [N V]]|N]]; rewrite N; [| |simpl; eauto].
  all: cbv zeta.
  all: match goal with
       | |- context [answer L writer [] ?c] =>
           destruct (answer L writer [] c) as [[]|e1] eqn:A1;
           [|simpl; eauto]
       end.
  all: destruct (model_validate L event) as [errs|v]; [simpl; auto|].
  all: match goal with
       | |- context [answer L writer [?c1] ?c] =>
           destruct (answer L writer [c1] c) as [[]|e2] eqn:A2;
           [simpl; auto|]
       end.
  all: match goal with
       | |- context [answer L writer [?c1; ?c2] ?c] =>
           destruct (answer L writer [c1; c2] c) as [[]|e3] eqn:A3;
           simpl; (split; [reflexivity|split; [reflexivity|]]); eauto
       end.
Qed.

(** For an invalid event the outcome of the run is the outcome of the
    validation Error Row write: its failure is not caught. *)
Lemma validation_error_outcome (c1 c2 : insert_call) :
  fst run = [c1; c2] ->
  valid = false ->
  kind_of c2 = ErrorWrite "validation"
  /\ snd run = answer L writer [c1] c2.
Proof.
  subst run valid. rewrite process_event_routed. unfold routed.
  destruct (_parse_rfc3339_timestamp L publish_time) as [pd|e];
    [|discriminate].
  destruct (normalise_event_time L event) as [et|e]; [|discriminate].
  cbv zeta. destruct (answer L writer [] _) as [[]|e]; [|discriminate].
  destruct (model_validate L event) as [errs|v]; [|discriminate].
  simpl. intros [= <- <-] _. split; reflexivity.
Qed.

(** After a failed Processed Row write the exception that leaves
    [process_event] is the one of the Processed Row write only if the
    Error Row write succeeds; otherwise it is the one of the Error Row write,
    with the first as its [__context__]. *)
Lemma processed_failure_outcome (c1 c2 c3 : insert_call) :
  fst run = [c1; c2; c3] ->
  snd run
  = match answer L writer [c1; c2] c3 with
    | Ok _ => answer L writer [c1] c2
    | Raise e3 =>
        match answer L writer [c1] c2 with
        | Ok _ => Raise e3
        | Raise e2 => Raise (set_context e2 e3)
        end
    end.
Proof.
  subst run. rewrite process_event_routed. unfold routed.
  destruct (_parse_rfc3339_timestamp L publish_time) as [pd|e];
    [|discriminate].
  destruct (normalise_event_time L event) as [et|e]; [|discriminate].
  cbv zeta. destruct (answer L writer [] _) as [[]|e]; [|discriminate].
  destruct (model_validate L event) as [errs|v]; [discriminate|].
  destruct (answer L writer [_] _) as [[]|exc] eqn:A2; [discriminate|].
  simpl. intros [= <- <- <-]. rewrite A2.
  destruct (answer L writer [_; _] _) as [[]|e3]; reflexivity.
Qed.

End Writes.

(** ** Runs on concrete inputs *)

(** C7 (defect of the code): [_parse_rfc3339_timestamp] raises on the
    well-formed timestamp 0001-01-01T00:00:00+05:00.  [fromisoformat] accepts
    it, and the conversion to UTC, which is outside the [try], overflows. *)
Theorem _parse_rfc3339_timestamp_raises :
  fromisoformat Demo.lib "0001-01-01T00:00:00+05:00"
  = Some {| wall := {| ticks := 0; ticks_ok := eq_refl |};
            tzinfo := Some 18000000000 |}
  /\ _parse_rfc3339_timestamp Demo.lib (Some "0001-01-01T00:00:00+05:00")
     = Raise (Exn OverflowError "date value out of range" None).
Proof. split; vm_compute; reflexivity. Qed.

(** C3 (defect of the code): for an invalid event whose [event_time] is
    0001-01-01T00:00:00+05:00 no Raw Row write is attempted: the run ends
    with [OverflowError] before the first insert. *)
Theorem raw_write_skipped_on_overflow :
  (exists errs, model_validate Demo.lib Demo.early_event = inl errs)
  /\ process_event Demo.lib Demo.clock Demo.early_event (Some "m1") None None
       Demo.accepting Demo.config []
     = ([], Raise (Exn OverflowError "date value out of range" None)).
Proof. split; [eexists|]; vm_compute; reflexivity. Qed.

(** C8 (defect of the code): a [publish_time] that [fromisoformat] reads
    and that cannot be converted to UTC is not dropped.  For the valid event
    of the scenario and the publish time 0001-01-01T00:00:00+05:00 the run
    ends with [OverflowError] before the first insert and the endpoint
    answers 500, whereas without a publish time the same event is stored.
    The same unguarded conversion as in C7. *)
Theorem unconvertible_publish_time_fails_the_run :
  let run := fun publish_time =>
    process_event Demo.lib Demo.clock Demo.purchase_event (Some "m1")
      publish_time None Demo.accepting Demo.config [] in
  (exists v, model_validate Demo.lib Demo.purchase_event = inr v)
  /\ run (Some "0001-01-01T00:00:00+05:00")
     = ([], Raise (Exn OverflowError "date value out of range" None))
  /\ pubsub_push_response (snd (run (Some "0001-01-01T00:00:00+05:00")))
     = Http 500 "date value out of range"
  /\ map kind_of (fst (run None)) = [RawWrite; ProcessedWrite]
  /\ map (fun c => row_publish_time (call_row c)) (fst (run None))
     = [None; None]
  /\ snd (run None) = Ok tt.
Proof.
  cbv zeta. split; [eexists; vm_compute; reflexivity|].
  repeat split; vm_compute; reflexivity.
Qed.

(** C2 (defect of the code): for an invalid event, a rejected validation
    Error Row write is not swallowed: [process_event] raises the
    [RuntimeError] of that write and the endpoint answers 500. *)
Theorem validation_error_write_failure_raises :
  let run :=
    process_event Demo.lib Demo.clock Demo.invalid_event (Some "m1") None
      None (Demo.rejecting [Demo.error_ref]) Demo.config [] in
  (exists errs, model_validate Demo.lib Demo.invalid_event = inl errs)
  /\ map kind_of (fst run) = [RawWrite; ErrorWrite "validation"]
  /\ snd run
     = Raise (Exn RuntimeError (Demo.rejected_message Demo.error_ref) None)
  /\ pubsub_push_response (snd run)
     = Http 500 (Demo.rejected_message Demo.error_ref).
Proof.
  cbv zeta. split; [eexists; vm_compute; reflexivity|].
  repeat split; vm_compute; reflexivity.
Qed.

(** C4 (defect of the code): when both the Processed Row write and the
    processed_insert Error Row write are rejected, the exception that leaves
    [process_event] is the one of the Error Row write; the failure of the
    Processed Row write is only its [__context__], and the endpoint reports
    the error table. *)
Theorem processed_failure_masked_by_error_write :
  let run :=
    process_event Demo.lib Demo.clock Demo.purchase_event (Some "m1") None
      None (Demo.rejecting [Demo.processed_ref; Demo.error_ref]) Demo.config
      [] in
  map kind_of (fst run)
  = [RawWrite; ProcessedWrite; ErrorWrite "processed_insert"]
  /\ map (fun c => row_error_message (call_row c)) (fst run)
     = [None; None; Some (Demo.rejected_message Demo.processed_ref)]
  /\ snd run
     = Raise (Exn RuntimeError (Demo.rejected_message Demo.error_ref)
                (Some (Exn RuntimeError
                         (Demo.rejected_message Demo.processed_ref) None)))
  /\ pubsub_push_response (snd run)
     = Http 500 (Demo.rejected_message Demo.error_ref).
Proof. cbv zeta. repeat split; vm_compute; reflexivity. Qed.

(** ** The idempotency key *)

Lemma uuid_str_nonempty (u : UUID) : exists c s, uuid_str u = String c s.
Proof.
  unfold uuid_str. destruct (substring 0 8 _); simpl; eauto.
Qed.

Lemma routed_row_ids (L : PyLib) (clock : wallclock) (event : dict)
    (message_id publish_time : option string) (attributes : option dict)
    (writer : BigQueryWriter) (config : PipelineConfig) (c : insert_call) :
  In c (fst (routed L clock event message_id publish_time attributes writer
               config)) ->
  call_row_ids c
  = match insert_id L event message_id with
    | Some (String a s) => Some [String a s]
    | _ => None
    end.
Proof.
  unfold routed.
  destruct (_parse_rfc3339_timestamp L publish_time) as [pd|e];
    [|intros []].
  destruct (normalise_event_time L event) as [et|e]; [|intros []].
  cbv zeta. destruct (answer L writer [] _) as [[]|e].
  - destruct (model_validate L event) as [errs|v] eqn:MV.
    + simpl. intros [<-|[<-|[]]]; reflexivity.
    + destruct (answer L writer [_] _) as [[]|exc]; simpl.
      * intros [<-|[<-|[]]]; reflexivity.
      * intros [<-|[<-|[<-|[]]]]; reflexivity.
  - simpl. intros [<-|[]]; reflexivity.
Qed.

(** C1, as the code has it: every write of a run carries the same key.  For an
    event that passes validation the key is the canonical text of the
    validated [event_id], whatever the other fields are; for an event that
    fails validation, with or without an [event_id] in its payload, the key is
    [message_id], and there is no key when [message_id] is absent or
    empty. *)
Theorem idempotency_key_of_run (L : PyLib) (clock : wallclock) (event : dict)
    (message_id publish_time : option string) (attributes : option dict)
    (writer : BigQueryWriter) (config : PipelineConfig) (c : insert_call) :
  In c (fst (process_event L clock event message_id publish_time attributes
               writer config [])) ->
  call_row_ids c
  = match model_validate L event with
    | inr v => Some [uuid_str (event_id v)]
    | inl _ =>
        match message_id with
        | Some (String a s) => Some [String a s]
        | _ => None
        end
    end.
Proof.
  rewrite process_event_routed. intros H.
  rewrite (routed_row_ids _ _ _ _ _ _ _ _ _ H).
  unfold insert_id, event_id_str, py_or.
  destruct (model_validate L event) as [errs|v].
  - destruct message_id as [[|a s]|]; reflexivity.
  - destruct (uuid_str_nonempty (event_id v)) as [a [s ->]]. reflexivity.
Qed.

Lemma idempotency_key_of_run_witness :
  exists c,
    In c (fst (process_event Demo.lib Demo.clock Demo.purchase_event
                 (Some "m1") None None Demo.accepting Demo.config []))
    /\ kind_of c = ProcessedWrite
    /\ call_row_ids c = Some ["123e4567-e89b-12d3-a456-426614174000"].
Proof.
  eexists. split; [vm_compute; right; left; reflexivity|].
  split; [reflexivity|].
  etransitivity.
  - apply (idempotency_key_of_run Demo.lib Demo.clock Demo.purchase_event
             (Some "m1") None None Demo.accepting Demo.config).
    vm_compute; right; left; reflexivity.
  - vm_compute; reflexivity.
Defined.

(** C1 as stated fails: the payload of [Demo.invalid_event] contains a
    well-formed [event_id], yet both writes of the run are keyed by the
    message id and the Raw Row has no [event_id]. *)
Lemma event_id_of_invalid_event_not_the_key :
  (exists u, lookup Demo.invalid_event "event_id"
             = Some (JStr "123e4567-e89b-12d3-a456-426614174000")
             /\ uuid_validate Demo.lib
                  (JStr "123e4567-e89b-12d3-a456-426614174000") = inr u
             /\ uuid_str u = "123e4567-e89b-12d3-a456-426614174000")
  /\ map call_row_ids
       (fst (process_event Demo.lib Demo.clock Demo.invalid_event (Some "m1")
               None None Demo.accepting Demo.config []))
     = [Some ["m1"]; Some ["m1"]].
Proof.
  split; [|vm_compute; reflexivity].
  assert (E : exists u, uuid_validate Demo.lib
                          (JStr "123e4567-e89b-12d3-a456-426614174000")
                        = inr u).
  { vm_compute. eexists; reflexivity. }
  destruct E as [u E]. exists u. split; [reflexivity|]. split; [exact E|].
  vm_compute in E. injection E as <-. vm_compute. reflexivity.
Qed.

(** ** Validation *)

Section Validation.

Context (L : PyLib).

Lemma vap_defects {A B} (f : validation (A -> B)) (x : validation A) :
  defects_of (f <*> x) = (defects_of f ++ defects_of x)%list.
Proof.
  destruct f, x; simpl; auto using app_nil_r.
Qed.

Lemma vap_well_formed {A B} (f : validation (A -> B)) (x : validation A) :
  well_formed f -> well_formed x -> well_formed (f <*> x).
Proof.
  destruct f as [[|d l]|g], x as [[|d' l']|a]; simpl; auto.
Qed.

Lemma field_well_formed {T} (event : dict) (loc : string)
    (validator : json -> errinfo + T) :
  well_formed (field event loc validator).
Proof.
  unfold field. destruct (lookup event loc) as [v|]; simpl; auto.
  destruct (validator v); simpl; auto.
Qed.

Lemma field_locs {T} (event : dict) (loc : string)
    (validator : json -> errinfo + T) :
  map d_loc (defects_of (field event loc validator))
  = if negb match lookup event loc with
            | Some v => accepts validator v
            | None => false
            end
    then [loc] else [].
Proof.
  unfold field, accepts. destruct (lookup event loc) as [v|]; simpl; auto.
  destruct (validator v); reflexivity.
Qed.



Lemma filter_cons_app {A} (p : A -> bool) (a : A) (l : list A) :
  filter p (a :: l) = ((if p a then [a] else []) ++ filter p l)%list.
Proof. simpl. destruct (p a); reflexivity. Qed.

Lemma model_validate_well_formed (event : dict) :
  well_formed (model_validate L event).
Proof.
  unfold model_validate.
  repeat (apply vap_well_formed; [|apply field_well_formed]).
  exact I.
Qed.

Lemma model_validate_locs (event : dict) :
  map d_loc (defects_of (model_validate L event))
  = filter (fun name => negb (field_ok L event name)) schema_fields.
Proof.
  unfold model_validate, schema_fields.
  rewrite !vap_defects, !map_app, !field_locs, !filter_cons_app.
  change (filter _ []) with (@nil string).
  change (map d_loc (defects_of (inr Build_EcommerceEvent)))
    with (@nil string).
  rewrite app_nil_l, app_nil_r, <- !app_assoc.
  reflexivity.
Qed.






End Validation.










(** ** The calls of a run, one by one *)

Section Calls.

Context (L : PyLib) (clock : wallclock) (event : dict)
  (message_id publish_time : option string) (attributes : option dict)
  (writer : BigQueryWriter) (config : PipelineConfig).

Lemma routed_calls (c : insert_call) :
  In c (fst (routed L clock event message_id publish_time attributes writer
               config)) ->
  exists pd et,
    _parse_rfc3339_timestamp L publish_time = Ok pd
    /\ normalise_event_time L event = Ok et
    /\ (c = raw_call L clock event message_id attributes writer config pd
        \/ (exists stage msg details,
              c = error_call L clock event message_id attributes writer
                    config pd stage msg details)
        \/ (exists v, model_validate L event = inr v
                      /\ c = processed_call L clock event message_id writer
                               config v et)).
Proof.
  unfold routed.
  destruct (_parse_rfc3339_timestamp L publish_time) as [pd|e];
    [|intros []].
  destruct (normalise_event_time L event) as [et|e]; [|intros []].
  cbv zeta. intros H. exists pd, et. split; [reflexivity|].
  split; [reflexivity|].
  destruct (answer L writer [] _) as [[]|e].
  - destruct (model_validate L event) as [errs|v] eqn:MV.
    + destruct H as [<-|[<-|[]]]; eauto 7.
    + destruct (answer L writer [_] _) as [[]|exc]; simpl in H.
      * destruct H as [<-|[<-|[]]]; eauto 7.
      * destruct H as [<-|[<-|[<-|[]]]]; eauto 7.
  - destruct H as [<-|[]]; eauto.
Qed.

End Calls.

(** ** [publish_time] against [event_time] *)

Lemma absent_or_unparsable_parse (L : PyLib) (value : option string) :
  absent_or_unparsable L value ->
  _parse_rfc3339_timestamp L value = Ok None.
Proof.
  destruct value as [[|c s]|]; simpl; auto.
  intros [H|H]; [discriminate|]. unfold _parse_rfc3339_timestamp.
  rewrite H. reflexivity.
Qed.

Lemma unparsable_event_time_defect (L : PyLib) (event : dict) (v : json)
    (e : errinfo) :
  lookup event "event_time" = Some v ->
  datetime_validate L v = inl e ->
  exists errs,
    model_validate L event = inl errs /\ In "event_time" (map d_loc errs).
Proof.
  intros Hl Hv.
  assert (F : In "event_time"
                (filter (fun name => negb (field_ok L event name))
                   schema_fields)).
  { apply filter_In. split; [simpl; tauto|].
    unfold field_ok. rewrite Hl. unfold field_rule; simpl.
    unfold accepts. rewrite Hv. reflexivity. }
  rewrite <- model_validate_locs in F.
  destruct (model_validate L event) as [errs|x]; [eauto|destruct F].
Qed.

(** ** The text of a timestamp *)

Lemma only_chars_app (p : ascii -> bool) (s t : string) :
  only_chars p (s ++ t) = only_chars p s && only_chars p t.
Proof.
  induction s as [|c s IH]; simpl; [reflexivity|].
  rewrite IH, andb_assoc. reflexivity.
Qed.

Lemma mod10_cases (n : Z) :
  n mod 10 = 0 \/ n mod 10 = 1 \/ n mod 10 = 2 \/ n mod 10 = 3
  \/ n mod 10 = 4 \/ n mod 10 = 5 \/ n mod 10 = 6 \/ n mod 10 = 7
  \/ n mod 10 = 8 \/ n mod 10 = 9.
Proof.
  pose proof (Z.mod_pos_bound n 10 eq_refl). lia.
Qed.

Lemma digit_char_iso (n : Z) : iso_char (digit_char (n mod 10)) = true.
Proof.
  destruct (mod10_cases n) as [H|[H|[H|[H|[H|[H|[H|[H|[H|H]]]]]]]]];
    rewrite H; reflexivity.
Qed.

Lemma zpad_iso (w : nat) (n : Z) : only_chars iso_char (zpad w n) = true.
Proof.
  unfold zpad. revert n. induction w as [|w IH]; intros n; simpl; auto.
  rewrite only_chars_app, IH. simpl. rewrite digit_char_iso. reflexivity.
Qed.

Lemma isoformat_wall_iso (t : Z) : only_chars iso_char (isoformat_wall t) = true.
Proof.
  unfold isoformat_wall. destruct (_ord2ymd _) as [[y m] d].
  destruct (_ mod US_PER_SECOND =? 0);
    repeat (rewrite only_chars_app || rewrite zpad_iso || simpl);
    reflexivity.
Qed.

Lemma replace_offset_suffix (x : string) :
  only_chars iso_char x = true ->
  replace "+00:00" "Z" (x ++ "+00:00") = x ++ "Z".
Proof.
  unfold replace. induction x as [|c x IH]; [reflexivity|].
  simpl only_chars. intros H. apply andb_prop in H as [Hc Hx].
  cbn [append replace_from prefix].
  destruct (ascii_dec "+" c) as [<-|N]; [discriminate|].
  rewrite IH by assumption. reflexivity.
Qed.

Lemma rfc3339_Z_text (w : wallclock) :
  rfc3339_Z w = isoformat_wall (ticks w) ++ "Z".
Proof.
  unfold rfc3339_Z, isoformat. cbn [wall tzinfo].
  change (_format_offset (Some 0)) with "+00:00".
  apply replace_offset_suffix, isoformat_wall_iso.
Qed.

Lemma endswith_app (x s : string) : endswith (x ++ s) s = true.
Proof.
  induction x as [|c x IH]; cbn [append endswith].
  - destruct s; cbn [endswith]; rewrite String.eqb_refl; reflexivity.
  - rewrite IH. apply orb_true_r.
Qed.

(** ** The calendar *)

Ltac eval_closed r :=
  repeat match goal with
    | |- context [tbl ?t ?k] =>
        let v := eval vm_compute in (tbl t k) in change (tbl t k) with v
    | |- context [if ?b then _ else _] =>
        lazymatch b with
        | context [r] => fail
        | _ => let v := eval vm_compute in b in change b with v; cbv iota
        end
    end.

Lemma month_day_spec (leap : bool) (r : Z) :
  0 <= r < 365 ->
  let '(m, d) := month_day leap r in
  1 <= m <= 12
  /\ 1 <= d <= (if (m =? 2) && leap then 29 else tbl _DAYS_IN_MONTH m)
  /\ tbl _DAYS_BEFORE_MONTH m + (if (2 <? m) && leap then 1 else 0) + d
     = r + 1.
Proof.
  intros H. unfold month_day.
  rewrite Z.shiftr_div_pow2 by lia. change (2 ^ 5) with 32.
  pose proof (Z.div_mod (r + 50) 32 ltac:(lia)) as D.
  pose proof (Z.mod_pos_bound (r + 50) 32 eq_refl) as B.
  remember ((r + 50) / 32) as k eqn:K. clear K.
  assert (C : k = 1 \/ k = 2 \/ k = 3 \/ k = 4 \/ k = 5 \/ k = 6 \/ k = 7
              \/ k = 8 \/ k = 9 \/ k = 10 \/ k = 11 \/ k = 12) by lia.
  cbv zeta.
  destruct C as [C|[C|[C|[C|[C|[C|[C|[C|[C|[C|[C|C]]]]]]]]]]];
    subst k; destruct leap; eval_closed r;
    match goal with
    | |- context [?a >? r] => destruct (Z.gtb_spec a r)
    end; eval_closed r; lia.
Qed.

Lemma _ord2ymd_spec (n y m d : Z) :
  1 <= n <= _MAXORDINAL ->
  _ord2ymd n = (y, m, d) ->
  1 <= y <= 9999 /\ 1 <= m <= 12 /\ 1 <= d <= _days_in_month y m
  /\ _ymd2ord y m d = n.
Proof.
  unfold _MAXORDINAL. intros R.
  unfold _ord2ymd.
  pose proof (Z.div_mod (n - 1) 146097 ltac:(lia)) as D400.
  pose proof (Z.mod_pos_bound (n - 1) 146097 eq_refl) as B400.
  remember ((n - 1) / 146097) as a eqn:Ea.
  remember ((n - 1) mod 146097) as r400 eqn:Er400.
  pose proof (Z.div_mod r400 36524 ltac:(lia)) as D100.
  pose proof (Z.mod_pos_bound r400 36524 eq_refl) as B100.
  remember (r400 / 36524) as b eqn:Eb.
  remember (r400 mod 36524) as r100 eqn:Er100.
  pose proof (Z.div_mod r100 1461 ltac:(lia)) as D4.
  pose proof (Z.mod_pos_bound r100 1461 eq_refl) as B4.
  remember (r100 / 1461) as c eqn:Ec.
  remember (r100 mod 1461) as r4 eqn:Er4.
  pose proof (Z.div_mod r4 365 ltac:(lia)) as D1.
  pose proof (Z.mod_pos_bound r4 365 eq_refl) as B1.
  remember (r4 / 365) as e eqn:Ee.
  remember (r4 mod 365) as r eqn:Er.
  clear Ea Er400 Eb Er100 Ec Er4 Ee Er.
  cbv zeta.
  assert (Ha : 0 <= a <= 24) by lia.
  assert (Hb : 0 <= b <= 4) by lia.
  assert (Hc : 0 <= c <= 24) by lia.
  assert (He : 0 <= e <= 4) by lia.
  destruct ((e =? 4) || (b =? 4)) eqn:S.
  - intros [= <- <- <-].
    assert (L : _is_leap (a * 400 + 1 + b * 100 + c * 4 + e - 1) = true).
    { unfold _is_leap. apply orb_prop in S.
      repeat rewrite andb_true_iff || rewrite orb_true_iff
        || rewrite negb_true_iff || rewrite Z.eqb_eq || rewrite Z.eqb_neq.
      rewrite !Z.eqb_eq in S.
      destruct S as [-> | ->]; [split; [|left] | split; [|right]];
        Z.div_mod_to_equations; lia. }
    unfold _days_in_month, _ymd2ord, _days_before_month, _days_before_year.
    rewrite L.
    change (tbl _DAYS_IN_MONTH 12) with 31.
    change (tbl _DAYS_BEFORE_MONTH 12) with 334.
    change ((12 =? 2) && true) with false.
    change ((2 <? 12) && true) with true. cbv iota.
    rewrite orb_true_iff, !Z.eqb_eq in S.
    Z.div_mod_to_equations. lia.
  - apply orb_false_elim in S as [S1 S2]. rewrite Z.eqb_neq in S1, S2.
    set (leap := (e =? 3) && (negb (c =? 24) || (b =? 3))).
    assert (L : _is_leap (a * 400 + 1 + b * 100 + c * 4 + e) = leap).
    { unfold _is_leap, leap.
      destruct (Z.eqb_spec e 3), (Z.eqb_spec c 24), (Z.eqb_spec b 3); cbn;
        repeat rewrite andb_true_iff || rewrite orb_true_iff
          || rewrite negb_true_iff || rewrite andb_false_iff
          || rewrite orb_false_iff || rewrite negb_false_iff
          || rewrite Z.eqb_eq || rewrite Z.eqb_neq;
        Z.div_mod_to_equations; lia. }
    pose proof (month_day_spec leap r ltac:(lia)) as MD.
    unfold month_day in MD.
    destruct (_ >? r) eqn:G; intros [= <- <- <-];
      unfold _days_in_month, _ymd2ord, _days_before_month, _days_before_year;
      rewrite L; destruct MD as [M1 [M2 M3]];
      (split; [lia|]); (split; [exact M1|]); (split; [exact M2|]);
      rewrite <- Z.add_assoc, M3; Z.div_mod_to_equations; lia.
Qed.

(** ** Printing and reading numbers *)

Lemma append_assoc_s (a b c : string) : (a ++ b) ++ c = a ++ (b ++ c).
Proof.
  induction a as [|x a IH]; simpl; [reflexivity|]. rewrite IH. reflexivity.
Qed.

Lemma append_empty_r (a : string) : a ++ "" = a.
Proof.
  induction a as [|x a IH]; simpl; [reflexivity|]. rewrite IH. reflexivity.
Qed.

Lemma padnum_length (base : Z) (digit : Z -> ascii) (w : nat) (n : Z) :
  String.length (padnum base digit w n) = w.
Proof.
  revert n. induction w as [|w IH]; intros n; simpl; [reflexivity|].
  assert (A : forall a b, String.length (a ++ b)
                          = (String.length a + String.length b)%nat).
  { induction a as [|x a IHa]; intros b; simpl; auto. }
  rewrite A, IH. simpl. lia.
Qed.

Section Digits.

Context (base : Z) (digit : Z -> ascii) (digit_of : ascii -> option Z).
Hypothesis base_pos : 1 < base.
Hypothesis digit_of_digit :
  forall d, 0 <= d < base -> digit_of (digit d) = Some d.

Lemma take_num_snoc (w : nat) (acc : Z) (s : string) :
  Demo.take_num base digit_of (S w) acc s
  = match Demo.take_num base digit_of w acc s with
    | Some (a, String c s') =>
        match digit_of c with
        | Some d => Some (a * base + d, s')
        | None => None
        end
    | _ => None
    end.
Proof.
  revert acc s. induction w as [|w IH]; intros acc s.
  - simpl. destruct s as [|c s]; [reflexivity|].
    destruct (digit_of c); reflexivity.
  - change (Demo.take_num base digit_of (S (S w)) acc s)
      with (match s with
            | EmptyString => None
            | String c s' =>
                match digit_of c with
                | Some d =>
                    Demo.take_num base digit_of (S w) (acc * base + d) s'
                | None => None
                end
            end).
    destruct s as [|c s]; [reflexivity|].
    destruct (digit_of c) as [d|] eqn:E; simpl; rewrite ?E; [|reflexivity].
    apply IH.
Qed.

Lemma take_num_padnum (w : nat) (n acc : Z) (rest : string) :
  0 <= n < base ^ Z.of_nat w ->
  Demo.take_num base digit_of w acc (padnum base digit w n ++ rest)
  = Some (acc * base ^ Z.of_nat w + n, rest).
Proof.
  revert n acc rest. induction w as [|w IH]; intros n acc rest H.
  - simpl in *. f_equal. f_equal. lia.
  - rewrite take_num_snoc. cbn [padnum]. rewrite append_assoc_s.
    rewrite Nat2Z.inj_succ, Z.pow_succ_r in * by lia.
    assert (Hq : 0 <= n / base < base ^ Z.of_nat w).
    { split; [apply Z.div_pos; lia|].
      apply Z.div_lt_upper_bound; lia. }
    rewrite (IH _ _ _ Hq). cbn [append].
    rewrite digit_of_digit by (apply Z.mod_pos_bound; lia).
    f_equal. f_equal.
    pose proof (Z.div_mod n base ltac:(lia)) as D.
    rewrite D at 3. ring.
Qed.

End Digits.

Lemma char_digit_digit_char (d : Z) :
  0 <= d < 10 -> Demo.char_digit (digit_char d) = Some d.
Proof.
  intros H.
  assert (C : d = 0 \/ d = 1 \/ d = 2 \/ d = 3 \/ d = 4 \/ d = 5 \/ d = 6
              \/ d = 7 \/ d = 8 \/ d = 9) by lia.
  destruct C as [C|[C|[C|[C|[C|[C|[C|[C|[C|C]]]]]]]]]; subst d; reflexivity.
Qed.

Lemma char_hex_hex_char (d : Z) :
  0 <= d < 16 -> Demo.char_hex (hex_char d) = Some d.
Proof.
  intros H.
  assert (C : d = 0 \/ d = 1 \/ d = 2 \/ d = 3 \/ d = 4 \/ d = 5 \/ d = 6
              \/ d = 7 \/ d = 8 \/ d = 9 \/ d = 10 \/ d = 11 \/ d = 12
              \/ d = 13 \/ d = 14 \/ d = 15) by lia.
  destruct C as [C|[C|[C|[C|[C|[C|[C|[C|[C|[C|[C|[C|[C|[C|[C|C]]]]]]]]]]]]]]];
    subst d; reflexivity.
Qed.

Lemma take_dec_zpad (w : nat) (n : Z) (rest : string) :
  0 <= n < 10 ^ Z.of_nat w ->
  Demo.take_dec w (zpad w n ++ rest) = Some (n, rest).
Proof.
  intros H. unfold Demo.take_dec, zpad.
  rewrite (take_num_padnum 10 digit_char Demo.char_digit eq_refl
             char_digit_digit_char w n 0 rest H).
  reflexivity.
Qed.

(** ** Reading back an ISO text *)

Lemma take_char_same (c : ascii) (s : string) :
  Demo.take_char c (String c s) = Some s.
Proof. unfold Demo.take_char. rewrite Ascii.eqb_refl. reflexivity. Qed.

Lemma _days_in_month_le (y m : Z) : 1 <= m <= 12 -> _days_in_month y m <= 31.
Proof.
  intros H. unfold _days_in_month.
  destruct ((m =? 2) && _is_leap y); [lia|].
  assert (C : m = 1 \/ m = 2 \/ m = 3 \/ m = 4 \/ m = 5 \/ m = 6 \/ m = 7
              \/ m = 8 \/ m = 9 \/ m = 10 \/ m = 11 \/ m = 12) by lia.
  destruct C as [C|[C|[C|[C|[C|[C|[C|[C|[C|[C|[C|C]]]]]]]]]]]; subst m;
    vm_compute; discriminate.
Qed.

Lemma iso_datetime_isoformat_wall (w : wallclock) (suffix : string)
    (tz : option Z) :
  Demo.parse_offset suffix = Some tz ->
  match suffix with
  | String "." s' => Demo.take_dec 6 s'
  | _ => Some (0, suffix)
  end = Some (0, suffix) ->
  Demo.iso_datetime (isoformat_wall (ticks w) ++ suffix)
  = Some {| wall := w; tzinfo := tz |}.
Proof.
  intros Hoff Hfrac.
  pose proof (ticks_ok w) as R. unfold in_range in R.
  apply andb_prop in R as [R1 R2]. apply Z.leb_le in R1. apply Z.ltb_lt in R2.
  pose proof (mk_wall_ticks w) as MW.
  remember (ticks w) as t eqn:Et. clear Et.
  unfold isoformat_wall, US_PER_DAY, US_PER_SECOND, _MAXORDINAL in *.
  change (86400 * 1000000) with 86400000000 in *.
  pose proof (Z.div_mod t 86400000000 ltac:(lia)) as Dd.
  pose proof (Z.mod_pos_bound t 86400000000 eq_refl) as Bd.
  remember (t / 86400000000) as days eqn:E1.
  remember (t mod 86400000000) as r eqn:E2. clear E1 E2.
  pose proof (Z.div_mod r 1000000 ltac:(lia)) as Ds.
  pose proof (Z.mod_pos_bound r 1000000 eq_refl) as Bs.
  remember (r / 1000000) as secs eqn:E1.
  remember (r mod 1000000) as us eqn:E2. clear E1 E2.
  pose proof (Z.div_mod secs 3600 ltac:(lia)) as Dh.
  pose proof (Z.mod_pos_bound secs 3600 eq_refl) as Bh.
  pose proof (Z.div_mod secs 60 ltac:(lia)) as Dm.
  pose proof (Z.mod_pos_bound secs 60 eq_refl) as Bm.
  pose proof (Z.div_mod (secs / 60) 60 ltac:(lia)) as Dmm.
  pose proof (Z.mod_pos_bound (secs / 60) 60 eq_refl) as Bmm.
  remember (secs / 3600) as hh eqn:E1.
  remember (secs mod 3600) as rh eqn:E2.
  remember (secs mod 60) as ss eqn:E3.
  remember ((secs / 60) mod 60) as mm eqn:E4.
  remember (secs / 60 / 60) as hh' eqn:E5.
  remember (secs / 60) as mins eqn:E6. clear E1 E2 E3 E4 E5 E6.
  destruct (_ord2ymd (days + 1)) as [[y m] d] eqn:E.
  apply _ord2ymd_spec in E; [|unfold _MAXORDINAL; lia].
  destruct E as [Hy [Hm [Hd Ho]]].
  pose proof (_days_in_month_le y m Hm) as Hd31.
  unfold Demo.iso_datetime.
  rewrite !append_assoc_s. cbn [append].
  rewrite take_dec_zpad by (change (10 ^ Z.of_nat 4) with 10000; lia).
  cbn [Demo.obind]. rewrite take_char_same. cbn [Demo.obind].
  rewrite take_dec_zpad by (change (10 ^ Z.of_nat 2) with 100; lia).
  cbn [Demo.obind]. rewrite take_char_same. cbn [Demo.obind].
  rewrite take_dec_zpad by (change (10 ^ Z.of_nat 2) with 100; lia).
  cbn [Demo.obind]. rewrite take_char_same. cbn [Demo.obind].
  rewrite take_dec_zpad by (change (10 ^ Z.of_nat 2) with 100; lia).
  cbn [Demo.obind]. rewrite take_char_same. cbn [Demo.obind].
  rewrite take_dec_zpad by (change (10 ^ Z.of_nat 2) with 100; lia).
  cbn [Demo.obind]. rewrite take_char_same. cbn [Demo.obind].
  rewrite take_dec_zpad by (change (10 ^ Z.of_nat 2) with 100; lia).
  cbn [Demo.obind].
  assert (F : match (if us =? 0 then "" else String "." (zpad 6 us))
                    ++ suffix with
              | String "." s' => Demo.take_dec 6 s'
              | _ =>
                  Some (0, (if us =? 0 then "" else String "." (zpad 6 us))
                           ++ suffix)
              end = Some (us, suffix)).
  { destruct (Z.eqb_spec us 0) as [->|N].
    - exact Hfrac.
    - cbn [append].
      apply take_dec_zpad. change (10 ^ Z.of_nat 6) with 1000000. lia. }
  rewrite F. cbn [Demo.obind]. rewrite Hoff. cbn [Demo.obind].
  assert (V : (1 <=? y) && (1 <=? m) && (m <=? 12) && (1 <=? d)
              && (d <=? _days_in_month y m) && (hh <? 24) && (mm <? 60)
              && (ss <? 60) = true).
  { repeat (apply andb_true_intro; split);
      (apply Z.leb_le || apply Z.ltb_lt); lia. }
  rewrite V, Ho.
  unfold US_PER_SECOND.
  replace (((days + 1 - 1) * 86400 + hh * 3600 + mm * 60 + ss) * 1000000 + us)
    with t by lia.
  rewrite MW. reflexivity.
Qed.

Lemma iso_datetime_rfc3339_Z (w : wallclock) :
  Demo.iso_datetime (isoformat_wall (ticks w) ++ "Z")
  = Some {| wall := w; tzinfo := Some 0 |}.
Proof. apply iso_datetime_isoformat_wall; reflexivity. Qed.

(** ** Reading back a UUID *)

Lemma uuid_range_irrelevant (n : Z) (p q : uuid_range n = true) : p = q.
Proof. apply UIP_dec, bool_dec. Qed.

Lemma mk_uuid_int (u : UUID) : Demo.mk_uuid (uuid_int u) = Some u.
Proof.
  destruct u as [n p]. unfold Demo.mk_uuid. cbn [uuid_int].
  generalize (eq_refl (uuid_range n)).
  generalize (uuid_range n) at 2 3.
  intros [] e; [|congruence].
  f_equal. f_equal. apply uuid_range_irrelevant.
Qed.

Lemma unhyphen_hyphenated (h : string) :
  String.length h = 32%nat ->
  Demo.unhyphen
    (substring 0 8 h ++ "-" ++ substring 8 4 h ++ "-" ++ substring 12 4 h
     ++ "-" ++ substring 16 4 h ++ "-" ++ substring 20 12 h)
  = Some h.
Proof.
  intros H.
  do 32 (destruct h as [|? h]; [discriminate|]).
  destruct h; [|discriminate]. reflexivity.
Qed.

Lemma parse_uuid_uuid_str (u : UUID) : Demo.parse_uuid (uuid_str u) = Some u.
Proof.
  unfold Demo.parse_uuid, uuid_str. cbv zeta.
  rewrite unhyphen_hyphenated by apply padnum_length.
  cbn [Demo.obind].
  rewrite <- (append_empty_r (hexpad 32 (uuid_int u))).
  unfold hexpad.
  rewrite (take_num_padnum 16 hex_char Demo.char_hex eq_refl
             char_hex_hex_char 32 (uuid_int u) 0 "").
  - cbn [Demo.obind]. rewrite Z.mul_0_l, Z.add_0_l. apply mk_uuid_int.
  - pose proof (uuid_ok u) as R. unfold uuid_range in R.
    apply andb_prop in R as [R1 R2].
    apply Z.leb_le in R1. apply Z.ltb_lt in R2.
    change (16 ^ Z.of_nat 32) with (2 ^ 128). lia.
Qed.

(** ** The round trip of a Processed Row *)

Lemma demo_laws : PyLibLaws Demo.lib.
Proof.
  split.
  - intros u. change (Demo.uuid_of_json (JStr (uuid_str u)) = inr u).
    unfold Demo.uuid_of_json. rewrite parse_uuid_uuid_str. reflexivity.
  - reflexivity.
  - intros w.
    change (Demo.datetime_of_json (JStr (isoformat_wall (ticks w) ++ "Z"))
            = inr {| wall := w; tzinfo := Some 0 |}).
    unfold Demo.datetime_of_json. rewrite iso_datetime_rfc3339_Z.
    reflexivity.
Qed.

Section RoundTrip.

Context (L : PyLib).

Lemma vap_inr_eq {A B} (f : validation (A -> B)) (x : validation A) (b : B) :
  f <*> x = inr b -> exists g a, f = inr g /\ x = inr a /\ b = g a.
Proof.
  destruct f, x; simpl; try discriminate. intros [= <-]. eauto.
Qed.

Lemma field_inr_value {T} (event : dict) (loc : string)
    (validator : json -> errinfo + T) (t : T) :
  field event loc validator = inr t ->
  exists v, lookup event loc = Some v /\ validator v = inr t.
Proof.
  unfold field. destruct (lookup event loc) as [v|]; [|discriminate].
  destruct (validator v) eqn:E; [discriminate|]. intros [= <-]. eauto.
Qed.




Lemma EventType_round_trip (t : EventType) :
  enum_validate EventType_members EventType_value EventType_expected
    (JStr (EventType_value t)) = inr t.
Proof. destruct t; reflexivity. Qed.

Lemma DeviceType_round_trip (t : DeviceType) :
  enum_validate DeviceType_members DeviceType_value DeviceType_expected
    (JStr (DeviceType_value t)) = inr t.
Proof. destruct t; reflexivity. Qed.

(** The event time of a validated event, once in UTC, is the same instant. *)
Lemma normalise_event_time_valid (event : dict) (v : EcommerceEvent)
    (et : option datetime) :
  model_validate L event = inr v ->
  normalise_event_time L event = Ok et ->
  exists d, et = Some d /\ tzinfo d = Some 0
            /\ ticks (wall d) = utc_instant (event_time v).
Proof.
  unfold normalise_event_time, utc_instant. intros ->.
  destruct (tzinfo (event_time v)) as [o|] eqn:T.
  - unfold astimezone_UTC, instant. rewrite T.
    destruct (mk_wall _) as [w|] eqn:M; [|discriminate].
    simpl. intros [= <-]. eexists; split; [reflexivity|].
    split; [reflexivity|]. apply mk_wall_Some in M. exact M.
  - intros [= <-]. eexists; split; [reflexivity|].
    split; [reflexivity|]. simpl. lia.
Qed.

End RoundTrip.




(** ** The timestamps of the rows *)

Lemma _to_rfc3339_aware (L : PyLib) (dt : datetime) (o : Z) :
  tzinfo dt = Some o ->
  in_range (ticks (wall dt) - o) = true ->
  _to_rfc3339 L (Some dt)
  = Ok (Some (isoformat_wall (ticks (wall dt) - o) ++ "Z")).
Proof.
  intros T R. unfold _to_rfc3339. rewrite T.
  unfold astimezone_UTC, instant. rewrite T.
  destruct (mk_wall_in_range _ R) as [w [-> E]]. simpl.
  change (replace "+00:00" "Z" (isoformat {| wall := w; tzinfo := Some 0 |}))
    with (rfc3339_Z w).
  rewrite rfc3339_Z_text, E. reflexivity.
Qed.

(** C10: every timestamp field of every row of a run that is not null is the
    ISO text of a wall-clock reading followed by [Z]; read as an RFC3339
    timestamp it is that reading in UTC.  [_to_rfc3339] prints a naive
    [datetime] as it stands, and an aware one after subtracting its offset,
    whenever that instant is representable. *)
Theorem timestamps_are_utc_rfc3339 (L : PyLib) (clock : wallclock)
    (event : dict) (message_id publish_time : option string)
    (attributes : option dict) (writer : BigQueryWriter)
    (config : PipelineConfig) :
  (forall c s,
     In c (fst (process_event L clock event message_id publish_time
                  attributes writer config [])) ->
     In s (row_timestamps (call_row c)) ->
     exists w,
       s = isoformat_wall (ticks w) ++ "Z"
       /\ endswith s "Z" = true
       /\ Demo.iso_datetime s = Some {| wall := w; tzinfo := Some 0 |})
  /\ _to_rfc3339 L None = Ok None
  /\ (forall dt,
        tzinfo dt = None ->
        _to_rfc3339 L (Some dt)
        = Ok (Some (isoformat_wall (ticks (wall dt)) ++ "Z")))
  /\ (forall dt o,
        tzinfo dt = Some o ->
        in_range (ticks (wall dt) - o) = true ->
        _to_rfc3339 L (Some dt)
        = Ok (Some (isoformat_wall (ticks (wall dt) - o) ++ "Z"))).
Proof.
  split; [|split; [reflexivity|split]].
  - rewrite process_event_routed. intros c s Hc Hs.
    assert (W : exists w, s = rfc3339_Z w).
    { destruct (routed_calls _ _ _ _ _ _ _ _ _ Hc)
        as [pd [et [_ [_ [->|[[st [m [d ->]]]|[v [_ ->]]]]]]]];
        cbn [call_row mk_call raw_call error_call processed_call
             row_timestamps raw_publish_time raw_ingestion_time
             err_publish_time err_ingestion_time proc_event_time
             proc_ingestion_time] in Hs;
        apply in_app_or in Hs as [Hs|Hs];
        try (destruct Hs as [<-|[]]; eexists; reflexivity).
      all: match type of Hs with
           | In _ (present (render ?x)) =>
               destruct x as [x'|];
               [destruct Hs as [<-|[]]; eexists; reflexivity|destruct Hs]
           end. }
    destruct W as [w ->]. exists w. rewrite rfc3339_Z_text.
    split; [reflexivity|]. split; [apply endswith_app|].
    apply iso_datetime_rfc3339_Z.
  - intros dt T. rewrite (_to_rfc3339_naive L dt T), rfc3339_Z_text.
    reflexivity.
  - intros dt o. apply _to_rfc3339_aware.
Qed.

Lemma timestamps_are_utc_rfc3339_witness :
  (exists c,
     In c (fst (process_event Demo.lib Demo.clock Demo.purchase_event
                  (Some "m1") (Some "2024-01-01T05:30:00+05:30") None
                  Demo.accepting Demo.config []))
     /\ In "2024-01-01T00:00:00Z" (row_timestamps (call_row c))
     /\ endswith "2024-01-01T00:00:00Z" "Z" = true)
  /\ _to_rfc3339 Demo.lib
       (Some {| wall := Demo.clock; tzinfo := Some (3600 * 1000000) |})
     = Ok (Some "2024-01-01T11:00:00Z").
Proof.
  split.
  - eexists. split; [vm_compute; left; reflexivity|].
    split; [vm_compute; left; reflexivity|].
    destruct (timestamps_are_utc_rfc3339 Demo.lib Demo.clock
                Demo.purchase_event (Some "m1")
                (Some "2024-01-01T05:30:00+05:30") None Demo.accepting
                Demo.config) as [H _].
    edestruct H as [w [_ [E _]]];
      [vm_compute; left; reflexivity | vm_compute; left; reflexivity|].
    exact E.
  - destruct (timestamps_are_utc_rfc3339 Demo.lib Demo.clock
                Demo.purchase_event None None None Demo.accepting
                Demo.config) as [_ [_ [_ H]]].
    rewrite (H {| wall := Demo.clock; tzinfo := Some (3600 * 1000000) |}
               (3600 * 1000000) eq_refl eq_refl).
    vm_compute. reflexivity.
Defined.

(** * Runs, rows, the endpoint and the publisher *)

Section HappyPaths.

Context (L : PyLib) (clock : wallclock) (event : dict)
  (message_id publish_time : option string) (attributes : option dict)
  (writer : BigQueryWriter) (config : PipelineConfig).

Lemma answer_accepted (log : list insert_call) (c : insert_call) :
  insert_rows_json writer log c = Ok [] -> answer L writer log c = Ok tt.
Proof. unfold answer. intros ->. reflexivity. Qed.

Lemma normalise_event_time_in_range (v : EcommerceEvent) :
  model_validate L event = inr v ->
  in_range (utc_instant (event_time v)) = true ->
  exists d, normalise_event_time L event = Ok (Some d)
            /\ tzinfo d = Some 0
            /\ ticks (wall d) = utc_instant (event_time v).
Proof.
  intros M R. unfold normalise_event_time, utc_instant in *. rewrite M.
  destruct (tzinfo (event_time v)) as [o|] eqn:T.
  - unfold astimezone_UTC, instant. rewrite T.
    destruct (mk_wall_in_range _ R) as [w [-> E]]. simpl.
    eexists; split; [reflexivity|]. split; [reflexivity|exact E].
  - eexists; split; [reflexivity|]. split; [reflexivity|]. simpl. lia.
Qed.

(** X1: A valid event whose timestamps convert to UTC, with a service that
    accepts the inserts: the Raw Row and the Processed Row are written, in
    that order and nothing else, and [process_event] returns. *)
Theorem valid_event_is_stored (v : EcommerceEvent) (pd : option datetime) :
  model_validate L event = inr v ->
  _parse_rfc3339_timestamp L publish_time = Ok pd ->
  in_range (utc_instant (event_time v)) = true ->
  (forall log c, insert_rows_json writer log c = Ok []) ->
  exists c1 r1 c2 r2,
    process_event L clock event message_id publish_time attributes writer
      config [] = ([c1; c2], Ok tt)
    /\ call_row c1 = Raw r1 /\ call_row c2 = Processed r2
    /\ raw_is_valid r1 = true /\ raw_validation_errors r1 = None
    /\ raw_event_id r1 = Some (uuid_str (event_id v))
    /\ proc_event_id r2 = Some (uuid_str (event_id v))
    /\ proc_user_id r2 = user_id v
    /\ proc_event_type r2 = EventType_value (event_type v)
    /\ proc_product_id r2 = product_id v
    /\ proc_category r2 = category v
    /\ proc_price r2 = price v
    /\ proc_device r2 = DeviceType_value (device v)
    /\ proc_city r2 = city v
    /\ proc_event_time r2
       = Some (isoformat_wall (utc_instant (event_time v)) ++ "Z").
Proof.
  intros M P R A.
  destruct (normalise_event_time_in_range v M R) as [d [N [T I]]].
  rewrite process_event_routed. unfold routed. rewrite P, N. cbv zeta.
  rewrite !answer_accepted by apply A. rewrite M.
  rewrite !answer_accepted by apply A.
  do 4 eexists. do 3 (split; [reflexivity|]).
  cbn [call_row raw_call processed_call mk_call raw_is_valid
       raw_validation_errors raw_event_id proc_event_id proc_user_id
       proc_event_type proc_product_id proc_category proc_price proc_device
       proc_city proc_event_time render option_map].
  unfold event_id_str. rewrite M, rfc3339_Z_text, I.
  repeat (split; [reflexivity|]). reflexivity.
Qed.

(** X2: An event that fails validation, with a service that accepts the inserts:
    the Raw Row says [is_valid = false] and carries the serialised defects,
    the Error Row of stage "validation" carries the same defects,
    and [process_event] returns. *)
Theorem invalid_event_is_recorded (errs : list defect)
    (pd et : option datetime) :
  model_validate L event = inl errs ->
  _parse_rfc3339_timestamp L publish_time = Ok pd ->
  _parse_rfc3339_timestamp L
    match dict_get event "event_time" with
    | JNull => None
    | v => Some (py_str L v)
    end = Ok et ->
  (forall log c, insert_rows_json writer log c = Ok []) ->
  exists c1 r1 c2 r2,
    process_event L clock event message_id publish_time attributes writer
      config [] = ([c1; c2], Ok tt)
    /\ call_row c1 = Raw r1 /\ call_row c2 = Error r2
    /\ raw_is_valid r1 = false
    /\ raw_event_id r1 = None
    /\ raw_validation_errors r1
       = Some (json_dumps L (JList (map defect_json errs)))
    /\ err_stage r2 = "validation"
    /\ err_error_message r2 = "Schema validation failed"
    /\ err_error_details r2 = raw_validation_errors r1
    /\ errs <> [].
Proof.
  intros M P N A.
  pose proof (model_validate_well_formed L event) as W. rewrite M in W.
  rewrite process_event_routed. unfold routed, normalise_event_time.
  rewrite P, M, N. cbv zeta.
  rewrite !answer_accepted by apply A.
  do 4 eexists. do 3 (split; [reflexivity|]).
  cbn [call_row raw_call error_call mk_call raw_is_valid
       raw_validation_errors raw_event_id err_stage err_error_message
       err_error_details option_map].
  unfold event_id_str. rewrite M.
  destruct errs as [|d ds]; [contradiction|].
  repeat (split; [reflexivity|]). discriminate.
Qed.

(** X3: A failed Processed Row write (the service rejects it, or the client
    raises) followed by an accepted Error Row write: the Error Row has stage
    "processed_insert", no details, and as its message the text of the
    failure, which is that of the [RuntimeError] of [insert_row] for a
    rejection and that of the client's exception otherwise; that exception
    is the one that leaves [process_event], and the endpoint answers 500
    with its text. *)
Theorem processed_failure_is_logged_and_raised (c1 c2 c3 : insert_call)
    (outcome : result unit) :
  process_event L clock event message_id publish_time attributes writer
    config [] = ([c1; c2; c3], outcome) ->
  insert_rows_json writer [c1; c2] c3 = Ok [] ->
  let exc :=
    match insert_rows_json writer [c1] c2 with
    | Raise raised => raised
    | Ok errors =>
        Exn RuntimeError
          ("BigQuery insert failed for " ++ call_table c2 ++ ": "
           ++ py_repr L (JList errors)) None
    end in
  kind_of c2 = ProcessedWrite
  /\ insert_rows_json writer [c1] c2 <> Ok []
  /\ (exists r3, call_row c3 = Error r3
                 /\ err_stage r3 = "processed_insert"
                 /\ err_error_message r3 = exc_str exc
                 /\ err_error_details r3 = None)
  /\ outcome = Raise exc
  /\ pubsub_push_response outcome = Http 500 (exc_str exc).
Proof.
  rewrite process_event_routed. unfold routed.
  destruct (_parse_rfc3339_timestamp L publish_time) as [pd|e];
    [|discriminate].
  destruct (normalise_event_time L event) as [et|e]; [|discriminate].
  cbv zeta. destruct (answer L writer [] _) as [[]|e]; [|discriminate].
  destruct (model_validate L event) as [errs|v]; [discriminate|].
  destruct (answer L writer [_] _) as [[]|exc] eqn:A2; [discriminate|].
  intros [= <- <- <- <-] A3.
  rewrite (answer_accepted _ _ A3).
  unfold answer in A2.
  destruct (insert_rows_json writer [_] _) as [[|x xs]|raised] eqn:E;
    [discriminate| |]; injection A2 as <-;
    (split; [reflexivity|]); (split; [discriminate|]);
    (split; [eexists; repeat split; reflexivity|]);
    split; reflexivity.
Qed.

End HappyPaths.

Section Rows.

Context (L : PyLib) (clock : wallclock) (event : dict)
  (message_id publish_time : option string) (attributes : option dict)
  (writer : BigQueryWriter) (config : PipelineConfig).

(** X4: Every insert of a run goes to the table configured for the shape of
    its row, in the configured dataset of the writer's project. *)
Theorem rows_go_to_their_tables (c : insert_call) :
  In c (fst (process_event L clock event message_id publish_time attributes
               writer config [])) ->
  call_table c
  = project writer ++ "." ++ cfg_dataset_id config ++ "."
    ++ table_for config (call_row c).
Proof.
  rewrite process_event_routed. intros Hc.
  destruct (routed_calls _ _ _ _ _ _ _ _ _ Hc)
    as [pd [et [_ [_ [->|[[st [m [d ->]]]|[v [_ ->]]]]]]]]; reflexivity.
Qed.

(** X5: The ingestion instant is taken once: all rows of a run carry the same
    [ingestion_time], the clock reading in UTC.  The Raw Row and the Error
    Row of a run agree on the delivery fields. *)
Theorem rows_share_delivery_metadata (c c' : insert_call) :
  In c (fst (process_event L clock event message_id publish_time attributes
               writer config [])) ->
  In c' (fst (process_event L clock event message_id publish_time attributes
                writer config [])) ->
  row_ingestion_time (call_row c)
  = Some (isoformat_wall (ticks clock) ++ "Z")
  /\ row_ingestion_time (call_row c') = row_ingestion_time (call_row c)
  /\ forall x x',
       row_delivery (call_row c) = Some x ->
       row_delivery (call_row c') = Some x' ->
       x = x'
       /\ fst (fst (fst (fst (fst x)))) = message_id
       /\ snd (fst (fst x)) = json_dumps L (JDict event).
Proof.
  rewrite process_event_routed. intros Hc Hc'.
  destruct (routed_calls _ _ _ _ _ _ _ _ _ Hc)
    as [pd [et [P [N [->|[[st [m [d ->]]]|[v [_ ->]]]]]]]];
    destruct (routed_calls _ _ _ _ _ _ _ _ _ Hc')
      as [pd' [et' [P' [N' [->|[[st' [m' [d' ->]]]|[v' [_ ->]]]]]]]];
    rewrite P in P'; injection P' as <-;
    cbn [call_row raw_call error_call processed_call mk_call
         row_ingestion_time raw_ingestion_time err_ingestion_time
         proc_ingestion_time row_delivery];
    rewrite <- rfc3339_Z_text;
    (split; [reflexivity|]); (split; [reflexivity|]);
    intros x x' Hx Hx'; try discriminate;
    injection Hx as <-; injection Hx' as <-;
    repeat split; reflexivity.
Qed.

End Rows.

(** ** The timestamp normaliser *)

Section Parse.

Context (L : PyLib).

(** X6: The three outcomes of [_parse_rfc3339_timestamp]: nothing exactly for
    an absent, empty or refused text; [OverflowError] exactly when the text
    parses with an offset and its instant in UTC is not representable;
    otherwise a [datetime] at offset zero for the same instant, a text
    without offset being read as UTC. *)
Theorem _parse_rfc3339_timestamp_outcomes (value : option string) :
  (_parse_rfc3339_timestamp L value = Ok None
   <-> absent_or_unparsable L value)
  /\ (forall d,
        _parse_rfc3339_timestamp L value = Ok (Some d) <->
        exists s parsed,
          value = Some s /\ s <> ""
          /\ fromisoformat L (replace "Z" "+00:00" (strip s)) = Some parsed
          /\ in_range (utc_instant parsed) = true
          /\ tzinfo d = Some 0
          /\ ticks (wall d) = utc_instant parsed)
  /\ (forall e,
        _parse_rfc3339_timestamp L value = Raise e <->
        e = Exn OverflowError "date value out of range" None
        /\ exists s parsed o,
             value = Some s /\ s <> ""
             /\ fromisoformat L (replace "Z" "+00:00" (strip s))
                = Some parsed
             /\ tzinfo parsed = Some o
             /\ in_range (ticks (wall parsed) - o) = false).
Proof.
  assert (U : forall d d' : datetime,
             tzinfo d = tzinfo d' -> ticks (wall d) = ticks (wall d') ->
             d = d').
  { intros [w t] [w' t']; simpl; intros -> E.
    f_equal. apply wallclock_eq, E. }
  unfold _parse_rfc3339_timestamp, absent_or_unparsable.
  destruct value as [[|c s]|].
  - split; [split; auto|]. split.
    + intros d; split; [discriminate|].
      intros [s [p [[= <-] [N _]]]]. congruence.
    + intros e; split; [discriminate|].
      intros [_ [s [p [o [[= <-] [N _]]]]]]. congruence.
  - destruct (fromisoformat L _) as [parsed|] eqn:F.
    + unfold astimezone_UTC, instant, utc_instant.
      destruct (tzinfo parsed) as [o|] eqn:T; rewrite ?T.
      * destruct (mk_wall (ticks (wall parsed) - o)) as [w|] eqn:M; simpl.
        -- pose proof (mk_wall_Some _ _ M) as Ew.
           pose proof (ticks_ok w) as Rw. rewrite Ew in Rw.
           split; [split; [discriminate|intros [H|H]; discriminate]|].
           split.
           ++ intros d; split.
              ** intros [= <-]. exists (String c s), parsed.
                 rewrite T. repeat split; auto; discriminate.
              ** intros [s' [p [[= <-] [_ [F' [R [Td Id]]]]]]].
                 rewrite F in F'. injection F' as <-. rewrite T in Id.
                 f_equal. f_equal. apply U; simpl; [congruence|lia].
           ++ intros e; split; [discriminate|].
              intros [_ [s' [p [o' [[= <-] [_ [F' [T' R]]]]]]]].
              rewrite F in F'. injection F' as <-.
              rewrite T in T'. injection T' as <-. congruence.
        -- apply mk_wall_None in M.
           split; [split; [discriminate|intros [H|H]; discriminate]|].
           split.
           ++ intros d; split; [discriminate|].
              intros [s' [p [[= <-] [_ [F' [R _]]]]]].
              rewrite F in F'. injection F' as <-. rewrite T in R.
              congruence.
           ++ intros e; split.
              ** intros [= <-]. split; [reflexivity|].
                 exists (String c s), parsed, o.
                 repeat split; auto; discriminate.
              ** intros [-> _]. reflexivity.
      * split; [split; [discriminate|intros [H|H]; discriminate]|].
        split.
        -- intros d; split.
           ++ intros [= <-]. exists (String c s), parsed.
              rewrite T, Z.sub_0_r.
              repeat split; auto using ticks_ok; try discriminate.
           ++ intros [s' [p [[= <-] [_ [F' [R [Td Id]]]]]]].
              rewrite F in F'. injection F' as <-. rewrite T in Id.
              f_equal. f_equal. apply U; simpl; [congruence|lia].
        -- intros e; split; [discriminate|].
           intros [_ [s' [p [o' [[= <-] [_ [F' [T' R]]]]]]]].
           rewrite F in F'. injection F' as <-. congruence.
    + split; [split; auto|]. split.
      * intros d; split; [discriminate|].
        intros [s' [p [[= <-] [_ [F' _]]]]]. congruence.
      * intros e; split; [discriminate|].
        intros [_ [s' [p [o [[= <-] [_ [F' _]]]]]]]. congruence.
  - split; [split; auto|]. split.
    + intros d; split; [discriminate|].
      intros [s [p [[=] _]]].
    + intros e; split; [discriminate|].
      intros [_ [s [p [o [[=] _]]]]].
Qed.

End Parse.

(** ** Printing a timestamp and parsing it back *)

Lemma iso_char_not_space (c : ascii) :
  iso_char c = true -> isspace c = false.
Proof.
  destruct c as [[] [] [] [] [] [] [] []]; vm_compute; congruence.
Qed.

Lemma lstrip_no_space (s : string) :
  only_chars (fun c => negb (isspace c)) s = true -> lstrip s = s.
Proof.
  destruct s as [|c s]; simpl; [reflexivity|].
  intros H. apply andb_prop in H as [H _].
  apply negb_true_iff in H. rewrite H. reflexivity.
Qed.

Lemma rstrip_no_space (s : string) :
  only_chars (fun c => negb (isspace c)) s = true -> rstrip s = s.
Proof.
  induction s as [|c s IH]; simpl; [reflexivity|].
  intros H. apply andb_prop in H as [Hc Hs].
  apply negb_true_iff in Hc. rewrite (IH Hs), Hc.
  destruct s; reflexivity.
Qed.

Lemma only_chars_weaken (p q : ascii -> bool) (s : string) :
  (forall c, p c = true -> q c = true) ->
  only_chars p s = true -> only_chars q s = true.
Proof.
  intros W. induction s as [|c s IH]; simpl; [reflexivity|].
  intros H. apply andb_prop in H as [Hc Hs].
  rewrite (W c Hc), (IH Hs). reflexivity.
Qed.

Lemma strip_rfc3339 (x : string) :
  only_chars iso_char x = true -> strip (x ++ "Z") = x ++ "Z".
Proof.
  intros H.
  assert (N : only_chars (fun c => negb (isspace c)) (x ++ "Z") = true).
  { rewrite only_chars_app, andb_true_iff. split; [|reflexivity].
    apply (only_chars_weaken iso_char); [|exact H].
    intros c Hc. rewrite (iso_char_not_space c Hc). reflexivity. }
  unfold strip. rewrite (lstrip_no_space _ N). apply rstrip_no_space, N.
Qed.

Lemma replace_Z_suffix (x : string) :
  only_chars iso_char x = true ->
  replace "Z" "+00:00" (x ++ "Z") = x ++ "+00:00".
Proof.
  unfold replace. induction x as [|c x IH]; [reflexivity|].
  simpl only_chars. intros H. apply andb_prop in H as [Hc Hx].
  cbn [append replace_from prefix].
  destruct (ascii_dec "Z" c) as [<-|N]; [discriminate|].
  rewrite IH by assumption. reflexivity.
Qed.

(** X7: [_parse_rfc3339_timestamp] reads back what [_to_rfc3339] prints: for a
    [datetime] at offset zero the round trip is the identity, and a naive
    one comes back at offset zero with the same reading.  [fromisoformat]
    is assumed to read the ISO text of a UTC [datetime]. *)
Theorem _parse_rfc3339_timestamp_of_to_rfc3339 (L : PyLib) (d : datetime) :
  (forall w,
     fromisoformat L (isoformat_wall (ticks w) ++ "+00:00")
     = Some {| wall := w; tzinfo := Some 0 |}) ->
  tzinfo d = Some 0 \/ tzinfo d = None ->
  rbind (_to_rfc3339 L (Some d)) (_parse_rfc3339_timestamp L)
  = Ok (Some {| wall := wall d; tzinfo := Some 0 |}).
Proof.
  intros F T.
  assert (E : _to_rfc3339 L (Some d) = Ok (Some (rfc3339_Z (wall d)))).
  { destruct T as [T|T];
      [apply _to_rfc3339_utc, T | apply _to_rfc3339_naive, T]. }
  rewrite E, rfc3339_Z_text. cbn [rbind].
  unfold _parse_rfc3339_timestamp.
  pose proof (isoformat_wall_iso (ticks (wall d))) as I.
  destruct (isoformat_wall (ticks (wall d)) ++ "Z") as [|c s] eqn:S.
  { destruct (isoformat_wall (ticks (wall d))); discriminate. }
  rewrite <- S, (strip_rfc3339 _ I), (replace_Z_suffix _ I), F.
  cbn [tzinfo]. rewrite astimezone_UTC_utc by reflexivity. reflexivity.
Qed.

Lemma fromisoformat_demo (w : wallclock) :
  fromisoformat Demo.lib (isoformat_wall (ticks w) ++ "+00:00")
  = Some {| wall := w; tzinfo := Some 0 |}.
Proof.
  change (fromisoformat Demo.lib) with Demo.iso_datetime.
  apply iso_datetime_isoformat_wall; reflexivity.
Qed.

Lemma _parse_rfc3339_timestamp_of_to_rfc3339_witness :
  rbind (_to_rfc3339 Demo.lib
           (Some {| wall := Demo.clock; tzinfo := None |}))
        (_parse_rfc3339_timestamp Demo.lib)
  = Ok (Some {| wall := Demo.clock; tzinfo := Some 0 |}).
Proof.
  apply (_parse_rfc3339_timestamp_of_to_rfc3339 Demo.lib
           {| wall := Demo.clock; tzinfo := None |} fromisoformat_demo).
  right; reflexivity.
Defined.

(** ** What a validated event says about the payload *)

Lemma enum_validate_inr {E} (members : list E) (value : E -> string)
    (expected : string) (x : json) (t : E) :
  enum_validate members value expected x = inr t -> x = JStr (value t).
Proof.
  unfold enum_validate. destruct x; try discriminate.
  destruct (find _ members) as [m|] eqn:F; [|discriminate].
  intros [= <-]. apply find_some in F as [_ F].
  apply String.eqb_eq in F. congruence.
Qed.

(** X8: The enum fields match exactly and with case: a value is accepted as the
    member [t] if and only if it is the string [t.value]. *)
Theorem enum_fields_match_exactly (x : json) :
  (forall t,
     enum_validate EventType_members EventType_value EventType_expected x
     = inr t <-> x = JStr (EventType_value t))
  /\ (forall t,
        enum_validate DeviceType_members DeviceType_value DeviceType_expected
          x = inr t <-> x = JStr (DeviceType_value t)).
Proof.
  split; intros t; split.
  - apply enum_validate_inr.
  - intros ->. apply EventType_round_trip.
  - apply enum_validate_inr.
  - intros ->. apply DeviceType_round_trip.
Qed.





(** ** Keys and texts that survive the processor *)

Lemma uuid_str_injective (u u' : UUID) : uuid_str u = uuid_str u' -> u = u'.
Proof.
  intros E. pose proof (parse_uuid_uuid_str u) as P.
  rewrite E, parse_uuid_uuid_str in P. congruence.
Qed.

(** X10: Two runs on valid events use the same idempotency key exactly when the
    events have the same validated [event_id]: a redelivery is keyed like
    the first delivery, and two different events never share a key. *)
Theorem valid_events_share_key_iff_same_event_id (L : PyLib)
    (clock clock' : wallclock) (event event' : dict)
    (message_id message_id' publish_time publish_time' : option string)
    (attributes attributes' : option dict) (writer writer' : BigQueryWriter)
    (config config' : PipelineConfig) (v v' : EcommerceEvent)
    (c c' : insert_call) :
  model_validate L event = inr v ->
  model_validate L event' = inr v' ->
  In c (fst (process_event L clock event message_id publish_time attributes
               writer config [])) ->
  In c' (fst (process_event L clock' event' message_id' publish_time'
                attributes' writer' config' [])) ->
  (call_row_ids c = call_row_ids c' <-> event_id v = event_id v').
Proof.
  intros M M'. rewrite !process_event_routed. intros H H'.
  rewrite (routed_row_ids _ _ _ _ _ _ _ _ _ H),
    (routed_row_ids _ _ _ _ _ _ _ _ _ H').
  unfold insert_id, event_id_str, py_or. rewrite M, M'.
  destruct (uuid_str_nonempty (event_id v)) as [a [s E]].
  destruct (uuid_str_nonempty (event_id v')) as [a' [s' E']].
  rewrite E, E'. cbn [truthy]. split.
  - intros K. apply uuid_str_injective. rewrite E, E'. congruence.
  - intros K. rewrite K in E. rewrite E in E'. congruence.
Qed.

Lemma valid_events_share_key_iff_same_event_id_witness :
  exists v c c',
    model_validate Demo.lib Demo.purchase_event = inr v
    /\ In c (fst (process_event Demo.lib Demo.clock Demo.purchase_event
                    (Some "m1") None None Demo.accepting Demo.config []))
    /\ In c' (fst (process_event Demo.lib Demo.clock Demo.purchase_event
                     (Some "m2") None None
                     (Demo.rejecting [Demo.processed_ref]) Demo.config []))
    /\ call_row_ids c = call_row_ids c'.
Proof.
  assert (M : exists v, model_validate Demo.lib Demo.purchase_event = inr v)
    by (vm_compute; eexists; reflexivity).
  destruct M as [v M]. exists v. do 2 eexists.
  split; [exact M|].
  split; [vm_compute; left; reflexivity|].
  split; [vm_compute; right; right; left; reflexivity|].
  eapply (valid_events_share_key_iff_same_event_id Demo.lib Demo.clock
            Demo.clock Demo.purchase_event Demo.purchase_event (Some "m1")
            (Some "m2") None None None None Demo.accepting
            (Demo.rejecting [Demo.processed_ref]) Demo.config Demo.config
            v v _ _ M M).
  - vm_compute; left; reflexivity.
  - vm_compute; right; right; left; reflexivity.
  - reflexivity.
Defined.

Lemma model_validate_event_time (L : PyLib) (event : dict)
    (v : EcommerceEvent) :
  model_validate L event = inr v ->
  exists x, lookup event "event_time" = Some x
            /\ datetime_validate L x = inr (event_time v).
Proof.
  unfold model_validate. intros H.
  apply vap_inr_eq in H. destruct H as [g [a [H [Hx ->]]]].
  apply field_inr_value in Hx.
  repeat match type of H with
         | _ <*> _ = inr _ =>
             let g' := fresh "g" in
             let a' := fresh "a" in
             let Hy := fresh "Hy" in
             apply vap_inr_eq in H; destruct H as [g' [a' [H [Hy ->]]]]
         end.
  injection H as <-. exact Hx.
Qed.

(** X11: An [event_time] sent in the form the pipeline prints (ISO date and time
    in UTC followed by Z) is stored unchanged in the Processed Row.  The
    datetime validator of the library is assumed to read that form
    ([PyLibLaws]). *)
Theorem canonical_event_time_is_stored_unchanged (L : PyLib)
    (clock : wallclock) (event : dict)
    (message_id publish_time : option string) (attributes : option dict)
    (writer : BigQueryWriter) (config : PipelineConfig) (w : wallclock)
    (c : insert_call) (r : ProcessedRow) :
  PyLibLaws L ->
  lookup event "event_time" = Some (JStr (isoformat_wall (ticks w) ++ "Z")) ->
  In c (fst (process_event L clock event message_id publish_time attributes
               writer config [])) ->
  call_row c = Processed r ->
  proc_event_time r = Some (isoformat_wall (ticks w) ++ "Z").
Proof.
  intros laws Hl. rewrite process_event_routed. intros Hc Hr.
  destruct (routed_calls _ _ _ _ _ _ _ _ _ Hc)
    as [pd [et [_ [N [->|[[st [m [d ->]]]|[v [M ->]]]]]]]];
    simpl in Hr; try discriminate.
  injection Hr as <-. cbn [proc_event_time].
  destruct (normalise_event_time_valid L event v et M N) as [d [-> [T I]]].
  destruct (model_validate_event_time L event v M) as [x [Hx Hv]].
  rewrite Hl in Hx. injection Hx as <-.
  rewrite (datetime_validate_rfc3339 L laws) in Hv. injection Hv as Hv.
  cbn [render option_map]. rewrite rfc3339_Z_text, I, <- Hv.
  unfold utc_instant. cbn [wall tzinfo]. rewrite Z.sub_0_r. reflexivity.
Qed.

Lemma canonical_event_time_is_stored_unchanged_witness :
  exists c r,
    In c (fst (process_event Demo.lib Demo.clock Demo.purchase_event
                 (Some "m1") None None Demo.accepting Demo.config []))
    /\ call_row c = Processed r
    /\ lookup Demo.purchase_event "event_time"
       = Some (JStr "2024-01-01T00:00:00Z")
    /\ proc_event_time r = Some "2024-01-01T00:00:00Z".
Proof.
  assert (W : exists w, isoformat_wall (ticks w) ++ "Z"
                        = "2024-01-01T00:00:00Z").
  { exists {| ticks := 738885 * 86400 * 1000000; ticks_ok := eq_refl |}.
    vm_compute. reflexivity. }
  destruct W as [w W].
  assert (R : exists c r,
             In c (fst (process_event Demo.lib Demo.clock Demo.purchase_event
                          (Some "m1") None None Demo.accepting Demo.config []))
             /\ call_row c = Processed r).
  { do 2 eexists. split; [vm_compute; right; left; reflexivity|].
    reflexivity. }
  destruct R as [c [r [Hc Hr]]]. exists c, r.
  split; [exact Hc|]. split; [exact Hr|]. split; [reflexivity|].
  rewrite <- W.
  apply (canonical_event_time_is_stored_unchanged Demo.lib Demo.clock
           Demo.purchase_event (Some "m1") None None Demo.accepting
           Demo.config w c r demo_laws); [|exact Hc|exact Hr].
  rewrite W. reflexivity.
Defined.

(** ** The push endpoint *)

Section Endpoint.

Context (W : WebLib) (L : PyLib) (env : environ) (clock : wallclock).

(** X12: The endpoint answers 400 exactly for a malformed envelope, and then has
    caused no insert; every other answer is 200 or 500. *)
Theorem pubsub_push_rejects_malformed_envelopes (envelope : dict) :
  (status_of (snd (pubsub_push W L env clock envelope)) = 400
   <-> malformed W envelope)
  /\ (malformed W envelope -> fst (pubsub_push W L env clock envelope) = [])
  /\ (status_of (snd (pubsub_push W L env clock envelope)) = 200
      \/ status_of (snd (pubsub_push W L env clock envelope)) = 400
      \/ status_of (snd (pubsub_push W L env clock envelope)) = 500).
Proof.
  unfold pubsub_push, malformed.
  destruct (dict_get envelope "message") as [| | | | | |message];
    try (cbn; intuition congruence).
  destruct (dict_get message "data") as [| | | |data| |];
    try (cbn; intuition congruence).
  destruct (decode_payload W data) as [exc|event].
  - cbn. split; [split; eauto|]. auto.
  - cbv zeta. destruct (process_event_any _ _ _ _ _ _ _ _) as [log [d|[]]];
      cbn; (split; [split; [discriminate|intros [x Hx]; discriminate]|]);
      (split; [intros [x Hx]; discriminate|]); auto.
Qed.

Lemma pubsub_push_payload (envelope : dict) (event : json) :
  payload_of W envelope = Some event ->
  pubsub_push W L env clock envelope
  = match process_event_any L clock event
            (if_str (metadata_of envelope "messageId"))
            (if_str (metadata_of envelope "publishTime"))
            (if_dict (metadata_of envelope "attributes"))
            {| project :=
                 client_project W
                   (py_or (getenv env "GCP_PROJECT")
                          (getenv env "GOOGLE_CLOUD_PROJECT"));
               insert_rows_json := service W |}
            (load_config env) with
    | (log, inl detail) => (log, Http 500 detail)
    | (log, inr _) => (log, Http 200 "accepted")
    end.
Proof.
  unfold payload_of, pubsub_push, metadata_of.
  destruct (dict_get envelope "message") as [| | | | | |message];
    try discriminate.
  destruct (dict_get message "data") as [| | | |data| |]; try discriminate.
  destruct (decode_payload W data) as [exc|ev]; [discriminate|].
  intros [= ->]. reflexivity.
Qed.

Lemma pubsub_push_rejects_malformed_envelopes_aux (envelope : dict) :
  exists event,
    payload_of W envelope = Some event
    \/ (snd (pubsub_push W L env clock envelope)
        = Http 400 match dict_get envelope "message" with
                   | JDict message =>
                       match dict_get message "data" with
                       | JStr data =>
                           match decode_payload W data with
                           | inl exc => "Invalid payload: " ++ exc
                           | inr _ => ""
                           end
                       | _ => "Invalid Pub/Sub envelope: missing data"
                       end
                   | _ => "Invalid Pub/Sub envelope: missing message"
                   end
        /\ fst (pubsub_push W L env clock envelope) = []).
Proof.
  unfold payload_of, pubsub_push.
  destruct (dict_get envelope "message") as [| | | | | |message];
    try (exists JNull; right; split; reflexivity).
  destruct (dict_get message "data") as [| | | |data| |];
    try (exists JNull; right; split; reflexivity).
  destruct (decode_payload W data) as [exc|event].
  - exists JNull; right; split; reflexivity.
  - exists event; left; reflexivity.
Qed.

(** X13: A payload that is valid JSON but not an object is answered 500, which
    makes Pub/Sub deliver it again, and nothing is inserted. *)
Theorem pubsub_push_non_object_payload (envelope : dict) (event : json) :
  payload_of W envelope = Some event ->
  if_dict event = None ->
  fst (pubsub_push W L env clock envelope) = []
  /\ status_of (snd (pubsub_push W L env clock envelope)) = 500
  /\ (forall pd,
        _parse_rfc3339_timestamp L
          (if_str (metadata_of envelope "publishTime")) = Ok pd ->
        snd (pubsub_push W L env clock envelope)
        = Http 500 ("'" ++ type_name event
                    ++ "' object has no attribute 'get'")).
Proof.
  intros P D. rewrite (pubsub_push_payload envelope event P).
  unfold process_event_any.
  destruct event; try discriminate;
    destruct (_parse_rfc3339_timestamp L _) as [pd|e]; cbn;
    repeat split; intros; congruence.
Qed.

Lemma answer_Ok (writer : BigQueryWriter) (log : list insert_call)
    (c : insert_call) (u : unit) :
  answer L writer log c = Ok u -> insert_rows_json writer log c = Ok [].
Proof.
  unfold answer.
  destruct (insert_rows_json writer log c) as [[|x xs]|exc];
    [auto|discriminate|discriminate].
Qed.

Lemma process_event_returns (event : dict)
    (message_id publish_time : option string) (attributes : option dict)
    (writer : BigQueryWriter) (config : PipelineConfig)
    (log : list insert_call) (u : unit) :
  process_event L clock event message_id publish_time attributes writer
    config [] = (log, Ok u) ->
  exists c1 c2 r1,
    log = [c1; c2]
    /\ call_row c1 = Raw r1
    /\ insert_rows_json writer [] c1 = Ok []
    /\ insert_rows_json writer [c1] c2 = Ok []
    /\ ((raw_is_valid r1 = true /\ kind_of c2 = ProcessedWrite)
        \/ (raw_is_valid r1 = false /\ kind_of c2 = ErrorWrite "validation")).
Proof.
  rewrite process_event_routed. unfold routed.
  destruct (_parse_rfc3339_timestamp L publish_time) as [pd|e];
    [|discriminate].
  destruct (normalise_event_time L event) as [et|e]; [|discriminate].
  cbv zeta.
  destruct (answer L writer [] _) as [u1|e] eqn:A1; [|discriminate].
  apply answer_Ok in A1.
  destruct (model_validate L event) as [errs|v] eqn:M.
  - intros [= <- A2]. apply answer_Ok in A2.
    do 3 eexists. split; [reflexivity|]. split; [reflexivity|].
    split; [exact A1|]. split; [exact A2|]. right.
    cbn. rewrite M. auto.
  - destruct (answer L writer [_] _) as [u2|exc] eqn:A2.
    + apply answer_Ok in A2. intros [= <- _].
      do 3 eexists. split; [reflexivity|]. split; [reflexivity|].
      split; [exact A1|]. split; [exact A2|]. left.
      cbn. rewrite M. auto.
    + destruct (answer L writer [_; _] _); discriminate.
Qed.

(** X14: The endpoint acknowledges a message only after the Raw Row and one more
    row were inserted and accepted by the service: the Processed Row when
    the Raw Row says valid, the validation Error Row when it says invalid. *)
Theorem pubsub_push_acknowledges_only_stored_events (envelope : dict) :
  status_of (snd (pubsub_push W L env clock envelope)) = 200 ->
  exists c1 c2 r1,
    fst (pubsub_push W L env clock envelope) = [c1; c2]
    /\ call_row c1 = Raw r1
    /\ service W [] c1 = Ok []
    /\ service W [c1] c2 = Ok []
    /\ ((raw_is_valid r1 = true /\ kind_of c2 = ProcessedWrite)
        \/ (raw_is_valid r1 = false /\ kind_of c2 = ErrorWrite "validation")).
Proof.
  destruct (pubsub_push_rejects_malformed_envelopes_aux envelope)
    as [event [P|[S F]]].
  2:{ rewrite S. discriminate. }
  rewrite (pubsub_push_payload envelope event P).
  unfold process_event_any. destruct event as [| | | | | |d].
  1-6: destruct (_parse_rfc3339_timestamp L _); cbn; discriminate.
  destruct (process_event _ _ _ _ _ _ _ _ _) as [log [u|e]] eqn:R;
    [|cbn; discriminate].
  intros _. cbn [fst].
  apply process_event_returns in R. exact R.
Qed.

(** X15: With a service that accepts every insert and timestamps that convert to
    UTC, every payload that is an object is acknowledged, valid or not: a
    valid one after its Raw and Processed Rows, an invalid one after its Raw
    and validation Error Rows. *)
Theorem pubsub_push_acknowledges_object_payloads (envelope : dict)
    (event : dict) (pd et : option datetime) :
  payload_of W envelope = Some (JDict event) ->
  _parse_rfc3339_timestamp L (if_str (metadata_of envelope "publishTime"))
  = Ok pd ->
  normalise_event_time L event = Ok et ->
  (forall log c, service W log c = Ok []) ->
  snd (pubsub_push W L env clock envelope) = Http 200 "accepted"
  /\ map kind_of (fst (pubsub_push W L env clock envelope))
     = [RawWrite;
        match model_validate L event with
        | inr _ => ProcessedWrite
        | inl _ => ErrorWrite "validation"
        end].
Proof.
  intros P T N A. rewrite (pubsub_push_payload envelope _ P).
  unfold process_event_any. rewrite process_event_routed. unfold routed.
  rewrite T, N. cbv zeta.
  assert (AA : forall p log c,
             answer L {| project := p; insert_rows_json := service W |} log c
             = Ok tt).
  { intros p log c. unfold answer. cbn [insert_rows_json]. rewrite A.
    reflexivity. }
  rewrite !AA.
  destruct (model_validate L event) as [errs|v]; rewrite !AA;
    split; reflexivity.
Qed.

(** X16: The inserts of the endpoint go to the project of the client, the
    dataset [BQ_DATASET] and the table [BQ_RAW_TABLE], [BQ_PROCESSED_TABLE]
    or [BQ_ERROR_TABLE] of the shape of the row; a variable that is not set
    gives its default, one that is set is used as it is, even when empty.
    The project is [GCP_PROJECT] unless that is unset or empty, else
    [GOOGLE_CLOUD_PROJECT]. *)
Theorem pubsub_push_tables_come_from_the_environment (envelope : dict)
    (c : insert_call) :
  In c (fst (pubsub_push W L env clock envelope)) ->
  call_table c
  = client_project W
      match getenv env "GCP_PROJECT" with
      | Some (String a s) => Some (String a s)
      | _ => getenv env "GOOGLE_CLOUD_PROJECT"
      end
    ++ "."
    ++ match getenv env "BQ_DATASET" with
       | Some v => v
       | None => "ecommerce_streaming"
       end
    ++ "."
    ++ match call_row c with
       | Raw _ =>
           match getenv env "BQ_RAW_TABLE" with
           | Some v => v
           | None => "ecommerce_raw_events"
           end
       | Processed _ =>
           match getenv env "BQ_PROCESSED_TABLE" with
           | Some v => v
           | None => "ecommerce_processed_events"
           end
       | Error _ =>
           match getenv env "BQ_ERROR_TABLE" with
           | Some v => v
           | None => "ecommerce_error_events"
           end
       end.
Proof.
  destruct (pubsub_push_rejects_malformed_envelopes_aux envelope)
    as [event [P|[S F]]].
  2:{ rewrite F. intros []. }
  rewrite (pubsub_push_payload envelope event P).
  unfold process_event_any. destruct event as [| | | | | |d].
  1-6: destruct (_parse_rfc3339_timestamp L _); cbn; intros [].
  destruct (process_event _ _ _ _ _ _ _ _ _) as [log r] eqn:R.
  assert (H : In c log -> In c (fst (process_event L clock d
              (if_str (metadata_of envelope "messageId"))
              (if_str (metadata_of envelope "publishTime"))
              (if_dict (metadata_of envelope "attributes"))
              {| project :=
                   client_project W
                     (py_or (getenv env "GCP_PROJECT")
                            (getenv env "GOOGLE_CLOUD_PROJECT"));
                 insert_rows_json := service W |}
              (load_config env) [])))
    by (rewrite R; auto).
  intros Hc. assert (Hc' : In c log) by (destruct r; exact Hc).
  apply H in Hc'. rewrite process_event_routed in Hc'.
  assert (Pj : py_or (getenv env "GCP_PROJECT")
                     (getenv env "GOOGLE_CLOUD_PROJECT")
               = match getenv env "GCP_PROJECT" with
                 | Some (String a s) => Some (String a s)
                 | _ => getenv env "GOOGLE_CLOUD_PROJECT"
                 end).
  { unfold py_or, truthy. destruct (getenv env "GCP_PROJECT") as [[|a s]|];
      reflexivity. }
  rewrite <- Pj.
  destruct (routed_calls _ _ _ _ _ _ _ _ _ Hc')
    as [pd [et [_ [_ [->|[[st [m [x ->]]]|[v [_ ->]]]]]]]]; reflexivity.
Qed.

End Endpoint.

(** ** The publisher's events in the processor *)

Lemma choice_In (xs : list string) (i : nat) :
  xs <> [] -> In (choice xs i) xs.
Proof.
  intros N. unfold choice. apply nth_In. apply Nat.mod_upper_bound.
  destruct xs; [contradiction|discriminate].
Qed.

Lemma drop_zeros_length (s : string) :
  (String.length (Demo.drop_zeros s) <= String.length s)%nat.
Proof.
  induction s as [|c s IH]; [simpl; lia|].
  destruct s as [|a s]; [simpl; lia|].
  change (Demo.drop_zeros (String c (String a s)))
    with (if Ascii.eqb c "0" then Demo.drop_zeros (String a s)
          else String c (String a s)).
  destruct (Ascii.eqb c "0"); [etransitivity; [exact IH|]|];
    cbn [String.length]; auto with arith.
Qed.

Lemma int_text_length (n : Z) :
  0 <= n < 2 ^ 20 -> (String.length (Demo.int_text n) <= 7)%nat.
Proof.
  intros H. unfold Demo.int_text.
  destruct (Z.ltb_spec n 0); [lia|]. unfold Demo.digits_of.
  etransitivity; [apply drop_zeros_length|].
  unfold zpad. rewrite padnum_length.
  assert (B : Z.log2 n < 20).
  { destruct (Z.eq_dec n 0) as [->|N]; [vm_compute; reflexivity|].
    apply Z.log2_lt_pow2; lia. }
  pose proof (Z.log2_nonneg n).
  assert (Q : 0 <= Z.log2 n / 3 <= 6).
  { split; [apply Z.div_pos; lia|].
    Z.div_mod_to_equations; lia. }
  lia.
Qed.

Lemma prefixed_number_ok (p : ascii) (n : Z) :
  0 <= n < 2 ^ 20 ->
  constrained_str 1 128 (JStr (String p (Demo.int_text n)))
  = inr (String p (Demo.int_text n)).
Proof.
  intros H. pose proof (int_text_length n H) as B.
  unfold constrained_str. cbn [String.length].
  destruct (Nat.ltb_spec (S (String.length (Demo.int_text n))) 1); [lia|].
  destruct (Nat.ltb_spec 128 (S (String.length (Demo.int_text n))));
    [lia|reflexivity].
Qed.

Lemma field_found {T} (event : dict) (loc : string)
    (validator : json -> errinfo + T) (x : json) (t : T) :
  lookup event loc = Some x -> validator x = inr t ->
  field event loc validator = inr t.
Proof. intros H V. unfold field. rewrite H, V. reflexivity. Qed.

Lemma choice_EVENT_TYPES (i : nat) :
  exists t, choice EVENT_TYPES i = EventType_value t.
Proof.
  pose proof (choice_In EVENT_TYPES i ltac:(discriminate)) as H.
  remember (choice EVENT_TYPES i) as x eqn:X. clear X.
  cbv [EVENT_TYPES In] in H.
  destruct H as [H|[H|[H|[H|[H|[H|[]]]]]]]; rewrite <- H;
    [exists view|exists add_to_cart|exists remove_from_cart|exists checkout
    |exists purchase|exists search]; reflexivity.
Qed.

Lemma choice_DEVICES (i : nat) :
  exists t, choice DEVICES i = DeviceType_value t.
Proof.
  pose proof (choice_In DEVICES i ltac:(discriminate)) as H.
  remember (choice DEVICES i) as x eqn:X. clear X.
  cbv [DEVICES In] in H.
  destruct H as [H|[H|[H|[]]]]; rewrite <- H;
    [exists mobile|exists desktop|exists tablet]; reflexivity.
Qed.

Lemma choice_CATEGORIES (i : nat) :
  constrained_str 1 128 (JStr (choice CATEGORIES i))
  = inr (choice CATEGORIES i).
Proof.
  pose proof (choice_In CATEGORIES i ltac:(discriminate)) as H.
  remember (choice CATEGORIES i) as x eqn:X. clear X.
  cbv [CATEGORIES In] in H.
  destruct H as [H|[H|[H|[H|[H|[H|[]]]]]]]; rewrite <- H; reflexivity.
Qed.

Lemma utc_now_iso_text (clock : wallclock) :
  utc_now_iso clock = isoformat_wall (ticks clock) ++ "Z".
Proof. exact (rfc3339_Z_text clock). Qed.

(** A float that is at least zero is not below zero. *)
Lemma leb_zero_not_ltb (f : float) :
  PrimFloat.leb 0 f = true -> PrimFloat.ltb f 0 = false.
Proof.
  rewrite leb_spec, ltb_spec.
  change (Prim2SF 0) with (S754_zero false).
  destruct (Prim2SF f) as [s|s| |s m e]; try destruct s; cbv; congruence.
Qed.

Lemma generate_event_validates (L : PyLib) (round2 : float -> float)
    (clock : wallclock) (d : draws) :
  PyLibLaws L ->
  1000 <= drawn_user d <= 999999 ->
  1000 <= drawn_product d <= 999999 ->
  (1 <= String.length (drawn_city d) <= 128)%nat ->
  PrimFloat.leb 0
    (round2 (scaled_price (choice EVENT_TYPES (drawn_event_type d))
               (drawn_base_price d))) = true ->
  exists t dev,
    EventType_value t = choice EVENT_TYPES (drawn_event_type d)
    /\ DeviceType_value dev = choice DEVICES (drawn_device d)
    /\ model_validate L (generate_event round2 clock d)
       = inr {| event_id := drawn_event_id d;
                user_id := "U" ++ Demo.int_text (drawn_user d);
                event_type := t;
                product_id := "P" ++ Demo.int_text (drawn_product d);
                category := choice CATEGORIES (drawn_category d);
                price :=
                  round2 (scaled_price
                            (choice EVENT_TYPES (drawn_event_type d))
                            (drawn_base_price d));
                device := dev;
                city := drawn_city d;
                event_time := _utc_now clock |}.
Proof.
  intros HL U P C F.
  destruct (choice_EVENT_TYPES (drawn_event_type d)) as [t Ht].
  destruct (choice_DEVICES (drawn_device d)) as [dev Hd].
  exists t, dev. split; [auto|]. split; [auto|].
  unfold model_validate.
  rewrite (field_found (generate_event round2 clock d) "event_id" _ (JStr (uuid_str (drawn_event_id d)))
             (drawn_event_id d) eq_refl (uuid_validate_str L HL _)).
  rewrite (field_found (generate_event round2 clock d) "user_id" _
             (JStr (String "U" (Demo.int_text (drawn_user d)))) _ eq_refl
             (prefixed_number_ok "U" (drawn_user d) ltac:(lia))).
  rewrite (field_found (generate_event round2 clock d) "event_type" _
             (JStr (choice EVENT_TYPES (drawn_event_type d))) t eq_refl
             ltac:(rewrite Ht; apply EventType_round_trip)).
  rewrite (field_found (generate_event round2 clock d) "product_id" _
             (JStr (String "P" (Demo.int_text (drawn_product d)))) _ eq_refl
             (prefixed_number_ok "P" (drawn_product d) ltac:(lia))).
  rewrite (field_found (generate_event round2 clock d) "category" _
             (JStr (choice CATEGORIES (drawn_category d))) _ eq_refl
             (choice_CATEGORIES _)).
  rewrite (field_found (generate_event round2 clock d) "price" (float_ge L 0%float)
             (JFloat (round2 (scaled_price
                                (choice EVENT_TYPES (drawn_event_type d))
                                (drawn_base_price d)))) _ eq_refl
             ltac:(unfold float_ge;
                   rewrite (float_validate_float L HL),
                     (leb_zero_not_ltb _ F); reflexivity)).
  rewrite (field_found (generate_event round2 clock d) "device" _
             (JStr (choice DEVICES (drawn_device d))) dev eq_refl
             ltac:(rewrite Hd; apply DeviceType_round_trip)).
  rewrite (field_found (generate_event round2 clock d) "city" (constrained_str 1 128)
             (JStr (drawn_city d)) (drawn_city d) eq_refl).
  2: { unfold constrained_str.
       destruct (Nat.ltb_spec (String.length (drawn_city d)) 1); [lia|].
       destruct (Nat.ltb_spec 128 (String.length (drawn_city d)));
         [lia|reflexivity]. }
  rewrite (field_found (generate_event round2 clock d) "event_time" _ (JStr (utc_now_iso clock))
             (_utc_now clock) eq_refl
             ltac:(rewrite utc_now_iso_text;
                   apply (datetime_validate_rfc3339 L HL))).
  reflexivity.
Qed.

(** X17: Every event the publisher generates is accepted and stored by the
    processor, provided Faker keeps to its contract (the two random integers
    within 1000..999999, a city of 1 to 128 characters), the rounded price
    is a number not below zero, the publish time converts to UTC and the
    service accepts the inserts: the event validates, the run writes the Raw
    Row and the Processed Row and returns, both inserts are keyed by the
    generated [event_id], and the Processed Row carries the generated values
    and, as its event time, the very text [utc_now_iso] produced. *)
Theorem generated_event_is_processed (L : PyLib) (round2 : float -> float)
    (sent_at now : wallclock) (d : draws)
    (message_id publish_time : option string) (attributes : option dict)
    (writer : BigQueryWriter) (config : PipelineConfig)
    (pd : option datetime) :
  PyLibLaws L ->
  1000 <= drawn_user d <= 999999 ->
  1000 <= drawn_product d <= 999999 ->
  (1 <= String.length (drawn_city d) <= 128)%nat ->
  PrimFloat.leb 0
    (round2 (scaled_price (choice EVENT_TYPES (drawn_event_type d))
               (drawn_base_price d))) = true ->
  _parse_rfc3339_timestamp L publish_time = Ok pd ->
  (forall log c, insert_rows_json writer log c = Ok []) ->
  exists v c1 c2 r2,
    model_validate L (generate_event round2 sent_at d) = inr v
    /\ process_event L now (generate_event round2 sent_at d) message_id
         publish_time attributes writer config [] = ([c1; c2], Ok tt)
    /\ kind_of c1 = RawWrite
    /\ call_row c2 = Processed r2
    /\ call_row_ids c1 = Some [uuid_str (drawn_event_id d)]
    /\ call_row_ids c2 = Some [uuid_str (drawn_event_id d)]
    /\ proc_event_id r2 = Some (uuid_str (drawn_event_id d))
    /\ proc_user_id r2 = "U" ++ Demo.int_text (drawn_user d)
    /\ proc_event_type r2 = choice EVENT_TYPES (drawn_event_type d)
    /\ proc_product_id r2 = "P" ++ Demo.int_text (drawn_product d)
    /\ proc_category r2 = choice CATEGORIES (drawn_category d)
    /\ proc_price r2
       = round2 (scaled_price (choice EVENT_TYPES (drawn_event_type d))
                   (drawn_base_price d))
    /\ proc_device r2 = choice DEVICES (drawn_device d)
    /\ proc_city r2 = drawn_city d
    /\ proc_event_time r2 = Some (utc_now_iso sent_at).
Proof.
  intros HL U P C F T A.
  destruct (generate_event_validates L round2 sent_at d HL U P C F)
    as [t [dev [Ht [Hd M]]]].
  set (event := generate_event round2 sent_at d) in *.
  set (v := Build_EcommerceEvent _ _ _ _ _ _ _ _ _) in M.
  assert (R : in_range (utc_instant (event_time v)) = true).
  { unfold utc_instant. cbn [v event_time _utc_now tzinfo wall].
    rewrite Z.sub_0_r. apply ticks_ok. }
  destruct (normalise_event_time_in_range L event v M R) as [x [N [Tx I]]].
  exists v. rewrite process_event_routed. unfold routed.
  rewrite T, N. cbv zeta.
  rewrite !answer_accepted by apply A. rewrite M.
  rewrite !answer_accepted by apply A.
  do 3 eexists. split; [reflexivity|]. split; [reflexivity|].
  split; [reflexivity|]. split; [reflexivity|].
  cbn [call_row call_row_ids raw_call processed_call mk_call proc_event_id
       proc_user_id proc_event_type proc_product_id proc_category proc_price
       proc_device proc_city proc_event_time render option_map].
  unfold insert_id, event_id_str, py_or. rewrite M.
  cbn [v event_id user_id event_type product_id category price device city].
  destruct (uuid_str_nonempty (drawn_event_id d)) as [a [s E]].
  rewrite E. cbn [truthy]. rewrite <- E.
  rewrite rfc3339_Z_text, I. unfold utc_instant.
  cbn [v event_time _utc_now tzinfo wall]. rewrite Z.sub_0_r.
  rewrite utc_now_iso_text, Ht, Hd.
  repeat (split; [reflexivity|]). reflexivity.
Qed.

(** ** Timestamps that are dropped, refused or out of range *)

Section Timestamps.

Context (L : PyLib) (clock : wallclock) (event : dict)
  (message_id publish_time : option string) (attributes : option dict)
  (writer : BigQueryWriter) (config : PipelineConfig).

(** X18: A [publish_time] that is absent, empty or refused by
    [fromisoformat] is dropped without a failure: the run is the run of an
    absent [publish_time] and every row it writes has a null
    [publish_time]; whenever the event time converts to UTC the run comes to
    the Raw Row write, whose row says whether the event is valid; and with a
    service that accepts the inserts [process_event] returns after the Raw
    Row and the Processed Row of a valid event or the validation Error Row
    of an invalid one. *)
Theorem unparsable_publish_time_is_dropped :
  absent_or_unparsable L publish_time ->
  process_event L clock event message_id publish_time attributes writer
    config []
  = process_event L clock event message_id None attributes writer config []
  /\ (forall c,
        In c (fst (process_event L clock event message_id publish_time
                     attributes writer config [])) ->
        row_publish_time (call_row c) = None)
  /\ (forall et,
        normalise_event_time L event = Ok et ->
        exists c rest r,
          fst (process_event L clock event message_id publish_time
                 attributes writer config []) = c :: rest
          /\ call_row c = Raw r
          /\ raw_publish_time r = None
          /\ raw_is_valid r
             = match model_validate L event with
               | inr _ => true
               | inl _ => false
               end)
  /\ (forall et,
        normalise_event_time L event = Ok et ->
        (forall log c, insert_rows_json writer log c = Ok []) ->
        snd (process_event L clock event message_id publish_time attributes
               writer config []) = Ok tt
        /\ map kind_of
             (fst (process_event L clock event message_id publish_time
                     attributes writer config []))
           = [RawWrite;
              match model_validate L event with
              | inr _ => ProcessedWrite
              | inl _ => ErrorWrite "validation"
              end]).
Proof.
  intros H. apply absent_or_unparsable_parse in H.
  rewrite !process_event_routed. split; [|split; [|split]].
  - unfold routed. rewrite H. reflexivity.
  - intros c Hc.
    destruct (routed_calls _ _ _ _ _ _ _ _ _ Hc)
      as [pd [et [P [_ [->|[[st [m [d ->]]]|[v [_ ->]]]]]]]];
      rewrite H in P; injection P as <-; reflexivity.
  - intros et N. unfold routed. rewrite H, N. cbv zeta.
    destruct (answer L writer [] _) as [[]|e1].
    + destruct (model_validate L event) as [errs|v] eqn:M.
      * do 3 eexists. split; [reflexivity|]. split; [reflexivity|].
        cbn [raw_publish_time raw_is_valid render option_map].
        rewrite M. split; reflexivity.
      * destruct (answer L writer [_] _) as [[]|e2];
          do 3 eexists; (split; [reflexivity|]); (split; [reflexivity|]);
          cbn [raw_publish_time raw_is_valid render option_map];
          rewrite M; split; reflexivity.
    + do 3 eexists. split; [reflexivity|]. split; [reflexivity|].
      split; reflexivity.
  - intros et N A. unfold routed. rewrite H, N. cbv zeta.
    rewrite !(answer_accepted L writer) by apply A.
    destruct (model_validate L event) as [errs|v];
      rewrite ?(answer_accepted L writer) by apply A; split; reflexivity.
Qed.

(** X19: An [event_time] that the datetime validator refuses is a defect of
    the event: validation fails with, among its defects, the one located at
    [event_time] that quotes the refused value and the validator's verdict;
    no Processed Row is written, and a Raw Row written for the event says
    [is_valid = false] and has no [event_id]. *)
Theorem refused_event_time_is_a_defect (x : json) (e : errinfo) :
  lookup event "event_time" = Some x ->
  datetime_validate L x = inl e ->
  exists errs,
    model_validate L event = inl errs
    /\ In {| d_type := e_type e; d_loc := "event_time"; d_msg := e_msg e;
             d_input := x; d_ctx := e_ctx e |} errs
    /\ (forall c,
          In c (fst (process_event L clock event message_id publish_time
                       attributes writer config [])) ->
          kind_of c <> ProcessedWrite)
    /\ (forall c r,
          In c (fst (process_event L clock event message_id publish_time
                       attributes writer config [])) ->
          call_row c = Raw r ->
          raw_is_valid r = false /\ raw_event_id r = None).
Proof.
  intros Hl Hv.
  assert (M : exists errs,
             model_validate L event = inl errs
             /\ In {| d_type := e_type e; d_loc := "event_time";
                      d_msg := e_msg e; d_input := x; d_ctx := e_ctx e |}
                   errs).
  { unfold model_validate.
    match goal with
    | |- exists errs, ?f <*> ?y = _ /\ _ =>
        assert (Y : y = inl [{| d_type := e_type e; d_loc := "event_time";
                                d_msg := e_msg e; d_input := x;
                                d_ctx := e_ctx e |}])
          by (unfold field; rewrite Hl, Hv; reflexivity);
        rewrite Y; destruct f as [errs|g]
    end.
    - eexists. split; [reflexivity|]. apply in_or_app. right. left.
      reflexivity.
    - eexists. split; [reflexivity|]. left. reflexivity. }
  destruct M as [errs [M I]]. exists errs. split; [exact M|].
  split; [exact I|]. rewrite process_event_routed. split.
  - intros c Hc.
    destruct (routed_calls _ _ _ _ _ _ _ _ _ Hc)
      as [pd [et [_ [_ [->|[[st [m [d ->]]]|[v [Mv ->]]]]]]]];
      [discriminate|discriminate|congruence].
  - intros c r Hc Hr.
    destruct (routed_calls _ _ _ _ _ _ _ _ _ Hc)
      as [pd [et [_ [_ [->|[[st [m [d ->]]]|[v [Mv ->]]]]]]]];
      simpl in Hr; try discriminate.
    injection Hr as <-. cbn [raw_is_valid raw_event_id].
    unfold event_id_str. rewrite M. split; reflexivity.
Qed.

(** X20: A valid event whose [event_time] carries an offset and denotes an
    instant that is not representable in UTC is not stored: once the
    [publish_time] is parsed, the conversion of the [event_time] raises
    [OverflowError] and [process_event] ends before the first insert. *)
Theorem overflowing_event_time_fails_the_run (v : EcommerceEvent) (o : Z)
    (pd : option datetime) :
  model_validate L event = inr v ->
  tzinfo (event_time v) = Some o ->
  in_range (ticks (wall (event_time v)) - o) = false ->
  _parse_rfc3339_timestamp L publish_time = Ok pd ->
  process_event L clock event message_id publish_time attributes writer
    config []
  = ([], Raise (Exn OverflowError "date value out of range" None))
  /\ pubsub_push_response
       (snd (process_event L clock event message_id publish_time attributes
               writer config []))
     = Http 500 "date value out of range".
Proof.
  intros M T R P. rewrite process_event_routed. unfold routed.
  rewrite P. unfold normalise_event_time. rewrite M, T.
  unfold astimezone_UTC, instant. rewrite T.
  destruct (mk_wall _) as [w|] eqn:W.
  - pose proof (ticks_ok w) as K. rewrite (mk_wall_Some _ _ W) in K.
    congruence.
  - split; reflexivity.
Qed.

End Timestamps.

(** ** The properties above on the scenario *)

Lemma valid_event_is_stored_witness :
  exists v c1 r1 c2 r2,
    model_validate Demo.lib Demo.purchase_event = inr v
    /\ process_event Demo.lib Demo.clock Demo.purchase_event (Some "m1")
         None None Demo.accepting Demo.config [] = ([c1; c2], Ok tt)
    /\ call_row c1 = Raw r1 /\ call_row c2 = Processed r2
    /\ raw_is_valid r1 = true
    /\ proc_user_id r2 = user_id v.
Proof.
  assert (M : exists v,
             model_validate Demo.lib Demo.purchase_event = inr v
             /\ in_range (utc_instant (event_time v)) = true).
  { eexists. split; [vm_compute; reflexivity|].
    cbv [utc_instant event_time tzinfo wall ticks]. reflexivity. }
  destruct M as [v [M R]]. exists v.
  destruct (valid_event_is_stored Demo.lib Demo.clock Demo.purchase_event
              (Some "m1") None None Demo.accepting Demo.config v None M
              eq_refl R (fun _ _ => eq_refl))
    as [c1 [r1 [c2 [r2 [H [H1 [H2 [V [_ [_ [_ [U _]]]]]]]]]]]].
  exists c1, r1, c2, r2. repeat split; assumption.
Defined.

Lemma invalid_event_is_recorded_witness :
  exists errs c1 r1 c2 r2,
    model_validate Demo.lib Demo.invalid_event = inl errs
    /\ process_event Demo.lib Demo.clock Demo.invalid_event (Some "m1")
         None None Demo.accepting Demo.config [] = ([c1; c2], Ok tt)
    /\ call_row c1 = Raw r1 /\ call_row c2 = Error r2
    /\ raw_is_valid r1 = false
    /\ err_stage r2 = "validation"
    /\ err_error_details r2 = raw_validation_errors r1.
Proof.
  assert (M : exists errs,
             model_validate Demo.lib Demo.invalid_event = inl errs).
  { vm_compute. eexists. reflexivity. }
  destruct M as [errs M]. exists errs.
  destruct (invalid_event_is_recorded Demo.lib Demo.clock Demo.invalid_event
              (Some "m1") None None Demo.accepting Demo.config errs None
              None M eq_refl eq_refl (fun _ _ => eq_refl))
    as [c1 [r1 [c2 [r2 [H [H1 [H2 [V [_ [_ [S [_ [D _]]]]]]]]]]]]].
  exists c1, r1, c2, r2. repeat split; assumption.
Defined.

Lemma processed_failure_is_logged_and_raised_witness :
  (exists c1 c2 c3 outcome r3,
     process_event Demo.lib Demo.clock Demo.purchase_event (Some "m1") None
       None (Demo.rejecting [Demo.processed_ref]) Demo.config []
     = ([c1; c2; c3], outcome)
     /\ kind_of c2 = ProcessedWrite
     /\ call_row c3 = Error r3
     /\ err_stage r3 = "processed_insert"
     /\ err_error_message r3 = Demo.rejected_message Demo.processed_ref
     /\ pubsub_push_response outcome
        = Http 500 (Demo.rejected_message Demo.processed_ref))
  /\ (exists c1 c2 c3 outcome r3,
        process_event Demo.lib Demo.clock Demo.purchase_event (Some "m1")
          None None (Demo.failing [Demo.processed_ref]) Demo.config []
        = ([c1; c2; c3], outcome)
        /\ kind_of c2 = ProcessedWrite
        /\ call_row c3 = Error r3
        /\ err_stage r3 = "processed_insert"
        /\ err_error_message r3 = "503 backend unavailable"
        /\ outcome = Raise Demo.unavailable
        /\ pubsub_push_response outcome = Http 500 "503 backend unavailable").
Proof.
  split.
  - assert (R : exists c1 c2 c3 outcome,
               process_event Demo.lib Demo.clock Demo.purchase_event
                 (Some "m1") None None (Demo.rejecting [Demo.processed_ref])
                 Demo.config []
               = ([c1; c2; c3], outcome)
               /\ insert_rows_json (Demo.rejecting [Demo.processed_ref])
                    [c1; c2] c3 = Ok []
               /\ match insert_rows_json
                          (Demo.rejecting [Demo.processed_ref]) [c1] c2 with
                  | Raise raised => raised
                  | Ok errors =>
                      Exn RuntimeError
                        ("BigQuery insert failed for " ++ call_table c2
                         ++ ": " ++ py_repr Demo.lib (JList errors)) None
                  end
                  = Exn RuntimeError
                      (Demo.rejected_message Demo.processed_ref) None).
    { do 4 eexists. split; [vm_compute; reflexivity|].
      split; vm_compute; reflexivity. }
    destruct R as [c1 [c2 [c3 [outcome [R [A E]]]]]].
    pose proof (processed_failure_is_logged_and_raised Demo.lib Demo.clock
                  Demo.purchase_event (Some "m1") None None
                  (Demo.rejecting [Demo.processed_ref]) Demo.config c1 c2 c3
                  outcome R A) as H.
    cbv zeta in H. rewrite E in H.
    destruct H as [K [_ [[r3 [H3 [S3 [M3 _]]]] [_ P]]]].
    exists c1, c2, c3, outcome, r3. repeat split; assumption.
  - assert (R : exists c1 c2 c3 outcome,
               process_event Demo.lib Demo.clock Demo.purchase_event
                 (Some "m1") None None (Demo.failing [Demo.processed_ref])
                 Demo.config []
               = ([c1; c2; c3], outcome)
               /\ insert_rows_json (Demo.failing [Demo.processed_ref])
                    [c1; c2] c3 = Ok []
               /\ match insert_rows_json
                          (Demo.failing [Demo.processed_ref]) [c1] c2 with
                  | Raise raised => raised
                  | Ok errors =>
                      Exn RuntimeError
                        ("BigQuery insert failed for " ++ call_table c2
                         ++ ": " ++ py_repr Demo.lib (JList errors)) None
                  end
                  = Demo.unavailable).
    { do 4 eexists. split; [vm_compute; reflexivity|].
      split; vm_compute; reflexivity. }
    destruct R as [c1 [c2 [c3 [outcome [R [A E]]]]]].
    pose proof (processed_failure_is_logged_and_raised Demo.lib Demo.clock
                  Demo.purchase_event (Some "m1") None None
                  (Demo.failing [Demo.processed_ref]) Demo.config c1 c2 c3
                  outcome R A) as H.
    cbv zeta in H. rewrite E in H.
    destruct H as [K [_ [[r3 [H3 [S3 [M3 _]]]] [O P]]]].
    exists c1, c2, c3, outcome, r3. repeat split; assumption.
Defined.

Lemma rows_go_to_their_tables_witness :
  exists c,
    In c (fst (process_event Demo.lib Demo.clock Demo.invalid_event
                 (Some "m1") None None Demo.accepting Demo.config []))
    /\ call_table c
       = "shop.ecommerce_streaming." ++ table_for Demo.config (call_row c).
Proof.
  assert (H : exists c,
             In c (fst (process_event Demo.lib Demo.clock Demo.invalid_event
                          (Some "m1") None None Demo.accepting Demo.config
                          []))).
  { vm_compute. eexists. right. left. reflexivity. }
  destruct H as [c H]. exists c. split; [exact H|].
  exact (rows_go_to_their_tables Demo.lib Demo.clock Demo.invalid_event
           (Some "m1") None None Demo.accepting Demo.config c H).
Defined.

Lemma rows_share_delivery_metadata_witness :
  exists c c',
    In c (fst (process_event Demo.lib Demo.clock Demo.invalid_event
                 (Some "m1") None None Demo.accepting Demo.config []))
    /\ In c' (fst (process_event Demo.lib Demo.clock Demo.invalid_event
                     (Some "m1") None None Demo.accepting Demo.config []))
    /\ kind_of c = RawWrite
    /\ kind_of c' = ErrorWrite "validation"
    /\ row_ingestion_time (call_row c') = row_ingestion_time (call_row c).
Proof.
  assert (H : exists c c',
             In c (fst (process_event Demo.lib Demo.clock Demo.invalid_event
                          (Some "m1") None None Demo.accepting Demo.config
                          []))
             /\ In c' (fst (process_event Demo.lib Demo.clock
                              Demo.invalid_event (Some "m1") None None
                              Demo.accepting Demo.config []))
             /\ kind_of c = RawWrite
             /\ kind_of c' = ErrorWrite "validation").
  { do 2 eexists.
    split; [vm_compute; left; reflexivity|].
    split; [vm_compute; right; left; reflexivity|].
    split; [vm_compute; reflexivity|]. vm_compute. reflexivity. }
  destruct H as [c [c' [H [H' [K K']]]]]. exists c, c'.
  destruct (rows_share_delivery_metadata Demo.lib Demo.clock
              Demo.invalid_event (Some "m1") None None Demo.accepting
              Demo.config c c' H H') as [_ [E _]].
  repeat split; assumption.
Defined.

Lemma pubsub_push_non_object_payload_witness :
  payload_of DemoPush.web (DemoPush.envelope DemoPush.list_data)
  = Some (JList [JInt 1])
  /\ pubsub_push DemoPush.web Demo.lib DemoPush.env Demo.clock
       (DemoPush.envelope DemoPush.list_data)
     = ([], Http 500 "'list' object has no attribute 'get'").
Proof.
  split; [reflexivity|].
  destruct (pubsub_push_non_object_payload DemoPush.web Demo.lib DemoPush.env
              Demo.clock (DemoPush.envelope DemoPush.list_data)
              (JList [JInt 1]) eq_refl eq_refl) as [F [_ R]].
  assert (P : exists pd,
             _parse_rfc3339_timestamp Demo.lib
               (if_str (metadata_of (DemoPush.envelope DemoPush.list_data)
                          "publishTime")) = Ok pd).
  { vm_compute. eexists. reflexivity. }
  destruct P as [pd P]. specialize (R pd P).
  destruct (pubsub_push _ _ _ _ _) as [log r]. cbn [fst snd] in *.
  rewrite F, R. reflexivity.
Defined.

Lemma pubsub_push_acknowledges_only_stored_events_witness :
  exists c1 c2 r1,
    snd (pubsub_push DemoPush.web Demo.lib DemoPush.env Demo.clock
           (DemoPush.envelope DemoPush.invalid_data))
    = Http 200 "accepted"
    /\ fst (pubsub_push DemoPush.web Demo.lib DemoPush.env Demo.clock
              (DemoPush.envelope DemoPush.invalid_data)) = [c1; c2]
    /\ call_row c1 = Raw r1
    /\ raw_is_valid r1 = false
    /\ kind_of c2 = ErrorWrite "validation".
Proof.
  assert (S : snd (pubsub_push DemoPush.web Demo.lib DemoPush.env Demo.clock
                     (DemoPush.envelope DemoPush.invalid_data))
              = Http 200 "accepted") by (vm_compute; reflexivity).
  assert (N : map kind_of
                (fst (pubsub_push DemoPush.web Demo.lib DemoPush.env
                        Demo.clock
                        (DemoPush.envelope DemoPush.invalid_data)))
              = [RawWrite; ErrorWrite "validation"])
    by (vm_compute; reflexivity).
  assert (H : status_of
                (snd (pubsub_push DemoPush.web Demo.lib DemoPush.env
                        Demo.clock
                        (DemoPush.envelope DemoPush.invalid_data))) = 200)
    by (rewrite S; reflexivity).
  destruct (pubsub_push_acknowledges_only_stored_events DemoPush.web Demo.lib
              DemoPush.env Demo.clock
              (DemoPush.envelope DemoPush.invalid_data) H)
    as [c1 [c2 [r1 [F [R [_ [_ [[V K]|[V K]]]]]]]]].
  - exfalso. rewrite F in N. cbn [map] in N. congruence.
  - exists c1, c2, r1. repeat split; assumption.
Defined.

Lemma pubsub_push_acknowledges_object_payloads_witness :
  payload_of DemoPush.web (DemoPush.envelope DemoPush.purchase_data)
  = Some (JDict Demo.purchase_event)
  /\ snd (pubsub_push DemoPush.web Demo.lib DemoPush.env Demo.clock
            (DemoPush.envelope DemoPush.purchase_data))
     = Http 200 "accepted"
  /\ map kind_of
       (fst (pubsub_push DemoPush.web Demo.lib DemoPush.env Demo.clock
               (DemoPush.envelope DemoPush.purchase_data)))
     = [RawWrite;
        match model_validate Demo.lib Demo.purchase_event with
        | inr _ => ProcessedWrite
        | inl _ => ErrorWrite "validation"
        end].
Proof.
  split; [reflexivity|].
  assert (P : exists pd et,
             _parse_rfc3339_timestamp Demo.lib
               (if_str (metadata_of
                          (DemoPush.envelope DemoPush.purchase_data)
                          "publishTime")) = Ok pd
             /\ normalise_event_time Demo.lib Demo.purchase_event = Ok et).
  { do 2 eexists. split; [vm_compute; reflexivity|].
    vm_compute. reflexivity. }
  destruct P as [pd [et [P N]]].
  exact (pubsub_push_acknowledges_object_payloads DemoPush.web Demo.lib
           DemoPush.env Demo.clock
           (DemoPush.envelope DemoPush.purchase_data) Demo.purchase_event
           pd et eq_refl P N (fun _ _ => eq_refl)).
Defined.

Lemma pubsub_push_tables_come_from_the_environment_witness :
  exists c,
    In c (fst (pubsub_push DemoPush.web Demo.lib DemoPush.env Demo.clock
                 (DemoPush.envelope DemoPush.purchase_data)))
    /\ call_table c
       = "shop-eu.ecommerce_streaming."
         ++ match call_row c with
            | Raw _ => "raw"
            | Processed _ => "ecommerce_processed_events"
            | Error _ => "ecommerce_error_events"
            end.
Proof.
  assert (H : exists c,
             In c (fst (pubsub_push DemoPush.web Demo.lib DemoPush.env
                          Demo.clock
                          (DemoPush.envelope DemoPush.purchase_data)))).
  { vm_compute. eexists. left. reflexivity. }
  destruct H as [c H]. exists c. split; [exact H|].
  exact (pubsub_push_tables_come_from_the_environment DemoPush.web Demo.lib
           DemoPush.env Demo.clock
           (DemoPush.envelope DemoPush.purchase_data) c H).
Defined.

Lemma generated_event_is_processed_witness :
  exists v c1 c2 r2,
    model_validate Demo.lib
      (generate_event (fun x => x) Demo.clock DemoPush.sample) = inr v
    /\ process_event Demo.lib Demo.clock
         (generate_event (fun x => x) Demo.clock DemoPush.sample)
         (Some "m1") None None Demo.accepting Demo.config []
       = ([c1; c2], Ok tt)
    /\ call_row c2 = Processed r2
    /\ proc_user_id r2 = "U4711"
    /\ proc_event_type r2 = "purchase"
    /\ proc_category r2 = "fashion"
    /\ proc_device r2 = "tablet"
    /\ proc_event_time r2 = Some "2024-01-01T12:00:00Z".
Proof.
  destruct (generated_event_is_processed Demo.lib (fun x => x) Demo.clock
              Demo.clock DemoPush.sample (Some "m1") None None
              Demo.accepting Demo.config None demo_laws)
    as [v [c1 [c2 [r2 [M [R [_ [C [_ [_ [_ [U [T [_ [G [_ [D [_ E]]]]]]]]]]]]]]]]]].
  - cbn; lia.
  - cbn; lia.
  - cbn; lia.
  - vm_compute; reflexivity.
  - reflexivity.
  - reflexivity.
  - exists v, c1, c2, r2. repeat split; assumption.
Defined.

Lemma unparsable_publish_time_is_dropped_witness :
  absent_or_unparsable Demo.lib (Some "yesterday")
  /\ process_event Demo.lib Demo.clock Demo.purchase_event (Some "m1")
       (Some "yesterday") None Demo.accepting Demo.config []
     = process_event Demo.lib Demo.clock Demo.purchase_event (Some "m1")
         None None Demo.accepting Demo.config []
  /\ snd (process_event Demo.lib Demo.clock Demo.purchase_event (Some "m1")
            (Some "yesterday") None Demo.accepting Demo.config [])
     = Ok tt
  /\ map kind_of
       (fst (process_event Demo.lib Demo.clock Demo.purchase_event
               (Some "m1") (Some "yesterday") None Demo.accepting
               Demo.config []))
     = [RawWrite;
        match model_validate Demo.lib Demo.purchase_event with
        | inr _ => ProcessedWrite
        | inl _ => ErrorWrite "validation"
        end].
Proof.
  assert (H : absent_or_unparsable Demo.lib (Some "yesterday"))
    by (right; vm_compute; reflexivity).
  assert (N : exists et,
             normalise_event_time Demo.lib Demo.purchase_event = Ok et)
    by (eexists; vm_compute; reflexivity).
  destruct N as [et N].
  destruct (unparsable_publish_time_is_dropped Demo.lib Demo.clock
              Demo.purchase_event (Some "m1") (Some "yesterday") None
              Demo.accepting Demo.config H) as [E [_ [_ A]]].
  destruct (A et N (fun _ _ => eq_refl)) as [O K].
  split; [exact H|]. split; [exact E|]. split; [exact O|exact K].
Defined.

Lemma refused_event_time_is_a_defect_witness :
  lookup Demo.malformed_event "event_time" = Some (JStr "yesterday")
  /\ exists errs,
       model_validate Demo.lib Demo.malformed_event = inl errs
       /\ In "event_time" (map d_loc errs).
Proof.
  split; [reflexivity|].
  assert (V : exists e, datetime_validate Demo.lib (JStr "yesterday") = inl e)
    by (eexists; vm_compute; reflexivity).
  destruct V as [e V].
  destruct (refused_event_time_is_a_defect Demo.lib Demo.clock
              Demo.malformed_event (Some "m1") None None Demo.accepting
              Demo.config (JStr "yesterday") e eq_refl V)
    as [errs [M [I _]]].
  exists errs. split; [exact M|].
  apply (in_map d_loc) in I. exact I.
Defined.

Lemma overflowing_event_time_fails_the_run_witness :
  (exists v, model_validate Demo.lib Demo.early_purchase_event = inr v)
  /\ process_event Demo.lib Demo.clock Demo.early_purchase_event (Some "m1")
       None None Demo.accepting Demo.config []
     = ([], Raise (Exn OverflowError "date value out of range" None)).
Proof.
  assert (M : exists v o,
             model_validate Demo.lib Demo.early_purchase_event = inr v
             /\ tzinfo (event_time v) = Some o
             /\ in_range (ticks (wall (event_time v)) - o) = false).
  { do 2 eexists. split; [vm_compute; reflexivity|].
    split; [reflexivity|]. cbv [event_time wall ticks]. reflexivity. }
  destruct M as [v [o [M [T R]]]].
  split; [exists v; exact M|].
  exact (proj1 (overflowing_event_time_fails_the_run Demo.lib Demo.clock
                  Demo.early_purchase_event (Some "m1") None None
                  Demo.accepting Demo.config v o None M T R eq_refl)).
Defined.
